(** * Withings exporter: a shallow embedding of the authenticated sync engine

    The development follows the Python sources module by module:

    - [Py]          : the few pieces of Python semantics the code relies on
                      (truthiness, [int()] truncation, [str()] of an
                      integer, exceptions);
    - [Http]        : the part of [requests] the sources use;
    - [OAuth]       : [oauth_client.py] (token model, expiry check, code
                      exchange and refresh);
    - [ApiClient]   : [api_client.py] ([_make_request], envelope unwrapping,
                      the rate-limit retry);
    - [Datetime]    : naive datetimes, [timedelta], [strftime('%Y-%m-%d')];
    - [Storage]     : the parts of [storage.py] the fetcher talks to;
    - [Fetcher]     : [fetcher.py] (pagination, chunking, per-type
                      isolation);
    - [FetcherSpec] : the vocabulary of the statements about the fetcher;
    - [Scenarios]   : concrete vendors and databases for the examples.

    The definitions come first, the lemmas and theorems after them.

    Integers are [Z]; the wall clock [time.time()] is a rational (every
    binary float is one); dictionaries coming from JSON are records whose
    optional keys are [option] fields; the outside world (HTTP server, vendor
    API) is an oracle indexed by the number of calls already made; what the
    code does to the outside world is recorded in a trace of events. The
    database is total: its operations do not fail. *)

From Stdlib Require Import ZArith QArith Qround String Ascii List Lia Bool.
From Stdlib Require Import DecimalString DecimalZ DecimalPos.
From stdpp Require Import gmap strings list fin_maps sorting.
Import ListNotations.

Local Open Scope string_scope.
Local Open Scope Z_scope.

(* ===================================================================== *)
(** * Python semantics used by the sources                               *)
(* ===================================================================== *)

Module Py.

(** The exception classes that occur in the modelled files. All of them
    derive from [Exception]; the first four are [WithingsAPIError] and its
    subclasses, the three [requests] ones derive from
    [requests.exceptions.RequestException]. *)
Inductive Exn : Type :=
| WithingsAPIError (status_code : Z) (message : string)
| WithingsAuthError (status_code : Z) (message : string)
| WithingsRateLimitError (retry_after : Z)
| WithingsInvalidParamsError (status_code : Z) (message : string)
| WithingsOAuthError (status_code : Z) (message : string) (has_response : bool)
| HTTPError (status_code : Z)
| ConnectionError
| JSONDecodeError
| ValueError (msg : string)
| KeyError (key : string)
| AttributeError (msg : string)
| TypeError (msg : string).

(** [isinstance(e, WithingsAPIError)] *)
Definition is_WithingsAPIError (e : Exn) : bool :=
  match e with
  | WithingsAPIError _ _ | WithingsAuthError _ _
  | WithingsRateLimitError _ | WithingsInvalidParamsError _ _ => true
  | _ => false
  end.

(** [isinstance(e, requests.exceptions.RequestException)] *)
Definition is_RequestException (e : Exn) : bool :=
  match e with
  | HTTPError _ | ConnectionError | JSONDecodeError => true
  | _ => false
  end.

(** [isinstance(e, WithingsOAuthError)] *)
Definition is_WithingsOAuthError (e : Exn) : bool :=
  match e with
  | WithingsOAuthError _ _ _ => true
  | _ => false
  end.

(** [str(n)] for an integer. *)
Definition str_Z (n : Z) : string := NilZero.string_of_int (Z.to_int n).

(** [int(x)] for a float [x]: truncation toward zero. *)
Definition py_int (x : Q) : Z := Z.quot (Qnum x) (Z.pos (Qden x)).

(** Truthiness of an [Optional[int]]: [None] and [0] are falsy. *)
Definition truthy_optZ (o : option Z) : bool :=
  match o with
  | None => false
  | Some n => negb (n =? 0)
  end.

(** Truthiness of a [str]: only the empty string is falsy. *)
Definition truthy_str (s : string) : bool :=
  match s with
  | EmptyString => false
  | String _ _ => true
  end.

(** [d.get(key, default)] on an optional field. *)
Definition get_default {A : Type} (o : option A) (d : A) : A :=
  match o with
  | Some a => a
  | None => d
  end.

(** [d[key]]: a missing key raises [KeyError]. *)
Definition subscript {A : Type} (key : string) (o : option A) : Exn + A :=
  match o with
  | Some a => inr a
  | None => inl (KeyError key)
  end.

(** [s.upper()] on ASCII letters. *)
Definition upper_ascii (c : ascii) : ascii :=
  let n := nat_of_ascii c in
  if ((97 <=? n) && (n <=? 122))%nat then ascii_of_nat (n - 32) else c.

Fixpoint upper (s : string) : string :=
  match s with
  | EmptyString => EmptyString
  | String c s' => String (upper_ascii c) (upper s')
  end.

(** The outcome of running a statement that may loop: it returns, raises,
    or is still running when the fuel of the model is spent. *)
Inductive Outcome (A : Type) : Type :=
| Ret (a : A)
| Raise (e : Exn)
| Diverge.
Arguments Ret {A} a.
Arguments Raise {A} e.
Arguments Diverge {A}.

(** Fallible pure code: [inl e] is a raised exception. *)
Definition Result (A : Type) : Type := (Exn + A)%type.

Definition bindR {A B : Type} (c : Result A) (k : A -> Result B) : Result B :=
  match c with
  | inl e => inl e
  | inr a => k a
  end.

Notation "'let!' x ':=' c 'in' k" := (bindR c (fun x => k))
  (at level 10, x pattern, c at level 100, k at level 200).

End Py.
Import Py.

(* ===================================================================== *)
(** * The [requests] library, as far as the sources use it               *)
(* ===================================================================== *)

Module Http.

(** What [response.json()] does. *)
Inductive JsonBody (A : Type) : Type :=
| NotJson (text : string)        (* raises requests.exceptions.JSONDecodeError *)
| JsonNonDict                    (* valid JSON, but not an object *)
| JsonDict (result : A).
Arguments NotJson {A} text.
Arguments JsonNonDict {A}.
Arguments JsonDict {A} result.

(** A [requests.Response]. *)
Record Response (A : Type) : Type := mkResponse {
  status_code : Z;
  json : JsonBody A
}.
Arguments mkResponse {A}.
Arguments status_code {A}.
Arguments json {A}.

(** What [requests.post] / [requests.get] does. *)
Inductive HttpOutcome (A : Type) : Type :=
| TransportFailure               (* raises a RequestException *)
| Responded (r : Response A).
Arguments TransportFailure {A}.
Arguments Responded {A} r.

(** [response.raise_for_status()]: [HTTPError] for 4xx and 5xx. *)
Definition raise_for_status {A : Type} (r : Response A) : Result unit :=
  if (400 <=? status_code r) && (status_code r <? 600)
  then inl (HTTPError (status_code r))
  else inr tt.

End Http.
Import Http.

(* ===================================================================== *)
(** * oauth_client.py                                                    *)
(* ===================================================================== *)

Module OAuth.

(** [@dataclass class OAuthToken] *)
Record OAuthToken : Type := mkToken {
  access_token : string;
  refresh_token : string;
  token_type : string;
  expires_in : Z;
  token_expiry : Z;
  userid : option Z;
  scope : option string
}.

(** The dictionary [from_dict] receives: the [body] of a token response or
    the stored JSON. A missing key (or a JSON [null], which [dict.get] does
    not tell apart from a missing key) is [None]. *)
Record TokenDict : Type := mkTokenDict {
  d_access_token : option string;
  d_refresh_token : option string;
  d_token_type : option string;
  d_expires_in : option Z;
  d_token_expiry : option Z;
  d_userid : option Z;
  d_scope : option string
}.

(** [body['token_expiry'] = v] *)
Definition set_token_expiry (v : Z) (d : TokenDict) : TokenDict :=
  {| d_access_token := d_access_token d;
     d_refresh_token := d_refresh_token d;
     d_token_type := d_token_type d;
     d_expires_in := d_expires_in d;
     d_token_expiry := Some v;
     d_userid := d_userid d;
     d_scope := d_scope d |}.

(** [OAuthToken.from_dict]; [now] is the reading of [time.time()]. *)
Definition from_dict (now : Q) (data : TokenDict) : Result OAuthToken :=
  let! a := subscript "access_token" (d_access_token data) in
  let! r := subscript "refresh_token" (d_refresh_token data) in
  inr {| access_token := a;
         refresh_token := r;
         token_type := get_default (d_token_type data) "Bearer";
         expires_in := get_default (d_expires_in data) 10800;
         token_expiry :=
           get_default (d_token_expiry data)
             (py_int (now + inject_Z (get_default (d_expires_in data) 10800%Z))%Q);
         userid := d_userid data;
         scope := d_scope data |}.

(** [token.userid = u] *)
Definition set_userid (u : option Z) (t : OAuthToken) : OAuthToken :=
  {| access_token := access_token t;
     refresh_token := refresh_token t;
     token_type := token_type t;
     expires_in := expires_in t;
     token_expiry := token_expiry t;
     userid := u;
     scope := scope t |}.

(** [OAuthToken.is_expired(buffer_seconds)]:
    [int(time.time()) >= (self.token_expiry - buffer_seconds)]. *)
Definition is_expired_with (buffer_seconds : Z) (t : OAuthToken) (now : Q) : bool :=
  token_expiry t - buffer_seconds <=? py_int now.

(** The default [buffer_seconds = 300]. *)
Definition is_expired (t : OAuthToken) (now : Q) : bool :=
  is_expired_with 300 t now.

(** [str(WithingsOAuthError(status_code, message))] *)
Definition oauth_error_str (status_code : Z) (message : string) : string :=
  "OAuth Error " ++ str_Z status_code ++ ": " ++ message.

(** The envelope of the token endpoint, [{"status": .., "error": ..,
    "body": {..}}]. *)
Record TokenEnvelope : Type := mkTokenEnvelope {
  e_status : option Z;
  e_error : option string;
  e_body : option TokenDict
}.

(** The form posted to the token endpoint. *)
Definition Form : Type := list (string * string).

(** The token endpoint, as seen by the client. *)
Definition TokenEndpoint : Type := Form -> HttpOutcome TokenEnvelope.

(** [class WithingsOAuthClient]: the fields, and the token file. *)
Record Client : Type := mkClient {
  client_id : string;
  client_secret : string;
  callback_uri : string;
  auto_refresh : bool;
  token : option OAuthToken;
  token_file : option OAuthToken
}.

Definition set_token (t : OAuthToken) (c : Client) : Client :=
  {| client_id := client_id c;
     client_secret := client_secret c;
     callback_uri := callback_uri c;
     auto_refresh := auto_refresh c;
     token := Some t;
     token_file := token_file c |}.

(** [_save_token] *)
Definition _save_token (c : Client) : Client :=
  match token c with
  | None => c
  | Some t =>
      {| client_id := client_id c;
         client_secret := client_secret c;
         callback_uri := callback_uri c;
         auto_refresh := auto_refresh c;
         token := token c;
         token_file := Some t |}
  end.

(** The part shared by exchange and refresh: [raise_for_status], the JSON
    parse with its [except JSONDecodeError], the envelope check, and the
    computation of the absolute expiry. [default_error] is the fallback of
    [result.get('error', ..)]. *)
Definition read_token_response (default_error : string) (now : Q)
    (r : Response TokenEnvelope) : Result TokenDict :=
  let! _ := raise_for_status r in
  match json r with
  | NotJson _ =>
      inl (WithingsOAuthError (status_code r)
             "Non-JSON response from token endpoint" false)
  | JsonNonDict => inl (AttributeError "get")
  | JsonDict result =>
      if negb (match e_status result with Some 0 => true | _ => false end)
      then inl (WithingsOAuthError (get_default (e_status result) (-1))
                  (get_default (e_error result) default_error) true)
      else
        let! body := subscript "body" (e_body result) in
        inr (set_token_expiry
               (py_int now + get_default (d_expires_in body) 10800) body)
  end.

(** [exchange_code_for_token] *)
Definition exchange_code_for_token (endpoint : TokenEndpoint) (now : Q)
    (authorization_code : string) (c : Client) : Result OAuthToken * Client :=
  let data := [("action", "requesttoken");
               ("grant_type", "authorization_code");
               ("client_id", client_id c);
               ("client_secret", client_secret c);
               ("code", authorization_code);
               ("redirect_uri", callback_uri c)] in
  match endpoint data with
  | TransportFailure => (inl ConnectionError, c)
  | Responded response =>
      match (let! body := read_token_response "Unknown error" now response in
             from_dict now body) with
      | inl e => (inl e, c)
      | inr t => (inr t, _save_token (set_token t c))
      end
  end.

(** [refresh_access_token] *)
Definition refresh_access_token (endpoint : TokenEndpoint) (now : Q)
    (c : Client) : Result OAuthToken * Client :=
  match token c with
  | None => (inl (WithingsOAuthError 0 "No refresh token available" false), c)
  | Some held =>
      if negb (truthy_str (refresh_token held))
      then (inl (WithingsOAuthError 0 "No refresh token available" false), c)
      else
        let data := [("action", "requesttoken");
                     ("grant_type", "refresh_token");
                     ("client_id", client_id c);
                     ("client_secret", client_secret c);
                     ("refresh_token", refresh_token held)] in
        match endpoint data with
        | TransportFailure => (inl ConnectionError, c)
        | Responded response =>
            match (let! body := read_token_response "Token refresh failed" now response in
                   from_dict now body) with
            | inl e => (inl e, c)
            | inr t =>
                let old_userid := userid held in
                let t' := if negb (truthy_optZ (userid t))
                          then set_userid old_userid t else t in
                (inr t', _save_token (set_token t' c))
            end
        end
  end.

(** [get_valid_token] *)
Definition get_valid_token (endpoint : TokenEndpoint) (now : Q)
    (c : Client) : Result OAuthToken * Client :=
  match token c with
  | None =>
      (inl (WithingsOAuthError 0 "Not authenticated. Run setup first." false), c)
  | Some held =>
      if is_expired held now && auto_refresh c
      then
        match refresh_access_token endpoint now c with
        | (inl e, c') => (inl e, c')
        | (inr _, c') =>
            match token c' with
            | Some t => (inr t, c')
            | None => (inr held, c')
            end
        end
      else (inr held, c)
  end.

(** [OAuthToken.to_dict]: every key is written; [userid] and [scope] may
    be [None]. *)
Definition to_dict (t : OAuthToken) : TokenDict :=
  {| d_access_token := Some (access_token t);
     d_refresh_token := Some (refresh_token t);
     d_token_type := Some (token_type t);
     d_expires_in := Some (expires_in t);
     d_token_expiry := Some (token_expiry t);
     d_userid := userid t;
     d_scope := scope t |}.

(** What [_load_token] finds at [token_storage_path]: no file, a file
    that cannot be read as a JSON object, or a JSON object. *)
Inductive TokenFile : Type :=
| NoFile
| Unreadable
| Stored (data : TokenDict).

(** The file [_save_token] leaves: [json.dump(self.token.to_dict(), f)]. *)
Definition file_of (saved : option OAuthToken) : TokenFile :=
  match saved with
  | None => NoFile
  | Some t => Stored (to_dict t)
  end.

(** [_load_token]: whatever goes wrong is logged and the token stays as it
    is. *)
Definition _load_token (now : Q) (file : TokenFile) (c : Client) : Client :=
  match file with
  | NoFile => c
  | Unreadable => c
  | Stored data =>
      match from_dict now data with
      | inr t => set_token t c
      | inl _ => c
      end
  end.

(** [WithingsOAuthClient.__init__] in a process that finds on disk the file
    an earlier [_save_token] left ([saved]), or none. *)
Definition init (client_id client_secret callback_uri : string)
    (auto_refresh : bool) (now : Q) (saved : option OAuthToken) : Client :=
  _load_token now (file_of saved)
    (mkClient client_id client_secret callback_uri auto_refresh None saved).

(** A later process with the same configuration, started at [now]. *)
Definition restart (now : Q) (c : Client) : Client :=
  init (client_id c) (client_secret c) (callback_uri c) (auto_refresh c) now
    (token_file c).

End OAuth.

(* ===================================================================== *)
(** * api_client.py                                                      *)
(* ===================================================================== *)

Module ApiClient.

Definition BASE_URL : string := "https://wbsapi.withings.net".
Definition MEASURE_ENDPOINT : string := "/measure".
Definition MEASURE_V2_ENDPOINT : string := "/v2/measure".
Definition SLEEP_V2_ENDPOINT : string := "/v2/sleep".
Definition USER_ENDPOINT : string := "/v2/user".

(** [WithingsAPIClient.STATUS_MESSAGES.get(status)] *)
Definition STATUS_MESSAGES (status : Z) : option string :=
  if status =? 0 then Some "Success"
  else if status =? 100 then
    Some "The hash is missing, invalid, or does not match the provided email"
  else if status =? 247 then Some "User is deactivated"
  else if status =? 286 then Some "No such subscription was found"
  else if status =? 293 then Some "The callback URL is either absent or incorrect"
  else if status =? 294 then Some "No such subscription could be deleted"
  else if status =? 304 then Some "The comment is either absent or incorrect"
  else if status =? 305 then Some "Too many notifications are already set"
  else if status =? 328 then Some "User is unauthorized"
  else if status =? 342 then Some "Signature is wrong"
  else if status =? 343 then Some "Wrong Notification Callback Url"
  else if status =? 601 then Some "Too Many Requests"
  else if status =? 2554 then Some "Unknown action"
  else if status =? 2555 then Some "An unknown error occurred"
  else None.

(** [WithingsRateLimitError()] with its default [retry_after = 60]. *)
Definition rate_limit_error : Exn := WithingsRateLimitError 60.

(** Query parameters and form data. *)
Definition Params : Type := list (string * string).

(** One HTTP request as [requests.get] / [requests.post] receives it. *)
Record Request : Type := mkRequest {
  verb : string;                 (* "GET" or "POST" *)
  url : string;
  params : option Params;
  data : option Params;
  authorization : string
}.

(** What the process does to the outside world, in order. *)
Inductive Event : Type :=
| EvRequest (r : Request)
| EvSleep (seconds : Z).

(** The trace of events so far. *)
Definition World : Type := list Event.

(** Append an event to the trace. *)
Definition emit (ev : Event) (w : World) : World := (w ++ [ev])%list.

Fixpoint requests_made (w : World) : nat :=
  match w with
  | [] => 0
  | EvRequest _ :: w' => S (requests_made w')
  | EvSleep _ :: w' => requests_made w'
  end.

Fixpoint sleeps (w : World) : list Z :=
  match w with
  | [] => []
  | EvRequest _ :: w' => sleeps w'
  | EvSleep s :: w' => s :: sleeps w'
  end.

Section Transport.

(** The type of an envelope's [body], and the empty dictionary. *)
Variable Body : Type.
Variable empty_body : Body.

(** The vendor envelope [{"status": .., "body": {..}}]. *)
Record Envelope : Type := mkEnvelope {
  status : option Z;
  body : option Body
}.

(** The vendor: the answer to a request, given how many requests were
    issued before it. *)
Definition Server : Type := nat -> Request -> HttpOutcome Envelope.

(** A rendering of [str(e)] for the message of the wrapped transport error
    (the exact text of [requests] is not modelled). *)
Definition request_exception_text (e : Exn) : string :=
  match e with
  | HTTPError c => str_Z c ++ " Error"
  | JSONDecodeError => "Expecting value"
  | _ => "Connection failed"
  end.

(** The body of the [try] block up to the status dispatch: the HTTP call,
    [raise_for_status] and [response.json()]. *)
Definition send (server : Server) (req : Request) (w : World)
    : Result Envelope * World :=
  let w' := emit (EvRequest req) w in
  match server (requests_made w) req with
  | TransportFailure => (inl ConnectionError, w')
  | Responded response =>
      (let! _ := raise_for_status response in
       match json response with
       | NotJson _ => inl JSONDecodeError
       | JsonNonDict => inl (AttributeError "get")
       | JsonDict result => inr result
       end, w')
  end.

(** [except requests.exceptions.RequestException as e] *)
Definition wrap_request_exception (e : Exn) : Exn :=
  if is_RequestException e
  then WithingsAPIError (-1) ("HTTP request failed: " ++ request_exception_text e)
  else e.

(** The first lines of [_make_request]: the URL, the header and the choice
    of [requests.get] or [requests.post]. *)
Definition build_request (access_token method endpoint : string)
    (params data : option Params) : Result Request :=
  let url := BASE_URL ++ endpoint in
  let authorization := "Bearer " ++ access_token in
  if String.eqb (upper method) "GET"
  then inr (mkRequest "GET" url params None authorization)
  else if String.eqb (upper method) "POST"
  then inr (mkRequest "POST" url params data authorization)
  else inl (ValueError ("Unsupported HTTP method: " ++ method)).

(** [_make_request], with the recursion of the retry made structural by a
    fuel argument. For a negative [retry_count] Python's [2 ** retry_count]
    is a float; the method is only ever entered with [retry_count >= 0]. *)
Fixpoint make_request_fuel (fuel : nat) (server : Server) (access_token : string)
    (method endpoint : string) (params data : option Params)
    (retry_count : Z) (w : World) : Outcome Body * World :=
  match fuel with
  | O => (Diverge, w)
  | S fuel' =>
      let sent :=
        match build_request access_token method endpoint params data with
        | inl e => (inl e, w)
        | inr req => send server req w
        end in
      match sent with
      | (inl e, w') => (Raise (wrap_request_exception e), w')
      | (inr result, w') =>
          let status := get_default (status result) (-1) in
          if status =? 0 then (Ret (get_default (body result) empty_body), w')
          else if (status =? 401) || (status =? 328) || (status =? 2554) then
            (Raise (WithingsAuthError status
                      (get_default (STATUS_MESSAGES status) "Authentication failed")),
             w')
          else if status =? 601 then
            if retry_count <? 3 then
              let wait_time := Z.min (60 * 2 ^ retry_count) 300 in
              make_request_fuel fuel' server access_token method endpoint
                params data (retry_count + 1) (emit (EvSleep wait_time) w')
            else (Raise rate_limit_error, w')
          else
            (Raise (WithingsAPIError status
                      (get_default (STATUS_MESSAGES status)
                         ("Unknown error (status " ++ str_Z status ++ ")"))),
             w')
      end
  end.

(** [_make_request]: at most [3 - retry_count] recursive calls happen, so
    this much fuel is never spent (lemma [make_request_returns]). *)
Definition _make_request (server : Server) (access_token : string)
    (method endpoint : string) (params data : option Params)
    (retry_count : Z) (w : World) : Outcome Body * World :=
  make_request_fuel (S (Z.to_nat (3 - retry_count))) server access_token
    method endpoint params data retry_count w.

(** The request unwraps to an envelope whose status is [s]: the HTTP
    exchange succeeds, the body is a JSON object and its [status] is [s]. *)
Definition envelope_status_is (o : HttpOutcome Envelope) (s : Z) : Prop :=
  exists response result,
    o = Responded response /\
    raise_for_status response = inr tt /\
    json response = JsonDict result /\
    status result = Some s.

End Transport.

Arguments status {Body}.
Arguments body {Body}.
Arguments mkEnvelope {Body}.
Arguments envelope_status_is {Body}.
Arguments send {Body}.
Arguments make_request_fuel {Body}.
Arguments _make_request {Body}.

End ApiClient.

(* ===================================================================== *)
(** * Dates and times ([datetime])                                       *)
(* ===================================================================== *)

Module Datetime.

(** A naive [datetime]: microseconds of wall-clock time since
    1970-01-01T00:00:00. The bounds [MINYEAR]/[MAXYEAR] are not modelled. *)
Definition datetime : Type := Z.

(** A [date]: days since 1970-01-01. *)
Definition date : Type := Z.

Definition MICROSECONDS_PER_SECOND : Z := 1000000.
Definition MICROSECONDS_PER_DAY : Z := 86400 * MICROSECONDS_PER_SECOND.

(** [timedelta(days=n)] *)
Definition timedelta_days (n : Z) : Z := n * MICROSECONDS_PER_DAY.

(** [dt.date()] *)
Definition date_of (dt : datetime) : date := dt / MICROSECONDS_PER_DAY.

(** [datetime.combine(d, datetime.min.time())] *)
Definition combine_midnight (d : date) : datetime := d * MICROSECONDS_PER_DAY.

(** [datetime.fromtimestamp(ts)] for an integer epoch [ts]; the local zone
    is a fixed offset from UTC, in seconds. *)
Definition fromtimestamp (utc_offset : Z) (ts : Z) : datetime :=
  (ts + utc_offset) * MICROSECONDS_PER_SECOND.

(** [int(dt.timestamp())] *)
Definition timestamp_int (utc_offset : Z) (dt : datetime) : Z :=
  Z.quot (dt - utc_offset * MICROSECONDS_PER_SECOND) MICROSECONDS_PER_SECOND.

(** [(end_time - start_time).seconds]: the seconds field of the normalised
    difference, always in [0, 86400). *)
Definition timedelta_seconds (end_time start_time : datetime) : Z :=
  ((end_time - start_time) mod MICROSECONDS_PER_DAY) / MICROSECONDS_PER_SECOND.

(** The proleptic Gregorian calendar: year, month and day of a day count. *)
Definition civil_from_days (days : Z) : Z * Z * Z :=
  let z := days + 719468 in
  let era := z / 146097 in
  let doe := z - era * 146097 in
  let yoe := (doe - doe / 1460 + doe / 36524 - doe / 146096) / 365 in
  let y := yoe + era * 400 in
  let doy := doe - (365 * yoe + yoe / 4 - yoe / 100) in
  let mp := (5 * doy + 2) / 153 in
  let d := doy - (153 * mp + 2) / 5 + 1 in
  let m := if mp <? 10 then mp + 3 else mp - 9 in
  (if m <=? 2 then y + 1 else y, m, d).

(** Zero-padded decimal of a non-negative number. *)
Definition pad (width : nat) (n : Z) : string :=
  let s := str_Z n in
  let fix zeros (k : nat) : string :=
    match k with
    | O => EmptyString
    | S k' => String "0"%char (zeros k')
    end in
  zeros (width - String.length s)%nat ++ s.

(** [dt.strftime('%Y-%m-%d')] *)
Definition strftime_ymd (dt : datetime) : string :=
  let '(y, m, d) := civil_from_days (date_of dt) in
  pad 4 y ++ "-" ++ pad 2 m ++ "-" ++ pad 2 d.

End Datetime.
Import Datetime.

(* ===================================================================== *)
(** * api_client.py: the endpoint methods                                *)
(* ===================================================================== *)

Module ApiMethods.
Import ApiClient.

(** An argument of type [Union[datetime, int]]. *)
Inductive TimeArg : Type :=
| TimeDatetime (dt : datetime)
| TimeInt (ts : Z).

(** Truthiness: a [datetime] is always truthy, an [int] unless it is [0]. *)
Definition truthy_time (a : TimeArg) : bool :=
  match a with
  | TimeDatetime _ => true
  | TimeInt ts => negb (ts =? 0)
  end.

(** [int(a.timestamp()) if isinstance(a, datetime) else a] *)
Definition time_value (utc_offset : Z) (a : TimeArg) : Z :=
  match a with
  | TimeDatetime dt => timestamp_int utc_offset dt
  | TimeInt ts => ts
  end.

(** An argument of type [Union[datetime, date, str]]. *)
Inductive DateArg : Type :=
| DateDatetime (dt : datetime)
| DateDate (d : date)
| DateStr (s : string).

(** [a.strftime('%Y-%m-%d') if isinstance(a, (datetime, date)) else a] *)
Definition ymd (a : DateArg) : string :=
  match a with
  | DateDatetime dt => strftime_ymd dt
  | DateDate d => strftime_ymd (combine_midnight d)
  | DateStr s => s
  end.

(** [if v: params[key] = render(v)] for an optional argument [v]; [truthy]
    is the test the source applies to a value that is not [None]. The
    integer values of the dictionary are written as [requests] sends them. *)
Definition param_if {A : Type} (key : string) (v : option A)
    (truthy : A -> bool) (render : A -> string) : Params :=
  match v with
  | Some a => if truthy a then [(key, render a)] else []
  | None => []
  end.

Definition nonzero (n : Z) : bool := negb (n =? 0).

Definition nonempty {A : Type} (l : list A) : bool :=
  match l with
  | [] => false
  | _ :: _ => true
  end.

(** The [params] dictionary of [get_measurements]. *)
Definition getmeas_params (utc_offset : Z) (startdate enddate : option TimeArg)
    (meastype : option Z) (category : Z) (lastupdate offset : option Z) : Params :=
  ([("action", "getmeas"); ("category", str_Z category)]
   ++ param_if "startdate" startdate truthy_time
        (fun a => str_Z (time_value utc_offset a))
   ++ param_if "enddate" enddate truthy_time
        (fun a => str_Z (time_value utc_offset a))
   ++ param_if "meastype" meastype nonzero str_Z
   ++ param_if "lastupdate" lastupdate nonzero str_Z
   ++ param_if "offset" offset (fun _ => true) str_Z)%list.

(** The [params] dictionary of [get_activity]. *)
Definition getactivity_params (startdateymd enddateymd : DateArg)
    (data_fields : option string) : Params :=
  ([("action", "getactivity");
    ("startdateymd", ymd startdateymd);
    ("enddateymd", ymd enddateymd)]
   ++ param_if "data_fields" data_fields truthy_str (fun s => s))%list.

(** The [data] dictionary of [get_sleep_summary]. *)
Definition getsummary_data (startdateymd enddateymd : DateArg)
    (data_fields : option (list string)) : Params :=
  ([("action", "getsummary");
    ("startdateymd", ymd startdateymd);
    ("enddateymd", ymd enddateymd)]
   ++ param_if "data_fields" data_fields nonempty (String.concat ","))%list.

Section Methods.

Variable Body : Type.
Variable empty_body : Body.
Variable server : Server Body.
Variable access_token : string.

(** [get_measurements] *)
Definition get_measurements (utc_offset : Z) (startdate enddate : option TimeArg)
    (meastype : option Z) (category : Z) (lastupdate offset : option Z)
    (w : World) : Outcome Body * World :=
  _make_request empty_body server access_token "GET" MEASURE_ENDPOINT
    (Some (getmeas_params utc_offset startdate enddate meastype category
             lastupdate offset))
    None 0 w.

(** [get_activity] *)
Definition get_activity (startdateymd enddateymd : DateArg)
    (data_fields : option string) (w : World) : Outcome Body * World :=
  _make_request empty_body server access_token "GET" MEASURE_V2_ENDPOINT
    (Some (getactivity_params startdateymd enddateymd data_fields)) None 0 w.

(** [get_sleep_summary] *)
Definition get_sleep_summary (startdateymd enddateymd : DateArg)
    (data_fields : option (list string)) (w : World) : Outcome Body * World :=
  _make_request empty_body server access_token "POST" SLEEP_V2_ENDPOINT
    None (Some (getsummary_data startdateymd enddateymd data_fields)) 0 w.

(** [get_user_devices] *)
Definition get_user_devices (w : World) : Outcome Body * World :=
  _make_request empty_body server access_token "GET" USER_ENDPOINT
    (Some [("action", "getdevice")]) None 0 w.

End Methods.

Arguments get_measurements {Body}.
Arguments get_activity {Body}.
Arguments get_sleep_summary {Body}.
Arguments get_user_devices {Body}.

(** The trace of one call of [_make_request] that retries [k] times,
    entered with [retry_count]: the request, then [k] times a sleep and the
    same request again. *)
Fixpoint backoff (req : Request) (retry_count : Z) (k : nat) : list Event :=
  match k with
  | O => [EvRequest req]
  | S k' =>
      EvRequest req :: EvSleep (Z.min (60 * 2 ^ retry_count) 300)
        :: backoff req (retry_count + 1) k'
  end.

(** The seconds slept in a trace. *)
Definition total_sleep (w : World) : Z := foldr Z.add 0 (sleeps w).

(** The vendor's answer unwraps to the envelope [result]: the HTTP status
    is no error and the body is the JSON object [result]. *)
Definition answers_with {Body : Type} (o : HttpOutcome (Envelope Body))
    (result : Envelope Body) : Prop :=
  exists response,
    o = Responded response /\
    raise_for_status response = inr tt /\
    json response = JsonDict result.

(** The HTTP exchange fails: no answer at all, an HTTP error status, or a
    body that is not JSON. *)
Definition http_failure {Body : Type} (o : HttpOutcome (Envelope Body)) : Prop :=
  match o with
  | TransportFailure => True
  | Responded r =>
      400 <= status_code r < 600 \/ exists text, json r = NotJson text
  end.

End ApiMethods.

(* ===================================================================== *)
(** * storage.py                                                         *)
(* ===================================================================== *)

Module Storage.

(** The [raw_data] kept with a measurement. *)
Record RawMeasure : Type := mkRawMeasure {
  raw_type : Z;
  raw_value : Z;
  raw_unit : Z;
  raw_grpid : option Z
}.

(** A row of [measurements]. [value] is the exact [value * 10^unit]; Python
    computes it in binary floating point when the exponent is negative. *)
Record Measurement : Type := mkMeasurement {
  ms_timestamp : datetime;
  ms_measure_type : string;
  ms_value : Q;
  ms_unit : string;
  ms_device_id : option string;
  ms_raw_data : RawMeasure
}.

(** A row of [heart_rate]. *)
Record HeartRateSample : Type := mkHeartRateSample {
  hr_timestamp : datetime;
  heart_rate : Q;
  hr_device_id : option string;
  hr_raw_data : RawMeasure
}.

(** One entry of the vendor's [activities] list. The [date] string is kept
    as the result of parsing it with ['%Y-%m-%d']. *)
Inductive DateField : Type :=
| DateMissing                    (* no 'date' key: KeyError *)
| DateMalformed (s : string)     (* strptime raises ValueError *)
| DateParsed (d : date).

Record ActivityRaw : Type := mkActivityRaw {
  a_date : DateField;
  a_steps : option Z;
  a_distance : option Q;
  a_calories : option Q;
  a_elevation : option Q;
  a_soft : option Z;
  a_moderate : option Z;
  a_intense : option Z;
  a_active : option Q;
  a_totalcalories : option Q
}.

(** A row of [activity_summary]. *)
Record ActivityDay : Type := mkActivityDay {
  act_date : date;
  steps : option Z;
  distance : option Q;
  calories : option Q;
  elevation : option Q;
  soft_activity_duration : option Z;
  moderate_activity_duration : option Z;
  intense_activity_duration : option Z;
  active_calories : option Q;
  total_calories : option Q;
  act_raw_data : ActivityRaw
}.

(** The [data] object of one entry of the vendor's sleep [series]. *)
Record SleepData : Type := mkSleepData {
  total_sleep_time : option Z;
  sleep_score : option Z;
  deepsleepduration : option Z;
  lightsleepduration : option Z;
  remsleepduration : option Z;
  wakeupduration : option Z;
  hr_average : option Q;
  hr_min : option Q;
  hr_max : option Q;
  rr_average : option Q;
  snoring : option Z
}.

Definition empty_sleep_data : SleepData :=
  mkSleepData None None None None None None None None None None None.

Record SleepRaw : Type := mkSleepRaw {
  s_startdate : option Z;
  s_enddate : option Z;
  s_data : option SleepData
}.

(** A row of [sleep_summary]. *)
Record SleepSession : Type := mkSleepSession {
  start_time : datetime;
  end_time : datetime;
  duration : Z;
  quality : option Z;
  deep_duration : option Z;
  light_duration : option Z;
  rem_duration : option Z;
  awake_duration : option Z;
  heart_rate_avg : option Q;
  heart_rate_min : option Q;
  heart_rate_max : option Q;
  respiration_rate_avg : option Q;
  snoring_duration : option Z;
  sleep_raw_data : SleepRaw
}.

(** A row of [sync_state]; [data_type] is the primary key. *)
Record SyncRow : Type := mkSyncRow {
  last_sync : datetime;
  last_data_timestamp : option datetime;
  sync_status : string;
  updated_at : datetime
}.

(** The database: each table is a finite map from its UNIQUE key, which is
    what [INSERT OR REPLACE] needs. *)
Record DB : Type := mkDB {
  measurements : gmap (Z * string) Measurement;
  activity_summary : gmap Z ActivityDay;
  sleep_summary : gmap Z SleepSession;
  heart_rate_tbl : gmap Z HeartRateSample;
  sync_state : gmap string SyncRow
}.

Definition empty_db : DB := mkDB ∅ ∅ ∅ ∅ ∅.

(** [INSERT OR REPLACE INTO table ... VALUES x] for a table whose UNIQUE
    key is [key]. *)
Definition insert_or_replace {K V : Type} `{Countable K} (key : V -> K)
    (table : gmap K V) (x : V) : gmap K V :=
  <[key x := x]> table.

(** The UNIQUE key of [measurements]. *)
Definition measurement_key (m : Measurement) : Z * string :=
  (ms_timestamp m, ms_measure_type m).

(** [store_measurements]: one [INSERT OR REPLACE] per record, in order. *)
Definition store_measurements (l : list Measurement) (db : DB) : DB :=
  mkDB (foldl (insert_or_replace measurement_key) (measurements db) l)
       (activity_summary db) (sleep_summary db) (heart_rate_tbl db)
       (sync_state db).

(** [store_activity_summary] *)
Definition store_activity_summary (l : list ActivityDay) (db : DB) : DB :=
  mkDB (measurements db)
       (foldl (insert_or_replace act_date) (activity_summary db) l)
       (sleep_summary db) (heart_rate_tbl db) (sync_state db).

(** [store_sleep_summary] *)
Definition store_sleep_summary (l : list SleepSession) (db : DB) : DB :=
  mkDB (measurements db) (activity_summary db)
       (foldl (insert_or_replace start_time) (sleep_summary db) l)
       (heart_rate_tbl db) (sync_state db).

(** [store_heart_rate] *)
Definition store_heart_rate (l : list HeartRateSample) (db : DB) : DB :=
  mkDB (measurements db) (activity_summary db) (sleep_summary db)
       (foldl (insert_or_replace hr_timestamp) (heart_rate_tbl db) l)
       (sync_state db).

(** [update_sync_state]: [INSERT OR REPLACE] of the whole row; [now] is the
    reading of [datetime.now()]. *)
Definition update_sync_state (now : datetime) (data_type : string)
    (last_data_timestamp : option datetime) (status : string) (db : DB) : DB :=
  mkDB (measurements db) (activity_summary db) (sleep_summary db)
       (heart_rate_tbl db)
       (<[data_type := mkSyncRow now last_data_timestamp status now]>
          (sync_state db)).

(** [get_sync_state] *)
Definition get_sync_state (data_type : string) (db : DB) : option SyncRow :=
  sync_state db !! data_type.

(** [get_statistics]: [SELECT COUNT( * )] of the four data tables. *)
Record Statistics : Type := mkStatistics {
  n_measurements : nat;
  n_activity_summary : nat;
  n_sleep_summary : nat;
  n_heart_rate : nat
}.

Definition get_statistics (db : DB) : Statistics :=
  {| n_measurements := size (measurements db);
     n_activity_summary := size (activity_summary db);
     n_sleep_summary := size (sleep_summary db);
     n_heart_rate := size (heart_rate_tbl db) |}.

(** [WHERE 1=1 AND column >= start AND column <= end], where each of the
    two conditions is only there when its bound is given. A [datetime] or
    [date] is stored as its ISO text, whose order is the order of time. *)
Definition within (start_date end_date : option Z) (v : Z) : bool :=
  match start_date with Some s => s <=? v | None => true end
  && match end_date with Some e => v <=? e | None => true end.

(** [SELECT * FROM table WHERE keep ORDER BY column]. The order of two rows
    with the same [column] is not fixed by the query; this one keeps them
    in the order of the table scan. *)
Definition select_ordered {K V : Type} `{Countable K} (column : V -> Z)
    (keep : V -> bool) (table : gmap K V) : list V :=
  @merge_sort V (fun a b => column a <= column b)
    (fun a b => decide (column a <= column b))
    (List.filter keep (map snd (map_to_list table))).

(** [get_all_measurements] *)
Definition get_all_measurements (start_date end_date : option datetime)
    (db : DB) : list Measurement :=
  select_ordered ms_timestamp
    (fun m => within start_date end_date (ms_timestamp m)) (measurements db).

(** The bound of [get_all_activity]:
    [b.date() if isinstance(b, datetime) else b]. *)
Definition day_of (b : datetime + date) : date :=
  match b with
  | inl dt => date_of dt
  | inr d => d
  end.

(** [get_all_activity] *)
Definition get_all_activity (start_date end_date : option (datetime + date))
    (db : DB) : list ActivityDay :=
  select_ordered act_date
    (fun a => within (option_map day_of start_date) (option_map day_of end_date)
                (act_date a))
    (activity_summary db).

(** [get_all_sleep] *)
Definition get_all_sleep (start_date end_date : option datetime)
    (db : DB) : list SleepSession :=
  select_ordered start_time
    (fun x => within start_date end_date (start_time x)) (sleep_summary db).

(** [get_all_heart_rate] *)
Definition get_all_heart_rate (start_date end_date : option datetime)
    (db : DB) : list HeartRateSample :=
  select_ordered hr_timestamp
    (fun x => within start_date end_date (hr_timestamp x)) (heart_rate_tbl db).

(** ** Vocabulary for the properties of the storage *)

(** The last record of a batch that has the key [k]. *)
Definition last_with {K V : Type} `{EqDecision K} (key : V -> K) (k : K)
    (l : list V) : option V :=
  List.find (fun x => bool_decide (key x = k)) (rev l).

(** Every row sits under the key its columns give: the table is what
    [INSERT OR REPLACE] statements can build. *)
Definition keyed {K V : Type} `{Countable K} (key : V -> K)
    (table : gmap K V) : Prop :=
  forall k x, table !! k = Some x -> key x = k.

Definition well_keyed (db : DB) : Prop :=
  keyed measurement_key (measurements db) /\
  keyed act_date (activity_summary db) /\
  keyed start_time (sleep_summary db) /\
  keyed hr_timestamp (heart_rate_tbl db).

End Storage.
Import Storage.

(* ===================================================================== *)
(** * fetcher.py                                                         *)
(* ===================================================================== *)

Module Fetcher.

(** [WithingsDataFetcher.MAX_DAYS_PER_REQUEST] *)
Definition MAX_DAYS_PER_REQUEST : Z := 200.

(** ** Vendor payloads *)

(** One entry of a group's [measures]. *)
Record Measure : Type := mkMeasure {
  m_type : option Z;
  m_value : option Z;
  m_unit : option Z
}.

(** One entry of [measuregrps]; [g_measures] is
    [measure_group.get('measures', [])]. *)
Record MeasureGroup : Type := mkMeasureGroup {
  g_date : option Z;
  g_deviceid : option string;
  g_grpid : option Z;
  g_measures : list Measure
}.

(** The body of a [getmeas] answer: [measuregrps] is
    [result.get('measuregrps', [])], [more] the truthiness of
    [result.get('more')] and [offset] is [result.get('offset')]. *)
Record MeasResult : Type := mkMeasResult {
  measuregrps : list MeasureGroup;
  more : bool;
  offset : option Z
}.

(** ** The API client as the fetcher sees it *)

Inductive ApiCall : Type :=
| GetMeasurements (startdate enddate : option Z) (category : Z) (offset : option Z)
| GetActivity (startdateymd enddateymd : string)
| GetSleepSummary (startdateymd enddateymd : string) (data_fields : list string).

(** The three methods of [self.api] the fetcher calls. Each answer may depend
    on the arguments and on the number of API calls made before; [inl e] is
    an exception raised by the call. The lists are
    [result.get('activities', [])] and [result.get('series', [])]. *)
Record Api : Type := mkApi {
  get_measurements :
    nat -> option Z -> option Z -> Z -> option Z -> Result MeasResult;
  get_activity : nat -> string -> string -> Result (list ActivityRaw);
  get_sleep_summary :
    nat -> string -> string -> list string -> Result (list SleepRaw)
}.

(** The environment of a run: the API, the reading of [datetime.now()]
    and the offset of the local time zone. *)
Record Env : Type := mkEnv {
  api : Api;
  now : datetime;
  utc_offset : Z
}.

(** ** Effects *)

(** What a fetch does, in order. [EvChunk] records the bounds of a loop
    iteration of the chunked fetches; the other events are calls. *)
Inductive Event : Type :=
| EvApi (c : ApiCall)
| EvChunk (current_date chunk_end : datetime)
| EvWarning (msg : string)
| EvError (msg : string)
| EvStoreMeasurements (l : list Measurement)
| EvStoreHeartRate (l : list HeartRateSample)
| EvStoreActivity (l : list ActivityDay)
| EvStoreSleep (l : list SleepSession)
| EvUpdateSyncState (data_type : string) (last_data_timestamp : option datetime)
    (status : string).

(** The state a fetch runs in: the database and the trace of events. *)
Record World : Type := mkWorld {
  db : DB;
  trace : list Event
}.

Definition is_api_event (ev : Event) : bool :=
  match ev with
  | EvApi _ => true
  | _ => false
  end.

(** The API calls of a trace, in order. *)
Fixpoint api_calls (t : list Event) : list ApiCall :=
  match t with
  | [] => []
  | EvApi c :: t' => c :: api_calls t'
  | _ :: t' => api_calls t'
  end.

(** The loop iterations of a trace, in order. *)
Fixpoint chunks (t : list Event) : list (datetime * datetime) :=
  match t with
  | [] => []
  | EvChunk c e :: t' => (c, e) :: chunks t'
  | _ :: t' => chunks t'
  end.

(** Statements: state passing with exceptions and divergence. *)
Definition M (A : Type) : Type := World -> Outcome A * World.

Definition ret {A : Type} (a : A) : M A := fun w => (Ret a, w).

Definition bind {A B : Type} (c : M A) (k : A -> M B) : M B :=
  fun w =>
    match c w with
    | (Ret a, w') => k a w'
    | (Raise e, w') => (Raise e, w')
    | (Diverge, w') => (Diverge, w')
    end.

Definition raise {A : Type} (e : Exn) : M A := fun w => (Raise e, w).

Definition diverge {A : Type} : M A := fun w => (Diverge, w).

Definition lift {A : Type} (r : Result A) : M A :=
  match r with
  | inl e => raise e
  | inr a => ret a
  end.

(** [try: c except Exception as e: handler e] *)
Definition try_except {A : Type} (c : M A) (handler : Exn -> M A) : M A :=
  fun w =>
    match c w with
    | (Raise e, w') => handler e w'
    | r => r
    end.

Definition log (ev : Event) : M unit :=
  fun w => (Ret tt, mkWorld (db w) (trace w ++ [ev])%list).

Notation "'let*' x ':=' c 'in' k" := (bind c (fun x => k))
  (at level 10, x pattern, c at level 100, k at level 200).

(** The calls of [self.api]. *)
Definition call_get_measurements (env : Env)
    (startdate enddate : option Z) (category : Z) (offset : option Z)
    : M MeasResult :=
  fun w =>
    let n := length (api_calls (trace w)) in
    let w' := mkWorld (db w)
                (trace w ++ [EvApi (GetMeasurements startdate enddate category offset)])%list in
    match get_measurements (api env) n startdate enddate category offset with
    | inl e => (Raise e, w')
    | inr r => (Ret r, w')
    end.

Definition call_get_activity (env : Env) (startdateymd enddateymd : string)
    : M (list ActivityRaw) :=
  fun w =>
    let n := length (api_calls (trace w)) in
    let w' := mkWorld (db w)
                (trace w ++ [EvApi (GetActivity startdateymd enddateymd)])%list in
    match get_activity (api env) n startdateymd enddateymd with
    | inl e => (Raise e, w')
    | inr r => (Ret r, w')
    end.

Definition call_get_sleep_summary (env : Env) (startdateymd enddateymd : string)
    (data_fields : list string) : M (list SleepRaw) :=
  fun w =>
    let n := length (api_calls (trace w)) in
    let w' := mkWorld (db w)
                (trace w ++ [EvApi (GetSleepSummary startdateymd enddateymd data_fields)])%list in
    match get_sleep_summary (api env) n startdateymd enddateymd data_fields with
    | inl e => (Raise e, w')
    | inr r => (Ret r, w')
    end.

(** The calls of [self.storage]. *)
Definition storage_get_sync_state (data_type : string) : M (option SyncRow) :=
  fun w => (Ret (get_sync_state data_type (db w)), w).

Definition storage_update_sync_state (env : Env) (data_type : string)
    (last_data_timestamp : option datetime) (status : string) : M unit :=
  fun w =>
    (Ret tt,
     mkWorld (update_sync_state (now env) data_type last_data_timestamp status (db w))
       (trace w ++ [EvUpdateSyncState data_type last_data_timestamp status])%list).

Definition storage_store_measurements (l : list Measurement) : M unit :=
  fun w => (Ret tt, mkWorld (store_measurements l (db w))
                      (trace w ++ [EvStoreMeasurements l])%list).

Definition storage_store_heart_rate (l : list HeartRateSample) : M unit :=
  fun w => (Ret tt, mkWorld (store_heart_rate l (db w))
                      (trace w ++ [EvStoreHeartRate l])%list).

Definition storage_store_activity_summary (l : list ActivityDay) : M unit :=
  fun w => (Ret tt, mkWorld (store_activity_summary l (db w))
                      (trace w ++ [EvStoreActivity l])%list).

Definition storage_store_sleep_summary (l : list SleepSession) : M unit :=
  fun w => (Ret tt, mkWorld (store_sleep_summary l (db w))
                      (trace w ++ [EvStoreSleep l])%list).

(** ** Measure type tables *)

Fixpoint lookup_table (table : list (Z * string)) (k : Z) : option string :=
  match table with
  | [] => None
  | (k', v) :: table' => if k' =? k then Some v else lookup_table table' k
  end.

Definition measure_map : list (Z * string) :=
  [(1, "weight"); (4, "height"); (5, "fat_free_mass"); (6, "fat_ratio");
   (8, "fat_mass"); (9, "diastolic_blood_pressure");
   (10, "systolic_blood_pressure"); (11, "heart_rate"); (12, "temperature");
   (54, "spo2"); (71, "body_temperature"); (73, "skin_temperature");
   (76, "muscle_mass"); (77, "hydration"); (88, "bone_mass");
   (91, "pulse_wave_velocity"); (123, "vo2_max"); (155, "vascular_age")].

Definition unit_map : list (Z * string) :=
  [(1, "kg"); (4, "m"); (5, "kg"); (6, "%"); (8, "kg"); (9, "mmHg");
   (10, "mmHg"); (11, "bpm"); (12, "°C"); (54, "%"); (71, "°C");
   (73, "°C"); (76, "kg"); (77, "kg"); (88, "kg"); (91, "m/s");
   (123, "ml/min/kg"); (155, "years")].

(** [_get_measure_type_name] *)
Definition _get_measure_type_name (measure_type : Z) : string :=
  get_default (lookup_table measure_map measure_type)
    ("unknown_" ++ str_Z measure_type).

(** [_get_measure_unit] *)
Definition _get_measure_unit (measure_type : Z) : string :=
  get_default (lookup_table unit_map measure_type) "unknown".

(** [value * (10 ** unit)] *)
Definition real_value (value unit_exp : Z) : Q :=
  (inject_Z value * Qpower (inject_Z 10) unit_exp)%Q.

(** ** fetch_measurements *)

(** The three accumulators of [fetch_measurements]. *)
Record Staged : Type := mkStaged {
  staged_measurements : list Measurement;
  staged_heart_rates : list HeartRateSample;
  last_timestamp : option datetime
}.

Definition nothing_staged : Staged := mkStaged [] [] None.

(** The body of [for measure in measure_group.get('measures', [])]. *)
Definition stage_measure (store_heart_rate : bool) (timestamp : datetime)
    (device_id : option string) (grpid : option Z)
    (staged : Staged) (measure : Measure) : Result Staged :=
  let! measure_type := subscript "type" (m_type measure) in
  let measure_type_name := _get_measure_type_name measure_type in
  let! v := subscript "value" (m_value measure) in
  let! u := subscript "unit" (m_unit measure) in
  let value := real_value v u in
  let measurement :=
    {| ms_timestamp := timestamp;
       ms_measure_type := measure_type_name;
       ms_value := value;
       ms_unit := _get_measure_unit measure_type;
       ms_device_id := device_id;
       ms_raw_data := mkRawMeasure measure_type v u grpid |} in
  let measurements := (staged_measurements staged ++ [measurement])%list in
  let heart_rates :=
    if store_heart_rate && (measure_type =? 11)
    then (staged_heart_rates staged ++
            [{| hr_timestamp := timestamp;
                heart_rate := value;
                hr_device_id := device_id;
                hr_raw_data := ms_raw_data measurement |}])%list
    else staged_heart_rates staged in
  let last :=
    match last_timestamp staged with
    | None => Some timestamp
    | Some l => if l <? timestamp then Some timestamp else Some l
    end in
  inr (mkStaged measurements heart_rates last).

(** A [for] loop whose body may raise. *)
Fixpoint for_each {A B : Type} (body : B -> A -> Result B) (acc : B)
    (l : list A) : Result B :=
  match l with
  | [] => inr acc
  | x :: l' => let! acc' := body acc x in for_each body acc' l'
  end.

(** The body of [for measure_group in measuregrps]. *)
Definition stage_group (env : Env) (store_heart_rate : bool)
    (staged : Staged) (measure_group : MeasureGroup) : Result Staged :=
  let! d := subscript "date" (g_date measure_group) in
  let timestamp := fromtimestamp (utc_offset env) d in
  let device_id := g_deviceid measure_group in
  for_each (stage_measure store_heart_rate timestamp device_id
              (g_grpid measure_group))
    staged (g_measures measure_group).

Definition pagination_warning : string :=
  "Measurement pagination ended unexpectedly; stopping early.".

(** The [while True] loop of [fetch_measurements]; one unit of fuel per
    iteration. *)
Fixpoint paginate (fuel : nat) (env : Env) (store_heart_rate : bool)
    (startdate_ts enddate_ts : option Z) (offset : option Z)
    (seen_offsets : gset Z) (staged : Staged) : M Staged :=
  match fuel with
  | O => diverge
  | S fuel' =>
      let* result := call_get_measurements env startdate_ts enddate_ts 1 offset in
      let* staged' :=
        lift (for_each (stage_group env store_heart_rate) staged
                (measuregrps result)) in
      if negb (more result) then ret staged'
      else
        match Fetcher.offset result with
        | None => let* _ := log (EvWarning pagination_warning) in ret staged'
        | Some o =>
            if decide (o ∈ seen_offsets)
            then let* _ := log (EvWarning pagination_warning) in ret staged'
            else paginate fuel' env store_heart_rate startdate_ts enddate_ts
                   (Some o) ({[o]} ∪ seen_offsets) staged'
        end
  end.

(** The "check last sync" prologue shared by the three fetches: without an
    explicit start date, resume from the cursor of the data type. *)
Definition resume_from (start_date : option datetime)
    (sync_state : option SyncRow) : option datetime :=
  match start_date, sync_state with
  | None, Some row => last_data_timestamp row
  | _, _ => start_date
  end.

(** [fetch_measurements], from the cursor lookup to the end of the
    pagination loop. *)
Definition collect_measurements (fuel : nat) (env : Env)
    (start_date end_date : option datetime) (store_heart_rate : bool)
    : M Staged :=
  let* sync_state := storage_get_sync_state "measurements" in
  let start_date := resume_from start_date sync_state in
  let startdate_ts := option_map (timestamp_int (utc_offset env)) start_date in
  let enddate_ts := option_map (timestamp_int (utc_offset env)) end_date in
  paginate fuel env store_heart_rate startdate_ts enddate_ts None ∅
    nothing_staged.

(** [fetch_measurements], the "store measurements" part. *)
Definition persist_measurements (env : Env) (staged : Staged) : M unit :=
  match staged_measurements staged with
  | [] => storage_update_sync_state env "measurements" None "success"
  | _ :: _ =>
      let* _ := storage_store_measurements (staged_measurements staged) in
      let* _ :=
        match staged_heart_rates staged with
        | [] => ret tt
        | _ :: _ => storage_store_heart_rate (staged_heart_rates staged)
        end in
      storage_update_sync_state env "measurements" (last_timestamp staged)
        "success"
  end.

(** The [try] block of [fetch_measurements]. *)
Definition fetch_measurements_body (fuel : nat) (env : Env)
    (start_date end_date : option datetime) (store_heart_rate : bool)
    : M unit :=
  let* staged :=
    collect_measurements fuel env start_date end_date store_heart_rate in
  persist_measurements env staged.

(** The handler of the three fetches: log, and mark the cursor. *)
Definition on_fetch_error (env : Env) (data_type : string) (e : Exn) : M unit :=
  let* _ := log (EvError ("Error fetching " ++ data_type)) in
  storage_update_sync_state env data_type None "error".

(** [fetch_measurements]; both [except] clauses do the same. *)
Definition fetch_measurements (fuel : nat) (env : Env)
    (start_date end_date : option datetime) (store_heart_rate : bool)
    : M unit :=
  try_except
    (fetch_measurements_body fuel env start_date end_date store_heart_rate)
    (on_fetch_error env "measurements").

(** ** fetch_activity and fetch_sleep *)

(** The body of [for activity in activities_list]. *)
Definition parse_activity (activity : ActivityRaw) : Result ActivityDay :=
  match a_date activity with
  | DateMissing => inl (KeyError "date")
  | DateMalformed s => inl (ValueError ("time data does not match format: " ++ s))
  | DateParsed activity_date =>
      inr {| act_date := activity_date;
             steps := a_steps activity;
             distance := a_distance activity;
             calories := a_calories activity;
             elevation := a_elevation activity;
             soft_activity_duration := a_soft activity;
             moderate_activity_duration := a_moderate activity;
             intense_activity_duration := a_intense activity;
             active_calories := a_active activity;
             total_calories := a_totalcalories activity;
             act_raw_data := activity |}
  end.

(** The body of [for sleep_session in series_list]. *)
Definition parse_sleep (env : Env) (sleep_session : SleepRaw) : Result SleepSession :=
  let! sd := subscript "startdate" (s_startdate sleep_session) in
  let start := fromtimestamp (utc_offset env) sd in
  let! ed := subscript "enddate" (s_enddate sleep_session) in
  let stop := fromtimestamp (utc_offset env) ed in
  let data := get_default (s_data sleep_session) empty_sleep_data in
  inr {| start_time := start;
         end_time := stop;
         duration :=
           if truthy_optZ (total_sleep_time data)
           then get_default (total_sleep_time data) 0
           else timedelta_seconds stop start;
         quality := sleep_score data;
         deep_duration := deepsleepduration data;
         light_duration := lightsleepduration data;
         rem_duration := remsleepduration data;
         awake_duration := wakeupduration data;
         heart_rate_avg := hr_average data;
         heart_rate_min := hr_min data;
         heart_rate_max := hr_max data;
         respiration_rate_avg := rr_average data;
         snoring_duration := snoring data;
         sleep_raw_data := sleep_session |}.

(** A [for] loop that appends one parsed record per element. *)
Definition parse_all {A B : Type} (parse : A -> Result B) (acc : list B)
    (l : list A) : Result (list B) :=
  for_each (fun acc x => let! y := parse x in inr (acc ++ [y])%list) acc l.

Definition sleep_fields : list string :=
  ["breathing_disturbances_intensity"; "deepsleepduration"; "durationtosleep";
   "durationtowakeup"; "hr_average"; "hr_max"; "hr_min"; "lightsleepduration";
   "remsleepduration"; "rr_average"; "rr_max"; "rr_min"; "sleep_score";
   "snoring"; "snoringepisodecount"; "wakeupcount"; "wakeupduration"].

(** The [try] block of one chunk of [fetch_activity]. *)
Definition activity_chunk (env : Env) (all_activities : list ActivityDay)
    (startdateymd enddateymd : string) : M (list ActivityDay) :=
  let* activities_list := call_get_activity env startdateymd enddateymd in
  lift (parse_all parse_activity all_activities activities_list).

(** The [try] block of one chunk of [fetch_sleep]. *)
Definition sleep_chunk (env : Env) (all_sleep_sessions : list SleepSession)
    (startdateymd enddateymd : string) : M (list SleepSession) :=
  let* series_list :=
    call_get_sleep_summary env startdateymd enddateymd sleep_fields in
  lift (parse_all (parse_sleep env) all_sleep_sessions series_list).

(** The [while current_date < end_date] loop, which [fetch_activity] and
    [fetch_sleep] both contain; [chunk] is the [try] block of the data
    type. A [WithingsAPIError] skips the chunk, any other exception leaves
    the loop. One unit of fuel per test of the loop condition. *)
Fixpoint chunk_loop {R : Type} (fuel : nat)
    (chunk : list R -> string -> string -> M (list R))
    (current_date end_date : datetime) (all_records : list R) : M (list R) :=
  match fuel with
  | O => diverge
  | S fuel' =>
      if current_date <? end_date then
        let chunk_end :=
          Z.min (current_date + timedelta_days MAX_DAYS_PER_REQUEST) end_date in
        let* _ := log (EvChunk current_date chunk_end) in
        let* all_records' :=
          try_except
            (chunk all_records (strftime_ymd current_date) (strftime_ymd chunk_end))
            (fun e =>
               if is_WithingsAPIError e
               then let* _ := log (EvError "Error fetching chunk") in
                    ret all_records
               else raise e) in
        chunk_loop fuel' chunk chunk_end end_date all_records'
      else ret all_records
  end.

(** Fuel that the loop never spends (lemma [chunk_loop_fuel_enough]): one
    test per chunk and the final one. *)
Definition chunk_fuel (start_date end_date : datetime) : nat :=
  S (Z.to_nat ((end_date - start_date) / timedelta_days MAX_DAYS_PER_REQUEST + 1)).

(** The prologue of [fetch_activity] and [fetch_sleep]: the date range. *)
Definition chunk_range (env : Env) (start_date end_date : option datetime)
    (sync_state : option SyncRow) : datetime * datetime :=
  let start_date := resume_from start_date sync_state in
  (get_default start_date (now env - timedelta_days 3650),
   get_default end_date (now env)).

(** [fetch_activity], up to the end of the chunk loop. *)
Definition collect_activity (env : Env) (start_date end_date : option datetime)
    : M (list ActivityDay) :=
  let* sync_state := storage_get_sync_state "activity" in
  let '(start_date, end_date) := chunk_range env start_date end_date sync_state in
  chunk_loop (chunk_fuel start_date end_date) (activity_chunk env)
    start_date end_date [].

(** [max(..)] of a non-empty list of keys. *)
Definition max_of (x : Z) (l : list Z) : Z := foldl Z.max x l.

(** [fetch_activity], the "store activity data" part. *)
Definition persist_activity (env : Env) (all_activities : list ActivityDay)
    : M unit :=
  match all_activities with
  | [] => storage_update_sync_state env "activity" None "success"
  | a :: rest =>
      let* _ := storage_store_activity_summary all_activities in
      let last_date := max_of (act_date a) (map act_date rest) in
      storage_update_sync_state env "activity"
        (Some (combine_midnight last_date)) "success"
  end.

Definition fetch_activity_body (env : Env)
    (start_date end_date : option datetime) : M unit :=
  let* all_activities := collect_activity env start_date end_date in
  persist_activity env all_activities.

(** [fetch_activity] *)
Definition fetch_activity (env : Env) (start_date end_date : option datetime)
    : M unit :=
  try_except (fetch_activity_body env start_date end_date)
    (on_fetch_error env "activity").

(** [fetch_sleep], up to the end of the chunk loop. *)
Definition collect_sleep (env : Env) (start_date end_date : option datetime)
    : M (list SleepSession) :=
  let* sync_state := storage_get_sync_state "sleep" in
  let '(start_date, end_date) := chunk_range env start_date end_date sync_state in
  chunk_loop (chunk_fuel start_date end_date) (sleep_chunk env)
    start_date end_date [].

(** [fetch_sleep], the "store sleep data" part. *)
Definition persist_sleep (env : Env) (all_sleep_sessions : list SleepSession)
    : M unit :=
  match all_sleep_sessions with
  | [] => storage_update_sync_state env "sleep" None "success"
  | s :: rest =>
      let* _ := storage_store_sleep_summary all_sleep_sessions in
      let last := max_of (start_time s) (map start_time rest) in
      storage_update_sync_state env "sleep" (Some last) "success"
  end.

Definition fetch_sleep_body (env : Env)
    (start_date end_date : option datetime) : M unit :=
  let* all_sleep_sessions := collect_sleep env start_date end_date in
  persist_sleep env all_sleep_sessions.

(** [fetch_sleep] *)
Definition fetch_sleep (env : Env) (start_date end_date : option datetime)
    : M unit :=
  try_except (fetch_sleep_body env start_date end_date)
    (on_fetch_error env "sleep").

(** ** fetch_all_data *)

(** The default of [data_types]. *)
Definition all_data_types : gmap string bool :=
  <["measurements" := true]>
    (<["activity" := true]>
       (<["sleep" := true]> (<["heart_rate" := true]> ∅))).

(** [data_types.get(key, default)] *)
Definition enabled (data_types : gmap string bool) (key : string)
    (default : bool) : bool :=
  get_default (data_types !! key) default.

(** [if not end_date: end_date = datetime.now()] *)
Definition effective_end_date (env : Env) (end_date : option datetime)
    : option datetime :=
  match end_date with
  | Some e => Some e
  | None => Some (now env)
  end.

(** [if not data_types: data_types = {...}] ([None] and the empty
    dictionary are falsy). *)
Definition effective_data_types (data_types : option (gmap string bool))
    : gmap string bool :=
  match data_types with
  | None => all_data_types
  | Some d => if decide (d = ∅) then all_data_types else d
  end.

(** [fetch_all_data]; [fuel] bounds the pagination of the measurements. *)
Definition fetch_all_data (fuel : nat) (env : Env)
    (start_date end_date : option datetime)
    (data_types : option (gmap string bool)) : M unit :=
  let end_date := effective_end_date env end_date in
  let data_types := effective_data_types data_types in
  let* _ :=
    if enabled data_types "measurements" false
    then fetch_measurements fuel env start_date end_date
           (enabled data_types "heart_rate" true)
    else ret tt in
  let* _ :=
    if enabled data_types "activity" false
    then fetch_activity env start_date end_date
    else ret tt in
  if enabled data_types "sleep" false
  then fetch_sleep env start_date end_date
  else ret tt.

End Fetcher.
Import Fetcher.


(* ===================================================================== *)
(** * Vocabulary for the properties of the fetcher                       *)
(* ===================================================================== *)

Module FetcherSpec.

(** The three data types that have a sync cursor. *)
Inductive DataType : Type := Measurements | Activity | Sleep.

Definition data_type_name (dt : DataType) : string :=
  match dt with
  | Measurements => "measurements"
  | Activity => "activity"
  | Sleep => "sleep"
  end.

(** The [try] block of the fetch of a data type. *)
Definition fetch_body_of (dt : DataType) (fuel : nat) (env : Env)
    (start_date end_date : option datetime) (store_heart_rate : bool) : M unit :=
  match dt with
  | Measurements =>
      fetch_measurements_body fuel env start_date end_date store_heart_rate
  | Activity => fetch_activity_body env start_date end_date
  | Sleep => fetch_sleep_body env start_date end_date
  end.

(** The fetch of a data type. *)
Definition fetch_of (dt : DataType) (fuel : nat) (env : Env)
    (start_date end_date : option datetime) (store_heart_rate : bool) : M unit :=
  match dt with
  | Measurements =>
      fetch_measurements fuel env start_date end_date store_heart_rate
  | Activity => fetch_activity env start_date end_date
  | Sleep => fetch_sleep env start_date end_date
  end.


(** The events a run added to the trace. *)
Definition new_events (w w' : World) : list Event :=
  drop (length (trace w)) (trace w').


(** The bounds [(current_date, chunk_end)] of the iterations of the chunk
    loop, as a function of the date range: the loop of [chunk_loop] without
    its body. *)
Fixpoint chunk_bounds (fuel : nat) (current_date end_date : datetime)
    : list (datetime * datetime) :=
  match fuel with
  | O => []
  | S fuel' =>
      if current_date <? end_date then
        let chunk_end :=
          Z.min (current_date + timedelta_days MAX_DAYS_PER_REQUEST) end_date in
        (current_date, chunk_end) :: chunk_bounds fuel' chunk_end end_date
      else []
  end.









(** The row of [measurements] for a measure of type [ty], mantissa [v] and
    exponent [u] in a group [g] dated [d]. *)
Definition measurement_record (env : Env) (g : MeasureGroup) (d ty v u : Z)
    : Measurement :=
  {| ms_timestamp := fromtimestamp (utc_offset env) d;
     ms_measure_type := _get_measure_type_name ty;
     ms_value := real_value v u;
     ms_unit := _get_measure_unit ty;
     ms_device_id := g_deviceid g;
     ms_raw_data := mkRawMeasure ty v u (g_grpid g) |}.

(** The row of [heart_rate] for a heart-rate measure (type 11). *)
Definition heart_rate_record (env : Env) (g : MeasureGroup) (d v u : Z)
    : HeartRateSample :=
  {| hr_timestamp := fromtimestamp (utc_offset env) d;
     heart_rate := real_value v u;
     hr_device_id := g_deviceid g;
     hr_raw_data := mkRawMeasure 11 v u (g_grpid g) |}.

(** The measure [m] of the group [g] has been staged in [st]: as a
    measurement, and as a heart-rate sample if it is one and the capture is
    enabled. *)
Definition staged_in (store_heart_rate : bool) (env : Env) (g : MeasureGroup)
    (m : Measure) (st : Staged) : Prop :=
  exists d ty v u,
    g_date g = Some d /\ m_type m = Some ty /\
    m_value m = Some v /\ m_unit m = Some u /\
    In (measurement_record env g d ty v u) (staged_measurements st) /\
    (store_heart_rate = true -> ty = 11 ->
     In (heart_rate_record env g d v u) (staged_heart_rates st)).

(** The accumulators only grow, and without the capture the heart-rate one
    does not change. *)
Definition staged_grows (store_heart_rate : bool) (st st' : Staged) : Prop :=
  (exists l, staged_measurements st' = (staged_measurements st ++ l)%list) /\
  (exists l, staged_heart_rates st' = (staged_heart_rates st ++ l)%list /\
             (store_heart_rate = false -> l = [])).

(** The events of the pagination loop are calls and warnings. *)
Definition quiet (ev : Event) : Prop :=
  match ev with
  | EvApi _ | EvWarning _ => True
  | _ => False
  end.

(** A "store" part always completes and leaves the cursor at [success]. *)
Definition persists (env : Env) (A : Type) (data_type : string)
    (persist : A -> M unit) : Prop :=
  forall x w, exists ts w',
    persist x w = (Ret tt, w') /\
    get_sync_state data_type (db w') =
      Some (mkSyncRow (now env) ts "success" (now env)).



(** The offsets [os] of the page requests of one pagination session that
    is entered with [offset] and [seen_offsets = seen] when [n] API calls
    have been made: the first request carries [offset]; a further request
    is only made when the page before announced more data at an offset
    that is not in [seen_offsets], and it carries that offset. *)
Fixpoint page_chain (env : Env) (startdate enddate : option Z) (n : nat)
    (offset : option Z) (seen : gset Z) (os : list (option Z)) : Prop :=
  match os with
  | [] => True
  | o :: rest =>
      o = offset /\
      match rest with
      | [] => True
      | _ :: _ =>
          exists r z,
            get_measurements (api env) n startdate enddate 1 offset = inr r /\
            more r = true /\ Fetcher.offset r = Some z /\ (z ∉ seen) /\
            page_chain env startdate enddate (S n) (Some z) ({[z]} ∪ seen) rest
      end
  end.

(** ** Vocabulary for the effects of a whole fetch *)

(** The data type an API call belongs to. *)
Definition call_type (c : ApiCall) : DataType :=
  match c with
  | GetMeasurements _ _ _ _ => Measurements
  | GetActivity _ _ => Activity
  | GetSleepSummary _ _ _ => Sleep
  end.

(** The events of the part of a fetch of [dt] that comes before the
    "store" part: API calls of that data type, chunk marks, warnings and
    the logged errors of chunks; no call of the storage. *)
Definition collects (dt : DataType) (ev : Event) : Prop :=
  match ev with
  | EvApi c => call_type c = dt
  | EvChunk _ _ | EvWarning _ | EvError _ => True
  | _ => False
  end.


(** The table of the data type holds the same rows. *)
Definition same_table (dt : DataType) (d d' : DB) : Prop :=
  match dt with
  | Measurements => measurements d' = measurements d
  | Activity => activity_summary d' = activity_summary d
  | Sleep => sleep_summary d' = sleep_summary d
  end.

(** Every key of [table] still has a row in [table'], and there are at
    least as many rows. *)
Definition keeps {K V : Type} `{Countable K} (table table' : gmap K V) : Prop :=
  (forall k, is_Some (table !! k) -> is_Some (table' !! k)) /\
  (size table <= size table')%nat.

(** No table and no cursor of [d] has lost a key in [d'], and the UNIQUE
    keys are still respected. *)
Definition grows (d d' : DB) : Prop :=
  keeps (measurements d) (measurements d') /\
  keeps (activity_summary d) (activity_summary d') /\
  keeps (sleep_summary d) (sleep_summary d') /\
  keeps (heart_rate_tbl d) (heart_rate_tbl d') /\
  keeps (sync_state d) (sync_state d') /\
  (well_keyed d -> well_keyed d').

(** What is stored when the [try] block of the fetch of [dt] completes. *)
Definition stored_batches (dt : DataType) (store_heart_rate : bool) (d d1 : DB)
    : Prop :=
  match dt with
  | Measurements =>
      exists ms hrs,
        (store_heart_rate = false -> hrs = []) /\
        d1 = Storage.store_heart_rate hrs (store_measurements ms d)
  | Activity => exists days, d1 = store_activity_summary days d
  | Sleep => exists nights, d1 = store_sleep_summary nights d
  end.


(** One fetch of [dt], seen from the database: nothing, or the batches of
    [dt] and a new cursor row of [dt]. *)
Definition fetch_step (env : Env) (dt : DataType) (store_heart_rate : bool)
    (d d' : DB) : Prop :=
  d' = d \/
  exists ts st d1,
    d' = update_sync_state (now env) (data_type_name dt) ts st d1 /\
    stored_batches dt store_heart_rate d d1.

End FetcherSpec.
Import FetcherSpec.

(* ===================================================================== *)
(** * config.py: the configuration tree                                  *)
(* ===================================================================== *)

Module Config.

(** A value of the configuration, as [yaml.safe_load] builds it and as
    [get] and [set] see it: [None], a scalar, a list, or a dictionary. The
    keys of a dictionary that are not strings are left out: no key the two
    methods look up or write is equal to one of them. The value is a tree:
    a file whose YAML anchors make two places share one dictionary is not
    covered. *)
#[warnings="-register-all"] Inductive Value : Type :=
| VNone
| VBool (b : bool)
| VInt (n : Z)
| VFloat (x : Q)
| VStr (s : string)
| VList (l : list Value)
| VDict (d : gmap string Value).

(** [key.split('.')]: never the empty list. *)
Fixpoint split_dot (key : string) : list string :=
  match key with
  | EmptyString => [EmptyString]
  | String c rest =>
      if Ascii.eqb c "."
      then EmptyString :: split_dot rest
      else match split_dot rest with
           | x :: xs => String c x :: xs
           | [] => [String c EmptyString]
           end
  end.

(** The loop of [Config.get] over [keys], from [value]. *)
Fixpoint get_walk (keys : list string) (value default : Value) : Value :=
  match keys with
  | [] => value
  | k :: keys' =>
      match value with
      | VDict d =>
          match d !! k with
          | None | Some VNone => default
          | Some v => get_walk keys' v default
          end
      | _ => default
      end
  end.

(** [Config.get(key, default)] *)
Definition get (key : string) (default : Value) (config_data : Value) : Value :=
  get_walk (split_dot key) config_data default.

(** [k in s] for two strings. *)
Fixpoint contains (k s : string) : bool :=
  String.prefix k s
  || match s with
     | EmptyString => false
     | String _ s' => contains k s'
     end.

(** [k in l] for a string and a list. *)
Definition is_member (k : string) (l : list Value) : bool :=
  existsb (fun v => match v with
                    | VStr s => String.eqb s k
                    | _ => false
                    end) l.

(** What one pass of the loop of [Config.set] raises on a [data] that is
    not a dictionary: the test [k not in data] raises, except on a string
    (where it is a substring test) and on a list, where the subscript that
    follows raises: [data[k] = {}] or [data[k]]. *)
Definition descend_error (k : string) (data : Value) : Exn :=
  match data with
  | VStr s => if contains k s then TypeError "getitem" else TypeError "setitem"
  | VList l => if is_member k l then TypeError "getitem" else TypeError "setitem"
  | _ => TypeError "in"
  end.

(** The loop of [Config.set] over [keys[:-1]] from [data], and the final
    [data[keys[-1]] = value]. The dictionaries are updated in place; the
    result is the tree [data] is afterwards. An exception is only raised at
    a [data] that was there before the call (a dictionary the loop creates
    is never refused), so the tree is then as it was. *)
Fixpoint set_walk (keys : list string) (last : string) (value data : Value)
    : Result Value :=
  match keys with
  | [] =>
      match data with
      | VDict d => inr (VDict (<[last := value]> d))
      | _ => inl (TypeError "setitem")
      end
  | k :: keys' =>
      match data with
      | VDict d =>
          let child := match d !! k with
                       | Some c => c
                       | None => VDict ∅
                       end in
          let! child' := set_walk keys' last value child in
          inr (VDict (<[k := child']> d))
      | _ => inl (descend_error k data)
      end
  end.

(** [Config.set(key, value)] *)
Definition set (key : string) (value : Value) (config_data : Value)
    : Result Value :=
  let keys := split_dot key in
  set_walk (removelast keys) (List.last keys EmptyString) value config_data.

(** ** Vocabulary *)

(** The value a path of keys leads to, through dictionaries only. *)
Fixpoint at_path (keys : list string) (v : Value) : option Value :=
  match keys with
  | [] => Some v
  | k :: keys' =>
      match v with
      | VDict d =>
          match d !! k with
          | Some c => at_path keys' c
          | None => None
          end
      | _ => None
      end
  end.

Definition is_dict (v : Value) : bool :=
  match v with
  | VDict _ => true
  | _ => false
  end.

Definition is_TypeError (e : Exn) : bool :=
  match e with
  | TypeError _ => true
  | _ => false
  end.

(** [p] is the beginning of [q]. *)
Definition path_prefix (p q : list string) : Prop := exists r, q = (p ++ r)%list.

(** No piece of a split key has a dot. *)
Fixpoint dotless (s : string) : bool :=
  match s with
  | EmptyString => true
  | String c rest => negb (Ascii.eqb c ".") && dotless rest
  end.

End Config.

(* ===================================================================== *)
(** * auth.py: the authorization flow                                     *)
(* ===================================================================== *)

Module Auth.
Import OAuth.

(** What [authorize] and [get_credentials] raise: the plain
    [Exception(msg)] of [authorize], or an exception of the OAuth client. *)
Inductive Error : Type :=
| PlainException (msg : string)
| Raised (e : Exn).

(** [OAuthScope.all_scopes()] *)
Definition all_scopes : list string :=
  ["user.info"; "user.metrics"; "user.activity"; "user.sleepevents"].

(** The authorization URL: [OAUTH_AUTHORIZE_URL] and the parameters handed
    to [urlencode], in their order. *)
Record Url : Type := mkUrl {
  url_base : string;
  url_params : list (string * string)
}.

(** [WithingsOAuthClient.get_authorization_url(state)]; [fresh] is what
    [secrets.token_urlsafe(32)] returns when it is called. *)
Definition get_authorization_url (state : option string) (fresh : string)
    (c : Client) : Url :=
  let state := match state with
               | Some s => if truthy_str s then s else fresh
               | None => fresh
               end in
  mkUrl "https://account.withings.com/oauth2_user/authorize2"
    [("response_type", "code");
     ("client_id", client_id c);
     ("redirect_uri", callback_uri c);
     ("scope", String.concat "," all_scopes);
     ("state", state)].

(** What [parse_qs] makes of the query of a request: the keys that occur
    with a value that is not blank, each with its first value and the
    further ones. *)
Definition Query : Type := gmap string (string * list string).

(** [OAuthCallbackHandler.do_GET]: the class attribute [auth_code] after
    the request, and the status of the answer. *)
Definition do_GET (query : Query) (auth_code : option string)
    : option string * Z :=
  match query !! "code" with
  | Some (code, _) => (Some code, 200)
  | None => (auth_code, 400)
  end.

(** The one request [server.handle_request()] serves: a GET, or a request
    of another method, for which the handler has no code to run. *)
Inductive Callback : Type :=
| GetRequest (query : Query)
| OtherRequest.

(** [WithingsAuthManager], with the class attribute
    [OAuthCallbackHandler.auth_code], which all managers of a process
    share and nothing resets. *)
Record Manager : Type := mkManager {
  oauth_client : Client;
  auth_code : option string
}.

(** [WithingsAuthManager.__init__] in a fresh process that finds the token
    file [saved]: the OAuth client is built with [auto_refresh=True]. *)
Definition init (client_id client_secret callback_uri : string) (now : Q)
    (saved : option OAuthToken) : Manager :=
  mkManager (OAuth.init client_id client_secret callback_uri true now saved) None.

(** What the user is shown. *)
Inductive Event : Type :=
| OpenBrowser (url : Url).

(** Truthiness of [OAuthCallbackHandler.auth_code]. *)
Definition truthy_code (auth_code : option string) : bool :=
  match auth_code with
  | Some s => truthy_str s
  | None => false
  end.

(** [WithingsAuthManager.authorize], in a run in which the local server
    gets to serve its one request [callback]. [fresh] and [fresh'] are the
    readings of [secrets.token_urlsafe(32)]. *)
Definition authorize (endpoint : TokenEndpoint) (now : Q) (fresh fresh' : string)
    (callback : Callback) (m : Manager)
    : (Error + OAuthToken) * Manager * list Event :=
  let state := fresh in
  let authorize_url := get_authorization_url (Some state) fresh' (oauth_client m) in
  let events := [OpenBrowser authorize_url] in
  let auth_code' := match callback with
                    | GetRequest query => fst (do_GET query (auth_code m))
                    | OtherRequest => auth_code m
                    end in
  match auth_code' with
  | Some code =>
      if truthy_str code then
        match exchange_code_for_token endpoint now code (oauth_client m) with
        | (inl e, c') => (inl (Raised e), mkManager c' auth_code', events)
        | (inr token, c') => (inr token, mkManager c' auth_code', events)
        end
      else (inl (PlainException "Failed to receive authorization code"),
            mkManager (oauth_client m) auth_code', events)
  | None => (inl (PlainException "Failed to receive authorization code"),
             mkManager (oauth_client m) auth_code', events)
  end.

(** [WithingsAuthManager.get_credentials(force_refresh)]; [now] is the
    clock at [get_valid_token], [now'] the one at the code exchange. *)
Definition get_credentials (force_refresh : bool) (endpoint : TokenEndpoint)
    (now now' : Q) (fresh fresh' : string) (callback : Callback) (m : Manager)
    : (Error + OAuthToken) * Manager * list Event :=
  if force_refresh then authorize endpoint now' fresh fresh' callback m
  else
    match get_valid_token endpoint now (oauth_client m) with
    | (inr token, c') => (inr token, mkManager c' (auth_code m), [])
    | (inl _, c') =>
        authorize endpoint now' fresh fresh' callback (mkManager c' (auth_code m))
    end.

(** [WithingsAuthManager.is_authorized] *)
Definition is_authorized (m : Manager) : bool :=
  match token (oauth_client m) with
  | Some _ => true
  | None => false
  end.

(** [WithingsAuthManager.clear_credentials]: the token file is removed when
    it exists, and the token in memory dropped. *)
Definition clear_credentials (m : Manager) : Manager :=
  let c := oauth_client m in
  mkManager
    (mkClient (client_id c) (client_secret c) (callback_uri c) (auto_refresh c)
       None None)
    (auth_code m).

(** A later process with the same configuration. *)
Definition restart (now : Q) (m : Manager) : Manager :=
  mkManager (OAuth.restart now (oauth_client m)) None.

(** ** Vocabulary *)

(** The code the class attribute holds after the callback: the one of this
    callback, or else the one an earlier callback left. *)
Definition code_after (callback : Callback) (m : Manager) : option string :=
  match callback with
  | GetRequest query =>
      match query !! "code" with
      | Some (code, _) => Some code
      | None => auth_code m
      end
  | OtherRequest => auth_code m
  end.

End Auth.

(* ===================================================================== *)
(** * export.py: what an export contains                                  *)
(* ===================================================================== *)

Module Exporter.
Import Storage.

(** ** _export_measurements *)

(** An entry of a group of [_export_measurements]. *)
Record MeasurementEntry : Type := mkMeasurementEntry {
  me_timestamp : datetime;
  me_value : Q;
  me_unit : string;
  me_device_id : option string
}.

Definition measurement_entry (m : Measurement) : MeasurementEntry :=
  mkMeasurementEntry (ms_timestamp m) (ms_value m) (ms_unit m) (ms_device_id m).

(** The dictionary [grouped]: its items, in the order of insertion. *)
Definition Grouped : Type := list (string * list MeasurementEntry).

(** [if measure_type not in grouped: grouped[measure_type] = []] and
    [grouped[measure_type].append(entry)] *)
Fixpoint append_to (measure_type : string) (entry : MeasurementEntry)
    (grouped : Grouped) : Grouped :=
  match grouped with
  | [] => [(measure_type, [entry])]
  | (k, l) :: rest =>
      if String.eqb k measure_type
      then (k, (l ++ [entry])%list) :: rest
      else (k, l) :: append_to measure_type entry rest
  end.

(** The loop that fills [grouped]. *)
Definition group_by_type (measurements : list Measurement) : Grouped :=
  foldl (fun grouped m =>
           append_to (ms_measure_type m) (measurement_entry m) grouped)
    [] measurements.

(** [l.sort(key=lambda x: x['timestamp'])]. The sort of Python is stable:
    entries with the same key keep their order. *)
Fixpoint insert_sorted (x : MeasurementEntry) (l : list MeasurementEntry)
    : list MeasurementEntry :=
  match l with
  | [] => [x]
  | y :: l' =>
      if me_timestamp x <=? me_timestamp y then x :: l
      else y :: insert_sorted x l'
  end.

Definition sort_by_timestamp (l : list MeasurementEntry) : list MeasurementEntry :=
  foldr insert_sorted [] l.

(** [_export_measurements] *)
Definition _export_measurements (start_date end_date : option datetime)
    (db : DB) : Grouped :=
  let measurements := get_all_measurements start_date end_date db in
  let grouped := group_by_type measurements in
  map (fun item => (fst item, sort_by_timestamp (snd item))) grouped.

(** ** _export_activity *)

(** [x or 0] *)
Definition or0Z (x : option Z) : Z :=
  match x with
  | Some n => n
  | None => 0
  end.

Definition or0Q (x : option Q) : Q :=
  match x with
  | Some q => q
  | None => 0%Q
  end.

(** [sum(..)] of integers and of floats. A float is modelled by the exact
    number, as in the storage. *)
Definition sumZ (l : list Z) : Z := foldl Z.add 0 l.
Definition sumQ (l : list Q) : Q := foldl Qplus 0%Q l.

(** [a / n] for a number and a length. *)
Definition divide (a : Q) (n : nat) : Q := (a / inject_Z (Z.of_nat n))%Q.

Record DailyEntry : Type := mkDailyEntry {
  de_date : date;
  de_steps : option Z;
  de_distance : option Q;
  de_calories : option Q;
  de_elevation : option Q;
  de_soft : option Z;
  de_moderate : option Z;
  de_intense : option Z
}.

Definition daily_entry (a : ActivityDay) : DailyEntry :=
  mkDailyEntry (act_date a) (steps a) (distance a) (calories a) (elevation a)
    (soft_activity_duration a) (moderate_activity_duration a)
    (intense_activity_duration a).

Record ActivityStatistics : Type := mkActivityStatistics {
  total_days : nat;
  avg_steps : Q;
  total_distance : Q;
  total_calories : Q
}.

(** The result of [_export_activity]; [None] for the statistics is the
    empty dictionary. *)
Record ActivityExport : Type := mkActivityExport {
  daily_summary : list DailyEntry;
  activity_statistics : option ActivityStatistics
}.

(** [_export_activity] *)
Definition _export_activity (start_date end_date : option datetime)
    (db : DB) : ActivityExport :=
  let activities :=
    get_all_activity (option_map inl start_date) (option_map inl end_date) db in
  let daily_summary := map daily_entry activities in
  let stats :=
    match daily_summary with
    | [] => None
    | _ :: _ =>
        Some {| total_days := length daily_summary;
                avg_steps :=
                  divide (inject_Z (sumZ (map (fun d => or0Z (de_steps d))
                                            daily_summary)))
                    (length daily_summary);
                total_distance :=
                  sumQ (map (fun d => or0Q (de_distance d)) daily_summary);
                total_calories :=
                  sumQ (map (fun d => or0Q (de_calories d)) daily_summary) |}
    end in
  mkActivityExport daily_summary stats.

(** ** _export_sleep *)

Record SessionEntry : Type := mkSessionEntry {
  se_start_time : datetime;
  se_end_time : datetime;
  se_duration : Z;
  se_quality : option Z;
  se_deep : option Z;
  se_light : option Z;
  se_rem : option Z;
  se_awake : option Z;
  se_heart_rate_avg : option Q;
  se_heart_rate_min : option Q;
  se_heart_rate_max : option Q;
  se_respiration_rate_avg : option Q;
  se_snoring_duration : option Z
}.

Definition session_entry (s : SleepSession) : SessionEntry :=
  mkSessionEntry (start_time s) (end_time s) (duration s) (quality s)
    (deep_duration s) (light_duration s) (rem_duration s) (awake_duration s)
    (heart_rate_avg s) (heart_rate_min s) (heart_rate_max s)
    (respiration_rate_avg s) (snoring_duration s).

Record SleepStatistics : Type := mkSleepStatistics {
  total_sessions : nat;
  avg_duration : Q;
  total_sleep_time : Z;
  avg_quality : option Q
}.

Record SleepExport : Type := mkSleepExport {
  sessions : list SessionEntry;
  sleep_statistics : option SleepStatistics
}.

(** [_export_sleep] *)
Definition _export_sleep (start_date end_date : option datetime)
    (db : DB) : SleepExport :=
  let sleep_sessions := get_all_sleep start_date end_date db in
  let sessions := map session_entry sleep_sessions in
  let stats :=
    match sessions with
    | [] => None
    | _ :: _ =>
        let total_sleep_time := sumZ (map se_duration sessions) in
        let rated := List.filter (fun s => truthy_optZ (se_quality s)) sessions in
        Some {| total_sessions := length sessions;
                avg_duration := divide (inject_Z total_sleep_time) (length sessions);
                total_sleep_time := total_sleep_time;
                avg_quality :=
                  if existsb (fun s => truthy_optZ (se_quality s)) sessions
                  then Some (divide
                               (inject_Z (sumZ (map (fun s => or0Z (se_quality s))
                                                  rated)))
                               (length rated))
                  else None |}
    end in
  mkSleepExport sessions stats.

(** ** _export_heart_rate *)

Record HeartRateEntry : Type := mkHeartRateEntry {
  he_timestamp : datetime;
  he_heart_rate : Q;
  he_device_id : option string
}.

Definition heart_rate_entry (h : HeartRateSample) : HeartRateEntry :=
  mkHeartRateEntry (hr_timestamp h) (heart_rate h) (hr_device_id h).

Record HeartRateStatistics : Type := mkHeartRateStatistics {
  total_records : nat;
  avg_heart_rate : Q
}.

Record HeartRateExport : Type := mkHeartRateExport {
  records : list HeartRateEntry;
  heart_rate_statistics : option HeartRateStatistics
}.

(** [_export_heart_rate] *)
Definition _export_heart_rate (start_date end_date : option datetime)
    (db : DB) : HeartRateExport :=
  let heart_rates := get_all_heart_rate start_date end_date db in
  let records := map heart_rate_entry heart_rates in
  let stats :=
    match records with
    | [] => None
    | _ :: _ =>
        Some {| total_records := length records;
                avg_heart_rate :=
                  divide (sumQ (map he_heart_rate records)) (length records) |}
    end in
  mkHeartRateExport records stats.

(** ** export_to_json *)

Record Metadata : Type := mkMetadata {
  export_time : datetime;
  date_range : option datetime * option datetime;
  data_types : list string;
  database_stats : Statistics
}.

(** The dictionary [export_data] that is written to the file; [None] is
    a key that is not there. *)
Record ExportData : Type := mkExportData {
  export_metadata : option Metadata;
  x_measurements : option Grouped;
  x_activity : option ActivityExport;
  x_sleep : option SleepExport;
  x_heart_rate : option HeartRateExport
}.

(** Truthiness of the dictionary of the groups, and of a dictionary that
    is built with its two keys. *)
Definition truthy_grouped (g : Grouped) : bool :=
  match g with
  | [] => false
  | _ :: _ => true
  end.

Definition truthy_two_keys {A : Type} (section : A) : bool := true.

Definition when {A : Type} (b : bool) (x : A) : option A :=
  if b then Some x else None.

(** [export_to_json], the data it collects; [now] is the reading of
    [datetime.now()]. *)
Definition export_to_json (now : datetime) (start_date end_date : option datetime)
    (include_metadata : bool) (db : DB) : ExportData :=
  let metadata :=
    when include_metadata
      (mkMetadata now (start_date, end_date)
         ["measurements"; "activity"; "sleep"; "heart_rate"]
         (get_statistics db)) in
  let measurements_data := _export_measurements start_date end_date db in
  let activity_data := _export_activity start_date end_date db in
  let sleep_data := _export_sleep start_date end_date db in
  let heart_rate_data := _export_heart_rate start_date end_date db in
  mkExportData metadata
    (when (truthy_grouped measurements_data) measurements_data)
    (when (truthy_two_keys activity_data) activity_data)
    (when (truthy_two_keys sleep_data) sleep_data)
    (when (truthy_two_keys heart_rate_data) heart_rate_data).

(** ** The CSV export of the measurements *)

(** A row handed to [csv.DictWriter.writerow], in the order of
    [fieldnames]. *)
Record MeasurementCsvRow : Type := mkMeasurementCsvRow {
  csv_timestamp : datetime;
  csv_measure_type : string;
  csv_value : Q;
  csv_unit : string;
  csv_device_id : option string
}.

Definition measurement_csv_row (m : Measurement) : MeasurementCsvRow :=
  mkMeasurementCsvRow (ms_timestamp m) (ms_measure_type m) (ms_value m)
    (ms_unit m) (ms_device_id m).

(** What [export_measurements_csv] writes: nothing at all when there is no
    measurement, and else the header and one row per measurement. *)
Definition export_measurements_csv (start_date end_date : option datetime)
    (db : DB) : option (list string * list MeasurementCsvRow) :=
  match get_all_measurements start_date end_date db with
  | [] => None
  | measurements =>
      Some (["timestamp"; "measure_type"; "value"; "unit"; "device_id"],
            map measurement_csv_row measurements)
  end.

(** ** Vocabulary *)

(** [grouped.get(measure_type)] *)
Definition entries_of (measure_type : string) (grouped : Grouped)
    : option (list MeasurementEntry) :=
  option_map snd
    (List.find (fun item => String.eqb (fst item) measure_type) grouped).

(** The measurement has the type [measure_type]. *)
Definition of_type (measure_type : string) (m : Measurement) : bool :=
  String.eqb (ms_measure_type m) measure_type.

(** A group with further entries at its end. *)
Definition extended (old : option (list MeasurementEntry))
    (more : list MeasurementEntry) : option (list MeasurementEntry) :=
  match old, more with
  | None, [] => None
  | None, _ :: _ => Some more
  | Some l, _ => Some (l ++ more)%list
  end.

End Exporter.

(* ===================================================================== *)
(** * Concrete runs used by the examples below                           *)
(* ===================================================================== *)

Module Scenarios.
Import OAuth.

(** A client that holds a token of user 42. *)
Definition held_token : OAuthToken :=
  mkToken "access" "refresh" "Bearer" 3600 0 (Some 42) None.

Definition client0 : Client :=
  mkClient "client" "secret" "http://localhost:8080" true (Some held_token) None.

(** A successful token answer whose body carries the user id [u]. *)
Definition token_body (u : option Z) : TokenDict :=
  mkTokenDict (Some "access2") (Some "refresh2") (Some "Bearer") (Some 10800)
    None u None.

Definition endpoint_ok (u : option Z) : TokenEndpoint :=
  fun _ => Responded (mkResponse 200
             (JsonDict (mkTokenEnvelope (Some 0) None (Some (token_body u))))).

(** A token endpoint that answers with an HTML page and HTTP status [code]. *)
Definition endpoint_html (code : Z) : TokenEndpoint :=
  fun _ => Responded (mkResponse code (NotJson "<html>login</html>")).

(** A vendor that answers every request with envelope status [s]. *)
Definition server_status (s : Z) : ApiClient.Server unit :=
  fun _ _ => Responded (mkResponse 200
               (JsonDict (ApiClient.mkEnvelope (Some s) (Some tt)))).

(** The request [get_measurements] sends for [category = 1]. *)
Definition getmeas_params : ApiClient.Params :=
  [("action", "getmeas"); ("category", "1")].

Definition getmeas_request : ApiClient.Request :=
  ApiClient.mkRequest "GET" "https://wbsapi.withings.net/measure"
    (Some getmeas_params) None "Bearer access".

(** ** Runs of the fetcher *)

(** 2026-01-03 and 2026-01-01, as naive datetimes. *)
Definition some_now : datetime := 1767400000000000.
Definition new_year : datetime := 1767225600000000.

Definition fresh_world : World := mkWorld empty_db [].

(** A vendor that has nothing to report. *)
Definition api_quiet : Api :=
  mkApi (fun _ _ _ _ _ => inr (mkMeasResult [] false None))
        (fun _ _ _ => inr [])
        (fun _ _ _ _ => inr []).

Definition env_quiet : Env := mkEnv api_quiet some_now 0.

(** A vendor that rejects the measurement calls (status 401). *)
Definition api_auth_failure : Api :=
  mkApi (fun _ _ _ _ _ => inl (WithingsAuthError 401 "Authentication failed"))
        (fun _ _ _ => inr [])
        (fun _ _ _ _ => inr []).

Definition env_auth_failure : Env := mkEnv api_auth_failure some_now 0.

(** A database whose three cursors stand at 2026-01-01. *)
Definition synced_row : SyncRow :=
  mkSyncRow new_year (Some new_year) "success" new_year.

Definition world_synced : World :=
  mkWorld
    (mkDB ∅ ∅ ∅ ∅
       (<["measurements" := synced_row]>
          (<["activity" := synced_row]> (<["sleep" := synced_row]> ∅))))
    [].

(** A vendor whose every page announces a further page at an offset it
    has not used before. *)
Definition api_fresh_offsets : Api :=
  mkApi (fun n _ _ _ _ => inr (mkMeasResult [] true (Some (Z.of_nat n))))
        (fun _ _ _ => inr [])
        (fun _ _ _ _ => inr []).

Definition env_fresh_offsets : Env := mkEnv api_fresh_offsets some_now 0.

(** A vendor that keeps announcing a further page at offset 123. *)
Definition api_stuck_offset : Api :=
  mkApi (fun _ _ _ _ _ => inr (mkMeasResult [] true (Some 123)))
        (fun _ _ _ => inr [])
        (fun _ _ _ _ => inr []).

Definition env_stuck_offset : Env := mkEnv api_stuck_offset some_now 0.

Definition offsets_123 : gset Z := {[123]}.

(** A vendor that reports the activity of 2026-07-20 in every answer. *)
Definition boundary_day : ActivityRaw :=
  mkActivityRaw (DateParsed 20654) (Some 1000) None None None None None None
    None None.

Definition api_boundary_day : Api :=
  mkApi (fun _ _ _ _ _ => inr (mkMeasResult [] false None))
        (fun _ _ _ => inr [boundary_day])
        (fun _ _ _ _ => inr []).

Definition env_boundary_day : Env := mkEnv api_boundary_day some_now 0.

(** The two pages of the repository's test: a weight and a heart rate of
    60 bpm on 2026-01-01, then a weight on 2026-01-02. *)
Definition weight_measure : Measure := mkMeasure (Some 1) (Some 70000) (Some (-3)).
Definition hr_measure : Measure := mkMeasure (Some 11) (Some 60000) (Some (-3)).

Definition morning_group : MeasureGroup :=
  mkMeasureGroup (Some 1767225600) (Some "device-1") None
    [weight_measure; hr_measure].

Definition page1 : MeasResult := mkMeasResult [morning_group] true (Some 123).

Definition page2 : MeasResult :=
  mkMeasResult
    [mkMeasureGroup (Some 1767312000) (Some "device-1") None
       [mkMeasure (Some 1) (Some 71000) (Some (-3))]]
    false None.

Definition api_two_pages : Api :=
  mkApi (fun n _ _ _ _ => match n with O => inr page1 | S _ => inr page2 end)
        (fun _ _ _ => inr [])
        (fun _ _ _ _ => inr []).

Definition env_two_pages : Env := mkEnv api_two_pages some_now 0.

(** The world after the [try] block of the measurement fetch of the test. *)
Definition world_two_pages (store_heart_rate : bool) : World :=
  snd (fetch_measurements_body 10 env_two_pages (Some new_year) (Some some_now)
         store_heart_rate fresh_world).







(** A vendor behind a gateway that answers 502 with an HTML page. *)
Definition server_bad_gateway : ApiClient.Server unit :=
  fun _ _ => Responded (mkResponse 502 (NotJson "<html>Bad Gateway</html>")).

(** A vendor that answers the first two requests with status 601 and the
    following ones with status 0, without a [body]. *)
Definition server_busy_twice : ApiClient.Server unit :=
  fun n _ =>
    Responded (mkResponse 200
      (JsonDict (ApiClient.mkEnvelope (Some (if (n <? 2)%nat then 601 else 0))
                   None))).

(** ** Databases for the examples of the storage *)

(** A heart rate of [bpm] at [ts]. *)
Definition hr_at (ts : datetime) (bpm : Z) : HeartRateSample :=
  mkHeartRateSample ts (inject_Z bpm) (Some "device-1") (mkRawMeasure 11 bpm 0 None).

(** Two heart rates, of 2026-01-01 and 2026-01-03. *)
Definition db_heart_rates : DB :=
  store_heart_rate [hr_at new_year 60; hr_at some_now 62] empty_db.

(** The activity of 2026-07-20, as it is stored. *)
Definition day_20654 : ActivityDay :=
  mkActivityDay 20654 (Some 1000) None None None None None None None None
    boundary_day.

Definition db_one_day : DB := store_activity_summary [day_20654] empty_db.

(** Noon of day 20654. *)
Definition noon_20654 : datetime := (20654 * 86400 + 43200) * 1000000.

(** A selection that names the activity only. *)
Definition only_activity : gmap string bool := <["activity" := true]> ∅.


(** A configuration that only has the sync interval. *)
Definition small_config : Config.Value :=
  Config.VDict (<["sync" := Config.VDict (<["interval" := Config.VInt 3600]> ∅)]> ∅).

(** The same after [set('sync.data_types.sleep', False)]. *)
Definition config_sleep_off : Config.Value :=
  match Config.set "sync.data_types.sleep" (Config.VBool false) small_config with
  | inr c => c
  | inl _ => Config.VNone
  end.


(** A manager without a token, in a fresh process. *)
Definition manager_new : Auth.Manager :=
  Auth.init "client" "secret" "http://localhost:8080" 0 None.

(** The callback of an approved authorization, and one of a refused one. *)
Definition callback_code : Auth.Callback :=
  Auth.GetRequest (<["code" := ("fresh", [])]> (<["state" := ("xyz", [])]> ∅)).


End Scenarios.

(* ===================================================================== *)
(** * Facts about the Python layer                                       *)
(* ===================================================================== *)

Lemma py_int_nonneg_floor (x : Q) : (0 <= x)%Q -> py_int x = Qfloor x.
Proof.
  intros Hx. unfold py_int, Qfloor. destruct x as [n d]. simpl.
  unfold Qle in Hx. simpl in Hx.
  apply Z.quot_div_nonneg; lia.
Qed.

(** For a non-negative clock, comparing the truncated reading against an
    integer is the same as comparing the reading itself. *)
Lemma py_int_ge_iff (x : Q) (k : Z) :
  (0 <= x)%Q -> (k <= py_int x <-> (inject_Z k <= x)%Q).
Proof.
  intros Hx. rewrite (py_int_nonneg_floor x Hx). split; intros H.
  - apply Qle_trans with (inject_Z (Qfloor x)).
    + rewrite <- Zle_Qle. exact H.
    + apply Qfloor_le.
  - rewrite <- (Qfloor_Z k). apply Qfloor_resp_le. exact H.
Qed.

Lemma append_assoc (a b c : string) : ((a ++ b) ++ c)%string = (a ++ b ++ c)%string.
Proof.
  induction a as [|x a IH]; [reflexivity|].
  change (String x ((a ++ b) ++ c) = String x (a ++ b ++ c))%string.
  f_equal. exact IH.
Qed.

(* ===================================================================== *)
(** * oauth_client.py: token expiry, refresh, non-JSON answers           *)
(* ===================================================================== *)

Section OAuthFacts.
Import OAuth.

Lemma read_token_response_inr (d : string) (now : Q)
    (r : Response TokenEnvelope) (body : TokenDict) :
  read_token_response d now r = inr body ->
  exists result body0,
    json r = JsonDict result /\ e_body result = Some body0 /\
    body = set_token_expiry (py_int now + get_default (d_expires_in body0) 10800) body0.
Proof.
  unfold read_token_response. destruct (raise_for_status r) as [e|[]]; simpl; [discriminate|].
  destruct (json r) as [t| |result]; try discriminate.
  destruct (negb _); [discriminate|].
  destruct (e_body result) as [body0|] eqn:Hb; simpl; [|discriminate].
  intros [= <-]. exists result, body0. auto.
Qed.

Lemma from_dict_inr (now : Q) (data : TokenDict) (t : OAuthToken) :
  from_dict now data = inr t ->
  expires_in t = get_default (d_expires_in data) 10800 /\
  token_expiry t =
    get_default (d_token_expiry data)
      (py_int (now + inject_Z (get_default (d_expires_in data) 10800%Z))%Q) /\
  userid t = d_userid data.
Proof.
  unfold from_dict.
  destruct (d_access_token data); simpl; [|discriminate].
  destruct (d_refresh_token data); simpl; [|discriminate].
  intros [= <-]. simpl. auto.
Qed.

(** A token built from a token answer read at clock [now]. *)
Lemma issued_token (d : string) (now : Q) (r : Response TokenEnvelope)
    (t : OAuthToken) :
  (let! body := read_token_response d now r in from_dict now body) = inr t ->
  token_expiry t = py_int now + expires_in t /\
  exists body0, userid t = d_userid body0 /\
    exists result, json r = JsonDict result /\ e_body result = Some body0.
Proof.
  destruct (read_token_response d now r) as [e|body] eqn:Hr; simpl; [discriminate|].
  intros Hf. apply read_token_response_inr in Hr as (result & body0 & Hj & Hb & ->).
  apply from_dict_inr in Hf as (He & Ht & Hu). simpl in *.
  split; [congruence|]. exists body0. split; [exact Hu|]. eauto.
Qed.

Lemma exchange_issued (endpoint : TokenEndpoint) (now : Q) (code : string)
    (c c' : Client) (t : OAuthToken) :
  exchange_code_for_token endpoint now code c = (inr t, c') ->
  token_expiry t = py_int now + expires_in t.
Proof.
  unfold exchange_code_for_token.
  destruct (endpoint _) as [|r]; [discriminate|].
  destruct (let! body := read_token_response _ now r in from_dict now body)
    as [e|t0] eqn:Hi; [discriminate|].
  intros [= <- _]. apply issued_token in Hi. tauto.
Qed.

Lemma refresh_issued (endpoint : TokenEndpoint) (now : Q)
    (c c' : Client) (t : OAuthToken) :
  refresh_access_token endpoint now c = (inr t, c') ->
  token_expiry t = py_int now + expires_in t.
Proof.
  unfold refresh_access_token.
  destruct (token c) as [held|]; [|discriminate].
  destruct (negb (truthy_str (refresh_token held))); [discriminate|].
  destruct (endpoint _) as [|r]; [discriminate|].
  destruct (let! body := read_token_response _ now r in from_dict now body)
    as [e|t0] eqn:Hi; [discriminate|].
  intros [= <- _]. apply issued_token in Hi as [Hi _].
  destruct (negb (truthy_optZ (userid t0))); simpl; exact Hi.
Qed.

(** What a successful refresh does with the user id: the answer's one when
    it is truthy, the held one otherwise. *)
Lemma refresh_userid (endpoint : TokenEndpoint) (now : Q)
    (c c' : Client) (held t : OAuthToken) :
  token c = Some held ->
  refresh_access_token endpoint now c = (inr t, c') ->
  exists body0,
    userid t = (if truthy_optZ (d_userid body0) then d_userid body0 else userid held).
Proof.
  unfold refresh_access_token. intros ->.
  destruct (negb (truthy_str (refresh_token held))); [discriminate|].
  destruct (endpoint _) as [|r]; [discriminate|].
  destruct (let! body := read_token_response _ now r in from_dict now body)
    as [e|t0] eqn:Hi; [discriminate|].
  intros [= <- _]. apply issued_token in Hi as (_ & body0 & Hu & _).
  exists body0. rewrite <- Hu.
  destruct (truthy_optZ (userid t0)); reflexivity.
Qed.

(** The exceptions of the shared part, and of [from_dict]: the parse error
    of [response.json()] is not among them. *)
Lemma read_token_response_no_json_error (d : string) (now : Q)
    (r : Response TokenEnvelope) :
  read_token_response d now r <> inl JSONDecodeError.
Proof.
  unfold read_token_response, raise_for_status.
  destruct ((400 <=? status_code r) && (status_code r <? 600)); [discriminate|].
  cbn [bindR]. destruct (json r) as [t| |result]; try discriminate.
  destruct (negb _); [discriminate|].
  destruct (e_body result); discriminate.
Qed.

Lemma from_dict_no_json_error (now : Q) (data : TokenDict) :
  from_dict now data <> inl JSONDecodeError.
Proof.
  unfold from_dict.
  destruct (d_access_token data); [|discriminate].
  destruct (d_refresh_token data); discriminate.
Qed.

Lemma token_answer_no_json_error (d : string) (now : Q)
    (r : Response TokenEnvelope) :
  (let! body := read_token_response d now r in from_dict now body)
  <> inl JSONDecodeError.
Proof.
  pose proof (read_token_response_no_json_error d now r) as Hr.
  destruct (read_token_response d now r) as [e|body]; cbn [bindR].
  - intros [= ->]. apply Hr. reflexivity.
  - apply from_dict_no_json_error.
Qed.

Lemma token_operations_never_raise_json_error (endpoint : TokenEndpoint)
    (now : Q) (code : string) (c : Client) :
  fst (exchange_code_for_token endpoint now code c) <> inl JSONDecodeError /\
  fst (refresh_access_token endpoint now c) <> inl JSONDecodeError.
Proof.
  split.
  - unfold exchange_code_for_token.
    destruct (endpoint _) as [|r]; [discriminate|].
    pose proof (token_answer_no_json_error "Unknown error" now r) as Hr.
    destruct (let! body := read_token_response _ now r in from_dict now body);
      [exact Hr|discriminate].
  - unfold refresh_access_token.
    destruct (token c) as [held|]; [|discriminate].
    destruct (negb (truthy_str (refresh_token held))); [discriminate|].
    destruct (endpoint _) as [|r]; [discriminate|].
    pose proof (token_answer_no_json_error "Token refresh failed" now r) as Hr.
    destruct (let! body := read_token_response _ now r in from_dict now body);
      [exact Hr|discriminate].
Qed.

End OAuthFacts.

(** C2. A token issued at clock reading [issued_at] (by the code exchange or
    by a refresh) has [token_expiry = T + E], where [T = int(issued_at)] and
    [E] is its [expires_in]; and [is_expired()] with the default buffer,
    called at a (non-negative) clock reading [now], is true exactly when
    [now >= T + E - 300]. *)
Theorem C2_is_expired_iff (endpoint : OAuth.TokenEndpoint) (issued_at : Q)
    (code : string) (c c' : OAuth.Client) (t : OAuth.OAuthToken) (now : Q) :
  OAuth.exchange_code_for_token endpoint issued_at code c = (inr t, c') \/
  OAuth.refresh_access_token endpoint issued_at c = (inr t, c') ->
  (0 <= now)%Q ->
  let T := py_int issued_at in
  let E := OAuth.expires_in t in
  OAuth.token_expiry t = T + E /\
  (OAuth.is_expired t now = true <-> (inject_Z (T + E - 300) <= now)%Q).
Proof.
  intros Hissued Hnow T E.
  assert (Hexp : OAuth.token_expiry t = T + E).
  { destruct Hissued as [H|H].
    - exact (exchange_issued _ _ _ _ _ _ H).
    - exact (refresh_issued _ _ _ _ _ H). }
  split; [exact Hexp|].
  unfold OAuth.is_expired, OAuth.is_expired_with. rewrite Hexp.
  rewrite Z.leb_le. apply py_int_ge_iff. exact Hnow.
Qed.

(** A token issued at 1000.5 with [expires_in = 10800] expires at 11800; at
    11500.25 the five-minute buffer is reached. *)
Lemma C2_is_expired_iff_witness :
  OAuth.token_expiry
    (OAuth.mkToken "access2" "refresh2" "Bearer" 10800 11800 (Some 7) None)
    = py_int (2001 # 2) + 10800 /\
  (OAuth.is_expired
     (OAuth.mkToken "access2" "refresh2" "Bearer" 10800 11800 (Some 7) None)
     (46001 # 4) = true <->
   (inject_Z (py_int (2001 # 2) + 10800 - 300) <= 46001 # 4)%Q).
Proof.
  apply (C2_is_expired_iff (Scenarios.endpoint_ok (Some 7)) (2001 # 2)
           "code" Scenarios.client0
           (OAuth.exchange_code_for_token (Scenarios.endpoint_ok (Some 7))
              (2001 # 2) "code" Scenarios.client0).2).
  - left. reflexivity.
  - unfold Qle. simpl. lia.
Defined.

(** C6 (the code at the failing input). The client holds a token of user 42
    and the body of the refresh answer contains [userid = 0]: the refresh
    succeeds, and the refreshed token keeps 42 instead of adopting the value
    of the answer. *)
Theorem C6_refresh_falsy_userid_keeps_old :
  OAuth.userid Scenarios.held_token = Some 42 /\
  OAuth.d_userid (Scenarios.token_body (Some 0)) = Some 0 /\
  exists t c',
    OAuth.refresh_access_token (Scenarios.endpoint_ok (Some 0)) 0
      Scenarios.client0 = (inr t, c') /\
    OAuth.token c' = Some t /\
    OAuth.userid t = Some 42 /\
    OAuth.userid t <> Some 0.
Proof.
  split; [reflexivity|]. split; [reflexivity|].
  eexists. eexists. split; [reflexivity|].
  split; [reflexivity|]. split; [reflexivity|]. discriminate.
Qed.

(** The two cases of C6 on which the code agrees with the claim: an answer
    without user id keeps the held one, an answer with a non-zero user id
    replaces it. *)
Lemma refresh_userid_omitted_or_nonzero (endpoint : OAuth.TokenEndpoint)
    (now : Q) (c c' : OAuth.Client) (held t : OAuth.OAuthToken) :
  OAuth.token c = Some held ->
  OAuth.refresh_access_token endpoint now c = (inr t, c') ->
  exists body0,
    (OAuth.d_userid body0 = None -> OAuth.userid t = OAuth.userid held) /\
    (forall u, OAuth.d_userid body0 = Some u -> u <> 0 -> OAuth.userid t = Some u).
Proof.
  intros Hheld Hr.
  destruct (refresh_userid endpoint now c c' held t Hheld Hr) as [body0 Hu].
  exists body0. split.
  - intros Hn. rewrite Hn in Hu. exact Hu.
  - intros u Hs Hne. rewrite Hs in Hu. simpl in Hu.
    destruct (Z.eqb_spec u 0); [contradiction|]. exact Hu.
Qed.

(** C7 (as amended). When the token endpoint answers with an HTTP status
    outside 400..599 and a body that is not JSON, both
    [exchange_code_for_token] and [refresh_access_token] (with a refresh
    token held) raise [WithingsOAuthError] with the HTTP status and the
    message "Non-JSON response from token endpoint"; the client is left as
    it was, the text of the exception contains "Non-JSON", and no answer
    with a JSON envelope raises the same exception. Whatever the endpoint
    answers, neither operation lets the parse error of [response.json()]
    out. *)
Theorem C7_non_json_raises_oauth_error (endpoint : OAuth.TokenEndpoint)
    (now : Q) (code : string) (c : OAuth.Client)
    (response : Response OAuth.TokenEnvelope) (text : string) :
  (forall form, endpoint form = Responded response) ->
  json response = NotJson text ->
  raise_for_status response = inr tt ->
  let e := WithingsOAuthError (status_code response)
             "Non-JSON response from token endpoint" false in
  OAuth.exchange_code_for_token endpoint now code c = (inl e, c) /\
  (forall held, OAuth.token c = Some held ->
     truthy_str (OAuth.refresh_token held) = true ->
     OAuth.refresh_access_token endpoint now c = (inl e, c)) /\
  (exists before,
     OAuth.oauth_error_str (status_code response)
       "Non-JSON response from token endpoint"
     = before ++ "Non-JSON" ++ " response from token endpoint") /\
  (forall d r' result e',
     json r' = JsonDict result ->
     OAuth.read_token_response d now r' = inl e' -> e' <> e) /\
  (forall endpoint' now' code' c',
     fst (OAuth.exchange_code_for_token endpoint' now' code' c') <> inl JSONDecodeError /\
     fst (OAuth.refresh_access_token endpoint' now' c') <> inl JSONDecodeError).
Proof.
  intros Hend Hjson Hstatus e.
  split; [|split; [|split; [|split]]]; [| | | |apply token_operations_never_raise_json_error].
  - unfold OAuth.exchange_code_for_token. rewrite Hend.
    unfold OAuth.read_token_response. rewrite Hstatus, Hjson. reflexivity.
  - intros held Hheld Htruthy. unfold OAuth.refresh_access_token.
    rewrite Hheld, Htruthy. simpl. rewrite Hend.
    unfold OAuth.read_token_response. rewrite Hstatus, Hjson. reflexivity.
  - exists ("OAuth Error " ++ str_Z (status_code response) ++ ": ").
    unfold OAuth.oauth_error_str.
    rewrite !append_assoc. reflexivity.
  - intros d r' result e' Hj He'. unfold OAuth.read_token_response in He'.
    destruct (raise_for_status r') as [x|[]] eqn:Hs; simpl in He'.
    + unfold raise_for_status in Hs.
      destruct ((400 <=? status_code r') && (status_code r' <? 600)); [|discriminate].
      injection Hs as <-. injection He' as <-. discriminate.
    + rewrite Hj in He'.
      destruct (negb _); [injection He' as <-; discriminate|].
      destruct (OAuth.e_body result); simpl in He'; [discriminate|].
      injection He' as <-. discriminate.
Qed.

(** An HTML page answered with status 200, as in the repository's test. *)
Lemma C7_non_json_raises_oauth_error_witness :
  OAuth.exchange_code_for_token (Scenarios.endpoint_html 200) 0 "code"
    Scenarios.client0
  = (inl (WithingsOAuthError 200 "Non-JSON response from token endpoint" false),
     Scenarios.client0) /\
  OAuth.refresh_access_token (Scenarios.endpoint_html 200) 0 Scenarios.client0
  = (inl (WithingsOAuthError 200 "Non-JSON response from token endpoint" false),
     Scenarios.client0).
Proof.
  pose proof (C7_non_json_raises_oauth_error (Scenarios.endpoint_html 200) 0
                "code" Scenarios.client0
                (mkResponse 200 (NotJson "<html>login</html>"))
                "<html>login</html>"
                (fun _ => eq_refl) eq_refl eq_refl) as (Hx & Hr & _).
  split; [exact Hx|].
  exact (Hr Scenarios.held_token eq_refl eq_refl).
Defined.

(** C7 (counterexample to the claim as stated). The endpoint answers 502
    with an HTML page: the body is not JSON, yet both operations raise
    [requests.exceptions.HTTPError] from [raise_for_status], which is not a
    [WithingsOAuthError]. *)
Lemma C7_http_error_page_escapes :
  json (mkResponse (A := OAuth.TokenEnvelope) 502 (NotJson "<html>login</html>"))
    = NotJson "<html>login</html>" /\
  fst (OAuth.exchange_code_for_token (Scenarios.endpoint_html 502) 0 "code"
         Scenarios.client0) = inl (HTTPError 502) /\
  fst (OAuth.refresh_access_token (Scenarios.endpoint_html 502) 0
         Scenarios.client0) = inl (HTTPError 502) /\
  is_WithingsOAuthError (HTTPError 502) = false.
Proof. repeat split. Qed.

(* ===================================================================== *)
(** * api_client.py: the rate-limit retry and the authentication errors  *)
(* ===================================================================== *)

Section ApiClientFacts.
Import ApiClient.

Context {Body : Type} (empty_body : Body) (server : Server Body).
Context (access_token method endpoint : string) (params data : option Params).

Lemma send_envelope (req : Request) (w : World) (s : Z) :
  envelope_status_is (server (requests_made w) req) s ->
  exists result,
    send server req w = (inr result, emit (EvRequest req) w) /\
    status result = Some s.
Proof.
  intros (response & result & Hs & Hr & Hj & Hst).
  exists result. split; [|exact Hst].
  unfold send. rewrite Hs, Hr, Hj. reflexivity.
Qed.

(** One attempt that is answered with status 601. *)
Lemma make_request_fuel_601 (fuel : nat) (retry_count : Z) (w : World)
    (req : Request) :
  build_request access_token method endpoint params data = inr req ->
  envelope_status_is (server (requests_made w) req) 601 ->
  make_request_fuel empty_body (S fuel) server access_token method endpoint
    params data retry_count w =
  if retry_count <? 3
  then make_request_fuel empty_body fuel server access_token method endpoint
         params data (retry_count + 1)
         (emit (EvSleep (Z.min (60 * 2 ^ retry_count) 300)) (emit (EvRequest req) w))
  else (Raise rate_limit_error, emit (EvRequest req) w).
Proof.
  intros Hb He. destruct (send_envelope req w 601 He) as (result & Hsend & Hst).
  cbn [make_request_fuel]. rewrite Hb, Hsend, Hst. reflexivity.
Qed.

(** One attempt that is answered with an authentication status. *)
Lemma make_request_fuel_auth (fuel : nat) (retry_count : Z) (w : World)
    (req : Request) (s : Z) :
  build_request access_token method endpoint params data = inr req ->
  s = 401 \/ s = 328 \/ s = 2554 ->
  envelope_status_is (server (requests_made w) req) s ->
  make_request_fuel empty_body (S fuel) server access_token method endpoint
    params data retry_count w =
  (Raise (WithingsAuthError s
            (get_default (STATUS_MESSAGES s) "Authentication failed")),
   emit (EvRequest req) w).
Proof.
  intros Hb Hs He. destruct (send_envelope req w s He) as (result & Hsend & Hst).
  cbn [make_request_fuel]. rewrite Hb, Hsend, Hst.
  destruct Hs as [-> | [-> | ->]]; reflexivity.
Qed.

(** The fuel of [_make_request] is never spent: the call returns or raises. *)
Lemma make_request_fuel_enough (fuel : nat) :
  forall (retry_count : Z) (w : World),
    (Z.to_nat (3 - retry_count) < fuel)%nat ->
    fst (make_request_fuel empty_body fuel server access_token method endpoint
           params data retry_count w) <> Diverge.
Proof.
  induction fuel as [|fuel IH]; intros retry_count w Hfuel; [lia|].
  cbn [make_request_fuel].
  destruct (match build_request access_token method endpoint params data with
            | inl e => (inl e, w)
            | inr req => send server req w
            end) as [[e|result] w']; simpl; [discriminate|].
  destruct (get_default (status result) (-1) =? 0); simpl; [discriminate|].
  destruct ((get_default (status result) (-1) =? 401) ||
            (get_default (status result) (-1) =? 328) ||
            (get_default (status result) (-1) =? 2554)); simpl; [discriminate|].
  destruct (get_default (status result) (-1) =? 601); simpl; [|discriminate].
  destruct (Z.ltb_spec retry_count 3); simpl; [|discriminate].
  apply IH. lia.
Qed.

Lemma make_request_returns (retry_count : Z) (w : World) :
  fst (_make_request empty_body server access_token method endpoint
         params data retry_count w) <> Diverge.
Proof. unfold _make_request. apply make_request_fuel_enough. lia. Qed.

End ApiClientFacts.

(** C1. For a GET or POST request [req]: when every attempt is answered
    with envelope status 601, [_make_request] issues the request four times
    (three retries), sleeping 60, 120 and 240 seconds in between, and then
    raises [WithingsRateLimitError]; when the first attempt is answered with
    envelope status 401, 328 or 2554 it raises [WithingsAuthError] after
    that single request, with no sleep and no retry. The wait after an
    attempt numbered [attempt < 3] that was answered 601 is
    [min(60 * 2^attempt, 300)] seconds. *)
Theorem C1_rate_limit_retries_and_auth_errors {Body : Type} (empty_body : Body)
    (server : ApiClient.Server Body) (access_token method endpoint : string)
    (params data : option ApiClient.Params) (req : ApiClient.Request)
    (w : ApiClient.World) :
  ApiClient.build_request access_token method endpoint params data = inr req ->
  ((forall n r, ApiClient.envelope_status_is (server n r) 601) ->
   ApiClient._make_request empty_body server access_token method endpoint
     params data 0 w =
   (Raise (WithingsRateLimitError 60),
    (w ++ [ApiClient.EvRequest req; ApiClient.EvSleep 60;
           ApiClient.EvRequest req; ApiClient.EvSleep 120;
           ApiClient.EvRequest req; ApiClient.EvSleep 240;
           ApiClient.EvRequest req])%list)) /\
  (forall s, s = 401 \/ s = 328 \/ s = 2554 ->
   ApiClient.envelope_status_is (server (ApiClient.requests_made w) req) s ->
   exists message,
     ApiClient._make_request empty_body server access_token method endpoint
       params data 0 w =
     (Raise (WithingsAuthError s message), (w ++ [ApiClient.EvRequest req])%list)) /\
  (forall fuel attempt w0,
     ApiClient.envelope_status_is (server (ApiClient.requests_made w0) req) 601 ->
     attempt < 3 ->
     ApiClient.make_request_fuel empty_body (S fuel) server access_token method
       endpoint params data attempt w0 =
     ApiClient.make_request_fuel empty_body fuel server access_token method
       endpoint params data (attempt + 1)
       (w0 ++ [ApiClient.EvRequest req;
               ApiClient.EvSleep (Z.min (60 * 2 ^ attempt) 300)])%list).
Proof.
  intros Hb. split; [|split].
  - intros H601. unfold ApiClient._make_request.
    change (S (Z.to_nat (3 - 0))) with 4%nat.
    rewrite (make_request_fuel_601 empty_body server access_token method
               endpoint params data 3 0 w req Hb (H601 _ _)).
    change (0 <? 3) with true. cbv iota.
    rewrite (make_request_fuel_601 empty_body server access_token method
               endpoint params data 2 (0 + 1) _ req Hb (H601 _ _)).
    change (0 + 1 <? 3) with true. cbv iota.
    rewrite (make_request_fuel_601 empty_body server access_token method
               endpoint params data 1 (0 + 1 + 1) _ req Hb (H601 _ _)).
    change (0 + 1 + 1 <? 3) with true. cbv iota.
    rewrite (make_request_fuel_601 empty_body server access_token method
               endpoint params data 0 (0 + 1 + 1 + 1) _ req Hb (H601 _ _)).
    change (0 + 1 + 1 + 1 <? 3) with false. cbv iota.
    unfold ApiClient.emit, ApiClient.rate_limit_error.
    rewrite <- !app_assoc. reflexivity.
  - intros s Hs He. eexists. unfold ApiClient._make_request.
    change (S (Z.to_nat (3 - 0))) with 4%nat.
    rewrite (make_request_fuel_auth empty_body server access_token method
               endpoint params data 3 0 w req s Hb Hs He).
    reflexivity.
  - intros fuel attempt w0 He Hlt.
    rewrite (make_request_fuel_601 empty_body server access_token method
               endpoint params data fuel attempt w0 req Hb He).
    destruct (Z.ltb_spec attempt 3) as [_|Hge]; [|lia].
    unfold ApiClient.emit. rewrite <- app_assoc. reflexivity.
Qed.

(** The scenario of the repository's tests: [get_measurements] against a
    vendor that always answers 601, and one that always answers 401. *)
Lemma C1_rate_limit_retries_and_auth_errors_witness :
  ApiClient._make_request tt (Scenarios.server_status 601) "access" "GET"
    "/measure" (Some Scenarios.getmeas_params) None 0 []
  = (Raise (WithingsRateLimitError 60),
     [ApiClient.EvRequest Scenarios.getmeas_request; ApiClient.EvSleep 60;
      ApiClient.EvRequest Scenarios.getmeas_request; ApiClient.EvSleep 120;
      ApiClient.EvRequest Scenarios.getmeas_request; ApiClient.EvSleep 240;
      ApiClient.EvRequest Scenarios.getmeas_request]) /\
  exists message,
    ApiClient._make_request tt (Scenarios.server_status 401) "access" "GET"
      "/measure" (Some Scenarios.getmeas_params) None 0 []
    = (Raise (WithingsAuthError 401 message),
       [ApiClient.EvRequest Scenarios.getmeas_request]).
Proof.
  split.
  - apply (proj1 (C1_rate_limit_retries_and_auth_errors tt
                    (Scenarios.server_status 601) "access" "GET" "/measure"
                    (Some Scenarios.getmeas_params) None
                    Scenarios.getmeas_request [] eq_refl)).
    intros n r. eexists. eexists. repeat split.
  - apply (proj1 (proj2 (C1_rate_limit_retries_and_auth_errors tt
                    (Scenarios.server_status 401) "access" "GET" "/measure"
                    (Some Scenarios.getmeas_params) None
                    Scenarios.getmeas_request [] eq_refl)) 401).
    + left. reflexivity.
    + eexists. eexists. repeat split.
Defined.

(* ===================================================================== *)
(** * fetcher.py: traces, fuel, and the isolation of the data types      *)
(* ===================================================================== *)

Section FetcherBasics.

Lemma api_calls_app (t1 t2 : list Event) :
  api_calls (t1 ++ t2) = (api_calls t1 ++ api_calls t2)%list.
Proof.
  induction t1 as [|ev t1 IH]; [reflexivity|].
  destruct ev; simpl; rewrite IH; reflexivity.
Qed.


Lemma new_events_app (w w' : World) (l : list Event) :
  trace w' = (trace w ++ l)%list -> new_events w w' = l.
Proof. intros H. unfold new_events. rewrite H. apply drop_app_length. Qed.




End FetcherBasics.

Section FetchIsolation.

Variable env : Env.






Lemma cursor_after_update (data_type : string) (ts : option datetime)
    (status : string) (w : World) :
  exists w',
    storage_update_sync_state env data_type ts status w = (Ret tt, w') /\
    get_sync_state data_type (db w') =
      Some (mkSyncRow (now env) ts status (now env)).
Proof.
  eexists. split; [reflexivity|].
  unfold get_sync_state, update_sync_state. simpl. apply lookup_insert_eq.
Qed.

Lemma on_fetch_error_cursor (data_type : string) (e : Exn) (w : World) :
  exists w',
    on_fetch_error env data_type e w = (Ret tt, w') /\
    get_sync_state data_type (db w') =
      Some (mkSyncRow (now env) None "error" (now env)).
Proof.
  unfold on_fetch_error, bind, log.
  apply cursor_after_update.
Qed.

Lemma persist_measurements_persists :
  persists env Staged "measurements" (persist_measurements env).
Proof.
  intros st w. unfold persist_measurements.
  destruct (staged_measurements st) as [|m ms].
  - exists None. apply cursor_after_update.
  - exists (last_timestamp st). unfold bind, storage_store_measurements.
    destruct (staged_heart_rates st); apply cursor_after_update.
Qed.



(** The shape shared by the three fetches: a [try] block made of a
    collecting part and a storing part, and the handler that marks the
    cursor. *)
Lemma guarded_fetch {A : Type} (collect : M A) (persist : A -> M unit)
    (data_type : string) (w : World) :
  persists env A data_type persist ->
  let run := try_except (bind collect persist) (on_fetch_error env data_type) w in
  (forall e, fst run <> Raise e) /\
  (forall e w', bind collect persist w = (Raise e, w') ->
     exists w'', run = (Ret tt, w'') /\
       get_sync_state data_type (db w'') =
         Some (mkSyncRow (now env) None "error" (now env))) /\
  (forall w'', run = (Ret tt, w'') ->
     exists ts st, (st = "success" \/ st = "error") /\
       get_sync_state data_type (db w'') =
         Some (mkSyncRow (now env) ts st (now env))) /\
  (fst (collect w) <> Diverge -> fst run = Ret tt).
Proof.
  intros Hp run. subst run. unfold try_except, bind.
  destruct (collect w) as [[x|e|] w1] eqn:Hc.
  - destruct (Hp x w1) as (ts & w2 & Hrun & Hcur). rewrite Hrun.
    repeat split; try discriminate.
    + intros w'' [= <-]. exists ts, "success". auto.
  - destruct (on_fetch_error_cursor data_type e w1) as (w2 & Hrun & Hcur).
    rewrite Hrun. repeat split; try discriminate.
    + intros e' w' [= <- <-]. eauto.
    + intros w'' [= <-]. exists None, "error". auto.
  - repeat split; try discriminate. intros H. contradiction.
Qed.








End FetchIsolation.




(* ===================================================================== *)
(** * fetcher.py: what a fetch does to the database                      *)
(* ===================================================================== *)

Section FetcherFrame.

Variable env : Env.

Lemma paginate_db (store_heart_rate : bool) (startdate_ts enddate_ts : option Z)
    (fuel : nat) :
  forall (offset : option Z) (seen : gset Z) (staged : Staged) (w : World),
    db (snd (paginate fuel env store_heart_rate startdate_ts enddate_ts
               offset seen staged w)) = db w.
Proof.
  induction fuel as [|fuel IH]; intros offset seen staged w; [reflexivity|].
  cbn [paginate]. unfold bind at 1. unfold call_get_measurements.
  destruct (get_measurements _ _ _ _ _ _) as [e|result]; [reflexivity|].
  unfold bind at 1.
  destruct (for_each _ staged (measuregrps result)) as [e|staged']; [reflexivity|].
  cbn [lift ret]. destruct (negb (more result)); [reflexivity|].
  destruct (Fetcher.offset result) as [o|]; [|reflexivity].
  destruct (decide (o ∈ seen)); [reflexivity|].
  rewrite IH. reflexivity.
Qed.

Lemma collect_measurements_db (fuel : nat) (start_date end_date : option datetime)
    (store_heart_rate : bool) (w : World) :
  db (snd (collect_measurements fuel env start_date end_date store_heart_rate w))
  = db w.
Proof.
  unfold collect_measurements, bind, storage_get_sync_state. apply paginate_db.
Qed.

Lemma chunk_loop_db {R : Type}
    (chunk : list R -> string -> string -> M (list R)) :
  (forall all s e w, db (snd (chunk all s e w)) = db w) ->
  forall (fuel : nat) (current_date end_date : datetime) (all : list R) (w : World),
    db (snd (chunk_loop fuel chunk current_date end_date all w)) = db w.
Proof.
  intros Hchunk. induction fuel as [|fuel IH]; intros cur stop all w; [reflexivity|].
  cbn [chunk_loop]. destruct (cur <? stop); [|reflexivity].
  unfold bind at 1. unfold log at 1. unfold bind at 1. unfold try_except at 1.
  match goal with
  | |- context [chunk ?a ?s ?e ?w0] =>
      pose proof (Hchunk a s e w0) as Hc; destruct (chunk a s e w0) as [[x|ex|] w1]
  end; simpl in Hc.
  - rewrite IH. exact Hc.
  - destruct (is_WithingsAPIError ex).
    + unfold bind, log, ret. cbn [fst snd]. rewrite IH. exact Hc.
    + exact Hc.
  - exact Hc.
Qed.

Lemma activity_chunk_db (all : list ActivityDay) (s e : string) (w : World) :
  db (snd (activity_chunk env all s e w)) = db w.
Proof.
  unfold activity_chunk, bind, call_get_activity.
  destruct (get_activity _ _ _ _); [reflexivity|].
  destruct (parse_all _ _ _); reflexivity.
Qed.

Lemma sleep_chunk_db (all : list SleepSession) (s e : string) (w : World) :
  db (snd (sleep_chunk env all s e w)) = db w.
Proof.
  unfold sleep_chunk, bind, call_get_sleep_summary.
  destruct (get_sleep_summary _ _ _ _ _); [reflexivity|].
  destruct (parse_all _ _ _); reflexivity.
Qed.

Lemma collect_activity_db (start_date end_date : option datetime) (w : World) :
  db (snd (collect_activity env start_date end_date w)) = db w.
Proof.
  unfold collect_activity, bind, storage_get_sync_state.
  destruct (chunk_range _ _ _ _) as [s e].
  apply (chunk_loop_db (activity_chunk env) activity_chunk_db).
Qed.

Lemma collect_sleep_db (start_date end_date : option datetime) (w : World) :
  db (snd (collect_sleep env start_date end_date w)) = db w.
Proof.
  unfold collect_sleep, bind, storage_get_sync_state.
  destruct (chunk_range _ _ _ _) as [s e].
  apply (chunk_loop_db (sleep_chunk env) sleep_chunk_db).
Qed.

Lemma cursor_of_update (data_type : string) (ts : option datetime)
    (status : string) (d : DB) :
  get_sync_state data_type (update_sync_state (now env) data_type ts status d)
  = Some (mkSyncRow (now env) ts status (now env)).
Proof. unfold get_sync_state, update_sync_state. simpl. apply lookup_insert_eq. Qed.

End FetcherFrame.

(** C5 (as amended). When a fetch of measurements, activity or sleep
    collects no record, it returns normally and the only change to the
    database is the cursor row of its data type, which is replaced by a row
    with status [success] and [last_data_timestamp = NULL], whatever the
    row held before. *)
Theorem C5_empty_fetch_marks_success_and_clears_cursor (fuel : nat) (env : Env)
    (start_date end_date : option datetime) (store_heart_rate : bool) (w : World) :
  (forall staged w1,
     collect_measurements fuel env start_date end_date store_heart_rate w
       = (Ret staged, w1) ->
     staged_measurements staged = [] ->
     exists w2,
       fetch_measurements fuel env start_date end_date store_heart_rate w
         = (Ret tt, w2) /\
       db w2 = update_sync_state (now env) "measurements" None "success" (db w) /\
       get_sync_state "measurements" (db w2)
         = Some (mkSyncRow (now env) None "success" (now env))) /\
  (forall w1,
     collect_activity env start_date end_date w = (Ret [], w1) ->
     exists w2,
       fetch_activity env start_date end_date w = (Ret tt, w2) /\
       db w2 = update_sync_state (now env) "activity" None "success" (db w) /\
       get_sync_state "activity" (db w2)
         = Some (mkSyncRow (now env) None "success" (now env))) /\
  (forall w1,
     collect_sleep env start_date end_date w = (Ret [], w1) ->
     exists w2,
       fetch_sleep env start_date end_date w = (Ret tt, w2) /\
       db w2 = update_sync_state (now env) "sleep" None "success" (db w) /\
       get_sync_state "sleep" (db w2)
         = Some (mkSyncRow (now env) None "success" (now env))).
Proof.
  split; [|split].
  - intros staged w1 Hc Hempty.
    pose proof (collect_measurements_db env fuel start_date end_date
                  store_heart_rate w) as Hdb.
    rewrite Hc in Hdb. simpl in Hdb.
    unfold fetch_measurements, try_except, fetch_measurements_body, bind.
    rewrite Hc. unfold persist_measurements. rewrite Hempty.
    eexists. split; [reflexivity|]. simpl. rewrite Hdb.
    split; [reflexivity|]. apply cursor_of_update.
  - intros w1 Hc.
    pose proof (collect_activity_db env start_date end_date w) as Hdb.
    rewrite Hc in Hdb. simpl in Hdb.
    unfold fetch_activity, try_except, fetch_activity_body, bind.
    rewrite Hc. eexists. split; [reflexivity|]. simpl. rewrite Hdb.
    split; [reflexivity|]. apply cursor_of_update.
  - intros w1 Hc.
    pose proof (collect_sleep_db env start_date end_date w) as Hdb.
    rewrite Hc in Hdb. simpl in Hdb.
    unfold fetch_sleep, try_except, fetch_sleep_body, bind.
    rewrite Hc. eexists. split; [reflexivity|]. simpl. rewrite Hdb.
    split; [reflexivity|]. apply cursor_of_update.
Qed.

Lemma C5_empty_fetch_marks_success_and_clears_cursor_witness :
  exists w2,
    fetch_measurements 5 Scenarios.env_quiet None (Some Scenarios.some_now) true
      Scenarios.world_synced = (Ret tt, w2) /\
    db w2 = update_sync_state Scenarios.some_now "measurements" None "success"
              (db Scenarios.world_synced) /\
    get_sync_state "measurements" (db w2)
      = Some (mkSyncRow Scenarios.some_now None "success" Scenarios.some_now).
Proof.
  apply (proj1 (C5_empty_fetch_marks_success_and_clears_cursor 5
                  Scenarios.env_quiet None (Some Scenarios.some_now) true
                  Scenarios.world_synced)
           nothing_staged
           (mkWorld (db Scenarios.world_synced)
              [EvApi (GetMeasurements (Some 1767225600) (Some 1767400000) 1 None)])).
  - vm_compute. reflexivity.
  - reflexivity.
Defined.

(** C5 (counterexample to the claim as stated). The cursor of the
    measurements stands at 2026-01-01; an incremental fetch finds nothing
    new; afterwards the cursor has status [success] but its
    [last_data_timestamp] is NULL, not 2026-01-01. The same happens to the
    cursors of activity and sleep. *)
Lemma C5_empty_fetch_loses_last_data_timestamp :
  last_data_timestamp <$> get_sync_state "measurements" (db Scenarios.world_synced)
    = Some (Some Scenarios.new_year) /\
  fst (collect_measurements 5 Scenarios.env_quiet None (Some Scenarios.some_now)
         true Scenarios.world_synced) = Ret nothing_staged /\
  last_data_timestamp <$>
    get_sync_state "measurements"
      (db (snd (fetch_measurements 5 Scenarios.env_quiet None
                  (Some Scenarios.some_now) true Scenarios.world_synced)))
    = Some None /\
  last_data_timestamp <$>
    get_sync_state "activity"
      (db (snd (fetch_activity Scenarios.env_quiet None
                  (Some Scenarios.some_now) Scenarios.world_synced)))
    = Some None /\
  last_data_timestamp <$>
    get_sync_state "sleep"
      (db (snd (fetch_sleep Scenarios.env_quiet None
                  (Some Scenarios.some_now) Scenarios.world_synced)))
    = Some None.
Proof. repeat split; vm_compute; reflexivity. Qed.

(* ===================================================================== *)
(** * fetcher.py: the pagination of the measurements                     *)
(* ===================================================================== *)

Section Pagination.

Variable env : Env.
Variable store_heart_rate : bool.
Variables startdate_ts enddate_ts : option Z.

(** A page that asks for more without a usable offset ends the loop with a
    warning. *)
Lemma paginate_guard (fuel : nat) (offset : option Z) (seen : gset Z)
    (staged staged' : Staged) (w : World) (result : MeasResult) :
  get_measurements (api env) (length (api_calls (trace w)))
    startdate_ts enddate_ts 1 offset = inr result ->
  for_each (stage_group env store_heart_rate) staged (measuregrps result)
    = inr staged' ->
  more result = true ->
  (Fetcher.offset result = None \/
   exists o, Fetcher.offset result = Some o /\ o ∈ seen) ->
  paginate (S fuel) env store_heart_rate startdate_ts enddate_ts offset seen
    staged w =
  (Ret staged',
   mkWorld (db w)
     (trace w ++ [EvApi (GetMeasurements startdate_ts enddate_ts 1 offset);
                  EvWarning pagination_warning])%list).
Proof.
  intros Hget Hstage Hmore Hoff.
  cbn [paginate]. unfold bind at 1. unfold call_get_measurements. rewrite Hget.
  unfold bind at 1. rewrite Hstage. cbn [lift ret]. rewrite Hmore. cbn [negb].
  destruct Hoff as [Hnone|(o & Hsome & Hin)].
  - rewrite Hnone. unfold bind, log, ret. cbn [db trace].
    rewrite <- app_assoc. reflexivity.
  - rewrite Hsome. destruct (decide (o ∈ seen)); [|contradiction].
    unfold bind, log, ret. cbn [db trace].
    rewrite <- app_assoc. reflexivity.
Qed.

(** The offsets the vendor returns on pages that ask for more all lie in
    [offsets]. *)
Variable offsets : gset Z.
Hypothesis offsets_known :
  forall n a b c o result x,
    get_measurements (api env) n a b c o = inr result ->
    more result = true -> Fetcher.offset result = Some x -> x ∈ offsets.

Lemma paginate_bound (fuel : nat) :
  forall (offset : option Z) (seen : gset Z) (staged : Staged) (w : World)
         (out : Outcome Staged) (w' : World),
    seen ⊆ offsets ->
    (size offsets - size seen < fuel)%nat ->
    paginate fuel env store_heart_rate startdate_ts enddate_ts
      offset seen staged w = (out, w') ->
    exists new,
      trace w' = (trace w ++ new)%list /\
      out <> Diverge /\
      (length (api_calls new) <= 1 + (size offsets - size seen))%nat.
Proof.
  induction fuel as [|fuel IH]; intros offset seen staged w out w' Hsub Hfuel Hrun;
    [lia|].
  cbn [paginate] in Hrun. unfold bind at 1 in Hrun.
  unfold call_get_measurements in Hrun.
  destruct (get_measurements _ _ _ _ _ _) as [e|result] eqn:Hget.
  { injection Hrun as <- <-. eexists [_]. simpl.
    split; [reflexivity|]. split; [discriminate|simpl; lia]. }
  unfold bind at 1 in Hrun.
  destruct (for_each _ staged (measuregrps result)) as [e|staged'];
    cbn [lift raise ret] in Hrun.
  { injection Hrun as <- <-. eexists [_]. simpl.
    split; [reflexivity|]. split; [discriminate|simpl; lia]. }
  destruct (negb (more result)) eqn:Hmore.
  { injection Hrun as <- <-. eexists [_]. simpl.
    split; [reflexivity|]. split; [discriminate|simpl; lia]. }
  destruct (Fetcher.offset result) as [o|] eqn:Hoff.
  2:{ unfold bind, log, ret in Hrun. injection Hrun as <- <-. eexists [_; _].
      simpl. rewrite <- app_assoc.
      split; [reflexivity|]. split; [discriminate|simpl; lia]. }
  destruct (decide (o ∈ seen)) as [Hin|Hnotin].
  { unfold bind, log, ret in Hrun. injection Hrun as <- <-. eexists [_; _].
    simpl. rewrite <- app_assoc.
    split; [reflexivity|]. split; [discriminate|simpl; lia]. }
  assert (Ho : o ∈ offsets).
  { apply (offsets_known _ _ _ _ _ _ _ Hget); [|exact Hoff].
    destruct (more result); [reflexivity|discriminate]. }
  assert (Hsub' : {[o]} ∪ seen ⊆ offsets).
  { apply union_subseteq. split; [apply singleton_subseteq_l; exact Ho|exact Hsub]. }
  assert (Hsize : size ({[o]} ∪ seen) = S (size seen)).
  { rewrite size_union by set_solver. rewrite size_singleton. reflexivity. }
  pose proof (subseteq_size _ _ Hsub') as Hle. rewrite Hsize in Hle.
  destruct (IH _ _ _ _ _ _ Hsub' ltac:(lia) Hrun) as (new & Htrace & Hnd & Hcalls).
  exists (EvApi (GetMeasurements startdate_ts enddate_ts 1 offset) :: new).
  split; [|split].
  - rewrite Htrace. cbn [trace]. rewrite <- app_assoc. reflexivity.
  - exact Hnd.
  - simpl. lia.
Qed.

End Pagination.

Lemma persist_measurements_trace (env : Env) (staged : Staged) (w : World) :
  exists new,
    trace (snd (persist_measurements env staged w)) = (trace w ++ new)%list /\
    api_calls new = [].
Proof.
  unfold persist_measurements. destruct (staged_measurements staged) as [|m ms].
  - eexists [_]. split; reflexivity.
  - unfold bind, storage_store_measurements.
    destruct (staged_heart_rates staged).
    + eexists [_; _]. simpl. rewrite <- app_assoc. split; reflexivity.
    + eexists [_; _; _]. simpl. rewrite <- !app_assoc. split; reflexivity.
Qed.

Lemma on_fetch_error_trace (env : Env) (data_type : string) (e : Exn) (w : World) :
  exists new,
    trace (snd (on_fetch_error env data_type e w)) = (trace w ++ new)%list /\
    api_calls new = [].
Proof.
  eexists [_; _]. unfold on_fetch_error, bind, log. simpl.
  rewrite <- app_assoc. split; reflexivity.
Qed.

(** C4 (as amended). A page that declares [more] but carries no offset, or
    an offset already returned in this pagination, ends the loop with a
    warning and without a further request. Consequently, when the offsets the
    vendor returns on such pages all belong to a finite set [offsets], the
    fetch of the measurements terminates (it returns once the fuel exceeds
    [size offsets]) after at most [1 + size offsets] requests. *)
Theorem C4_pagination_is_bounded_by_distinct_offsets (env : Env)
    (store_heart_rate : bool) (start_date end_date : option datetime)
    (offsets : gset Z) (fuel : nat) (w : World) :
  (forall n a b c o result x,
     get_measurements (api env) n a b c o = inr result ->
     more result = true -> Fetcher.offset result = Some x -> x ∈ offsets) ->
  (size offsets < fuel)%nat ->
  fst (fetch_measurements fuel env start_date end_date store_heart_rate w) = Ret tt /\
  (length (api_calls
             (new_events w
                (snd (fetch_measurements fuel env start_date end_date
                        store_heart_rate w))))
   <= 1 + size offsets)%nat /\
  (forall fuel' startdate_ts enddate_ts offset seen staged staged' w0 result,
     get_measurements (api env) (length (api_calls (trace w0)))
       startdate_ts enddate_ts 1 offset = inr result ->
     for_each (stage_group env store_heart_rate) staged (measuregrps result)
       = inr staged' ->
     more result = true ->
     (Fetcher.offset result = None \/
      exists o, Fetcher.offset result = Some o /\ o ∈ seen) ->
     paginate (S fuel') env store_heart_rate startdate_ts enddate_ts offset seen
       staged w0 =
     (Ret staged',
      mkWorld (db w0)
        (trace w0 ++ [EvApi (GetMeasurements startdate_ts enddate_ts 1 offset);
                      EvWarning pagination_warning])%list)).
Proof.
  intros Hoff Hfuel.
  assert (Hcollect : exists new,
    trace (snd (collect_measurements fuel env start_date end_date
                  store_heart_rate w)) = (trace w ++ new)%list /\
    fst (collect_measurements fuel env start_date end_date store_heart_rate w)
      <> Diverge /\
    (length (api_calls new) <= 1 + size offsets)%nat).
  { unfold collect_measurements, bind, storage_get_sync_state.
    match goal with
    | |- context [paginate ?f ?e ?h ?a ?b ?o ?s ?st ?w0] =>
        destruct (paginate f e h a b o s st w0) as [out w1] eqn:Hrun;
        destruct (paginate_bound e h a b offsets Hoff f o s st w0 out w1)
          as (new & Ht & Hnd & Hc)
    end.
    - set_solver.
    - rewrite size_empty. lia.
    - exact Hrun.
    - exists new. rewrite size_empty in Hc. simpl.
      repeat split; [exact Ht|exact Hnd|lia]. }
  destruct Hcollect as (new & Ht & Hnd & Hc).
  split; [|split].
  - apply (guarded_fetch env
             (collect_measurements fuel env start_date end_date store_heart_rate)
             (persist_measurements env) "measurements" w
             (persist_measurements_persists env)).
    exact Hnd.
  - unfold fetch_measurements, try_except, fetch_measurements_body, bind.
    destruct (collect_measurements fuel env start_date end_date store_heart_rate w)
      as [[staged|e|] w1]; simpl in Ht, Hnd.
    + destruct (persist_measurements_trace env staged w1) as (new' & Ht' & Hc').
      destruct (persist_measurements_persists env staged w1) as (ts & w2 & Hp & _).
      rewrite Hp in Ht' |- *. cbn [fst snd] in Ht' |- *.
      rewrite (new_events_app w _ (new ++ new')%list).
      * rewrite api_calls_app, Hc', app_nil_r. exact Hc.
      * rewrite Ht', Ht, <- app_assoc. reflexivity.
    + destruct (on_fetch_error_trace env "measurements" e w1) as (new' & Ht' & Hc').
      cbv beta iota.
      rewrite (new_events_app w _ (new ++ new')%list).
      * rewrite api_calls_app, Hc', app_nil_r. exact Hc.
      * rewrite Ht', Ht, <- app_assoc. reflexivity.
    + contradiction.
  - intros fuel' sts ets offset seen staged staged' w0 result Hget Hstage Hmore Hoffset.
    exact (paginate_guard env store_heart_rate sts ets fuel' offset seen staged
             staged' w0 result Hget Hstage Hmore Hoffset).
Qed.

(** A vendor that repeats offset 123: two requests, then the guard. *)
Lemma C4_pagination_is_bounded_by_distinct_offsets_witness :
  fst (fetch_measurements 2 Scenarios.env_stuck_offset None None true
         Scenarios.fresh_world) = Ret tt /\
  (length (api_calls
             (new_events Scenarios.fresh_world
                (snd (fetch_measurements 2 Scenarios.env_stuck_offset None None
                        true Scenarios.fresh_world))))
   <= 1 + size Scenarios.offsets_123)%nat.
Proof.
  assert (Hoffsets : forall (n : nat) (a b : option Z) (c : Z) (o : option Z)
                            (result : MeasResult) (x : Z),
            get_measurements (api Scenarios.env_stuck_offset) n a b c o = inr result ->
            more result = true -> Fetcher.offset result = Some x ->
            x ∈ Scenarios.offsets_123).
  { intros n a b c o result x Hget _ Hoff. simpl in Hget.
    injection Hget as <-. simpl in Hoff. injection Hoff as <-.
    apply elem_of_singleton. reflexivity. }
  assert (Hfuel : (size Scenarios.offsets_123 < 2)%nat).
  { unfold Scenarios.offsets_123. rewrite size_singleton. lia. }
  destruct (C4_pagination_is_bounded_by_distinct_offsets
              Scenarios.env_stuck_offset true None None Scenarios.offsets_123 2
              Scenarios.fresh_world Hoffsets Hfuel) as (Hret & Hcalls & _).
  split; [exact Hret|exact Hcalls].
Defined.

(** Against a vendor whose pages always announce a fresh offset, the loop is
    still running after any number of iterations. *)
Lemma paginate_fresh_offsets_diverges (store_heart_rate : bool)
    (startdate_ts enddate_ts : option Z) (fuel : nat) :
  forall (offset : option Z) (seen : gset Z) (staged : Staged) (w : World),
    (forall o, o ∈ seen -> o < Z.of_nat (length (api_calls (trace w)))) ->
    fst (paginate fuel Scenarios.env_fresh_offsets store_heart_rate
           startdate_ts enddate_ts offset seen staged w) = Diverge.
Proof.
  induction fuel as [|fuel IH]; intros offset seen staged w Hseen; [reflexivity|].
  cbn [paginate]. unfold bind at 1. unfold call_get_measurements.
  cbn [Scenarios.env_fresh_offsets api Scenarios.api_fresh_offsets get_measurements].
  unfold bind at 1.
  cbn [measuregrps more Fetcher.offset for_each lift ret negb].
  destruct (decide (Z.of_nat (length (api_calls (trace w))) ∈ seen)) as [Hin|Hnotin].
  - apply Hseen in Hin. lia.
  - apply IH. intros o Ho. cbn [trace].
    rewrite api_calls_app, length_app. simpl.
    apply elem_of_union in Ho as [Ho|Ho].
    + apply elem_of_singleton in Ho. lia.
    + apply Hseen in Ho. lia.
Qed.

(** C4 (counterexample to the claim as stated). The vendor answers the
    [n]-th request with an empty page, [more = true] and [offset = n]: no
    offset is missing or repeated, and no amount of fuel lets the fetch of
    the measurements finish. *)
Lemma C4_fresh_offsets_never_terminate :
  ~ exists fuel,
      fst (fetch_measurements fuel Scenarios.env_fresh_offsets None None true
             Scenarios.fresh_world) <> Diverge.
Proof.
  intros [fuel Hnd]. apply Hnd.
  unfold fetch_measurements, try_except, fetch_measurements_body.
  unfold bind at 1. unfold collect_measurements. unfold bind at 1.
  unfold storage_get_sync_state.
  pose proof (paginate_fresh_offsets_diverges true
                (option_map (timestamp_int (utc_offset Scenarios.env_fresh_offsets))
                   (resume_from None
                      (get_sync_state "measurements" (db Scenarios.fresh_world))))
                (option_map (timestamp_int (utc_offset Scenarios.env_fresh_offsets)) None)
                fuel None ∅ nothing_staged Scenarios.fresh_world) as Hd.
  destruct (paginate _ _ _ _ _ _ _ _ _) as [out w1].
  simpl in Hd. rewrite Hd; [reflexivity|].
  intros o Ho. apply not_elem_of_empty in Ho. contradiction.
Qed.

(* ===================================================================== *)
(** * fetcher.py: the chunk loop of activity and sleep                   *)
(* ===================================================================== *)

Section ChunkArithmetic.







End ChunkArithmetic.

Section ChunkLoop.

Context {R : Type} (chunk : list R -> string -> string -> M (list R)).
Variable call : datetime * datetime -> ApiCall.

(** The [try] block of a chunk makes exactly one API call and either
    returns or raises an API error. *)
Hypothesis chunk_calls_once :
  forall all s e w (c : datetime) (ce : datetime),
    s = strftime_ymd c -> e = strftime_ymd ce ->
    exists out,
      chunk all s e w = (out, mkWorld (db w) (trace w ++ [EvApi (call (c, ce))])%list) /\
      out <> Diverge /\
      (forall ex, out = Raise ex -> is_WithingsAPIError ex = true).


End ChunkLoop.

Section ChunkedFetches.

Variable env : Env.







Lemma persist_activity_trace (l : list ActivityDay) (w : World) :
  exists new,
    trace (snd (persist_activity env l w)) = (trace w ++ new)%list /\
    api_calls new = [] /\ chunks new = [].
Proof.
  unfold persist_activity. destruct l as [|a rest].
  - eexists [_]. repeat split; reflexivity.
  - eexists [_; _]. unfold bind, storage_store_activity_summary. simpl.
    rewrite <- app_assoc. repeat split; reflexivity.
Qed.

Lemma persist_sleep_trace (l : list SleepSession) (w : World) :
  exists new,
    trace (snd (persist_sleep env l w)) = (trace w ++ new)%list /\
    api_calls new = [] /\ chunks new = [].
Proof.
  unfold persist_sleep. destruct l as [|a rest].
  - eexists [_]. repeat split; reflexivity.
  - eexists [_; _]. unfold bind, storage_store_sleep_summary. simpl.
    rewrite <- app_assoc. repeat split; reflexivity.
Qed.


End ChunkedFetches.

(* ===================================================================== *)
(** * storage.py: INSERT OR REPLACE is idempotent                        *)
(* ===================================================================== *)

Section Upsert.

Context {K V : Type} `{Countable K} (key : V -> K).




End Upsert.









(** In that run the entry of 2026-07-20 is returned by all three calls: the
    batch handed to the storage holds it three times, the table once. *)
Example boundary_day_is_stored_once :
  (exists batch,
     In (EvStoreActivity batch)
       (trace (snd (fetch_activity Scenarios.env_boundary_day
                      (Some Scenarios.new_year)
                      (Some (Scenarios.new_year + timedelta_days 450))
                      Scenarios.fresh_world))) /\
     map act_date batch = [20654; 20654; 20654]) /\
  size (activity_summary
          (db (snd (fetch_activity Scenarios.env_boundary_day
                      (Some Scenarios.new_year)
                      (Some (Scenarios.new_year + timedelta_days 450))
                      Scenarios.fresh_world)))) = 1%nat.
Proof.
  split.
  - eexists. split.
    + vm_compute. do 6 right. left. reflexivity.
    + reflexivity.
  - vm_compute. reflexivity.
Qed.

(* ===================================================================== *)
(** * fetcher.py: staging measurements and heart-rate samples            *)
(* ===================================================================== *)

Section Staging.

Variable env : Env.
Variable store_heart_rate : bool.

Lemma staged_grows_refl (st : Staged) : staged_grows store_heart_rate st st.
Proof.
  split; exists []; rewrite app_nil_r; auto.
Qed.

Lemma staged_grows_trans (st1 st2 st3 : Staged) :
  staged_grows store_heart_rate st1 st2 ->
  staged_grows store_heart_rate st2 st3 ->
  staged_grows store_heart_rate st1 st3.
Proof.
  intros [[l1 H1] (h1 & G1 & N1)] [[l2 H2] (h2 & G2 & N2)]. split.
  - exists (l1 ++ l2)%list. rewrite H2, H1, app_assoc. reflexivity.
  - exists (h1 ++ h2)%list. split.
    + rewrite G2, G1, app_assoc. reflexivity.
    + intros Hoff. rewrite (N1 Hoff), (N2 Hoff). reflexivity.
Qed.

Lemma staged_in_grows (g : MeasureGroup) (m : Measure) (st st' : Staged) :
  staged_in store_heart_rate env g m st ->
  staged_grows store_heart_rate st st' ->
  staged_in store_heart_rate env g m st'.
Proof.
  intros (d & ty & v & u & Hd & Hty & Hv & Hu & Hm & Hh) [[l Hl] (h & Hg & _)].
  exists d, ty, v, u. repeat split; try assumption.
  - rewrite Hl. apply in_or_app. left. exact Hm.
  - intros Hon H11. rewrite Hg. apply in_or_app. left. exact (Hh Hon H11).
Qed.

(** One measure: it is staged, and the accumulators grow. *)
Lemma stage_measure_staged (g : MeasureGroup) (d : Z) (st st' : Staged)
    (m : Measure) :
  g_date g = Some d ->
  stage_measure store_heart_rate (fromtimestamp (utc_offset env) d)
    (g_deviceid g) (g_grpid g) st m = inr st' ->
  staged_grows store_heart_rate st st' /\
  staged_in store_heart_rate env g m st'.
Proof.
  intros Hd. unfold stage_measure.
  destruct (m_type m) as [ty|] eqn:Hty; [|discriminate].
  destruct (m_value m) as [v|] eqn:Hv; [|discriminate].
  destruct (m_unit m) as [u|] eqn:Hu; [|discriminate].
  cbn [subscript bindR]. intros [= <-]. cbn [ms_raw_data]. split.
  - split; cbn [staged_measurements staged_heart_rates].
    + eexists. reflexivity.
    + destruct store_heart_rate; cbn [andb].
      * destruct (ty =? 11); eexists; split;
          [reflexivity|discriminate|symmetry; apply app_nil_r|discriminate].
      * exists []. split; [symmetry; apply app_nil_r|reflexivity].
  - exists d, ty, v, u. repeat split; try assumption;
      cbn [staged_measurements staged_heart_rates].
    + apply in_or_app. right. left. reflexivity.
    + intros -> ->. cbn [andb Z.eqb Pos.eqb]. apply in_or_app. right. left.
      reflexivity.
Qed.

Lemma stage_measures_staged (g : MeasureGroup) (d : Z) (l : list Measure) :
  g_date g = Some d ->
  forall st st',
    for_each (stage_measure store_heart_rate (fromtimestamp (utc_offset env) d)
                (g_deviceid g) (g_grpid g)) st l = inr st' ->
    staged_grows store_heart_rate st st' /\
    forall m, In m l -> staged_in store_heart_rate env g m st'.
Proof.
  intros Hd. induction l as [|m0 l IH]; intros st st' Hrun.
  - injection Hrun as <-. split; [apply staged_grows_refl|]. intros m [].
  - cbn [for_each] in Hrun.
    destruct (stage_measure _ _ _ _ st m0) as [ex|st1] eqn:H1; [discriminate|].
    cbn [bindR] in Hrun.
    destruct (stage_measure_staged g d st st1 m0 Hd H1) as [Hg1 Hin1].
    destruct (IH st1 st' Hrun) as [Hg2 Hin2].
    split; [exact (staged_grows_trans _ _ _ Hg1 Hg2)|].
    intros m [<-|Hm]; [exact (staged_in_grows _ _ _ _ Hin1 Hg2)|exact (Hin2 m Hm)].
Qed.

Lemma stage_group_staged (g : MeasureGroup) (st st' : Staged) :
  stage_group env store_heart_rate st g = inr st' ->
  staged_grows store_heart_rate st st' /\
  forall m, In m (g_measures g) -> staged_in store_heart_rate env g m st'.
Proof.
  unfold stage_group. destruct (g_date g) as [d|] eqn:Hd; [|discriminate].
  cbn [subscript bindR]. apply stage_measures_staged. exact Hd.
Qed.

Lemma stage_groups_staged (groups : list MeasureGroup) :
  forall st st',
    for_each (stage_group env store_heart_rate) st groups = inr st' ->
    staged_grows store_heart_rate st st' /\
    forall g m, In g groups -> In m (g_measures g) ->
                staged_in store_heart_rate env g m st'.
Proof.
  induction groups as [|g0 groups IH]; intros st st' Hrun.
  - injection Hrun as <-. split; [apply staged_grows_refl|]. intros g m [].
  - cbn [for_each] in Hrun.
    destruct (stage_group env store_heart_rate st g0) as [ex|st1] eqn:H1;
      [discriminate|].
    cbn [bindR] in Hrun.
    destruct (stage_group_staged g0 st st1 H1) as [Hg1 Hin1].
    destruct (IH st1 st' Hrun) as [Hg2 Hin2].
    split; [exact (staged_grows_trans _ _ _ Hg1 Hg2)|].
    intros g m [<-|Hg] Hm.
    + exact (staged_in_grows _ _ _ _ (Hin1 m Hm) Hg2).
    + exact (Hin2 g m Hg Hm).
Qed.

(** A pagination that returns has staged every measure of every group of
    every page it was given. *)
Lemma paginate_staged (startdate_ts enddate_ts : option Z) (fuel : nat) :
  forall (offset : option Z) (seen : gset Z) (st st' : Staged) (w w' : World),
    paginate fuel env store_heart_rate startdate_ts enddate_ts offset seen st w
      = (Ret st', w') ->
    staged_grows store_heart_rate st st' /\
    exists new,
      trace w' = (trace w ++ new)%list /\
      Forall quiet new /\
      forall j a b c o r g m,
        api_calls new !! j = Some (GetMeasurements a b c o) ->
        get_measurements (api env) (length (api_calls (trace w)) + j) a b c o
          = inr r ->
        In g (measuregrps r) -> In m (g_measures g) ->
        staged_in store_heart_rate env g m st'.
Proof.
  induction fuel as [|fuel IH]; intros offset seen st st' w w' Hrun; [discriminate|].
  cbn [paginate] in Hrun. unfold bind at 1 in Hrun.
  unfold call_get_measurements in Hrun.
  destruct (get_measurements _ _ _ _ _ _) as [ex|result] eqn:Hget; [discriminate|].
  unfold bind at 1 in Hrun.
  destruct (for_each _ st (measuregrps result)) as [ex|st1] eqn:Hstage;
    cbn [lift raise ret] in Hrun; [discriminate|].
  destruct (stage_groups_staged _ _ _ Hstage) as [Hg1 Hin1].
  (* what the first page contributes, whatever follows *)
  assert (Hfirst : forall st2 rest,
    staged_grows store_heart_rate st1 st2 ->
    (forall j a b c o r g m,
       api_calls rest !! j = Some (GetMeasurements a b c o) ->
       get_measurements (api env) (length (api_calls (trace w)) + S j) a b c o
         = inr r ->
       In g (measuregrps r) -> In m (g_measures g) ->
       staged_in store_heart_rate env g m st2) ->
    forall j a b c o r g m,
      api_calls (EvApi (GetMeasurements startdate_ts enddate_ts 1 offset) :: rest) !! j
        = Some (GetMeasurements a b c o) ->
      get_measurements (api env) (length (api_calls (trace w)) + j) a b c o = inr r ->
      In g (measuregrps r) -> In m (g_measures g) ->
      staged_in store_heart_rate env g m st2).
  { intros st2 rest Hg2 Hrest j a b c o r g m Hj Hr Hg Hm.
    destruct j as [|j].
    - simpl in Hj. injection Hj as <- <- <- <-.
      rewrite Nat.add_0_r, Hget in Hr. injection Hr as <-.
      exact (staged_in_grows _ _ _ _ (Hin1 g m Hg Hm) Hg2).
    - simpl in Hj. exact (Hrest j a b c o r g m Hj Hr Hg Hm). }
  assert (Hlast : forall tail,
    api_calls tail = [] ->
    forall j a b c o r g m,
      api_calls (EvApi (GetMeasurements startdate_ts enddate_ts 1 offset) :: tail) !! j
        = Some (GetMeasurements a b c o) ->
      get_measurements (api env) (length (api_calls (trace w)) + j) a b c o = inr r ->
      In g (measuregrps r) -> In m (g_measures g) ->
      staged_in store_heart_rate env g m st1).
  { intros tail Htail. apply (Hfirst st1 tail (staged_grows_refl st1)).
    intros j a b c o r g m Hj. rewrite Htail in Hj. discriminate. }
  destruct (negb (more result)).
  { injection Hrun as <- <-. split; [exact Hg1|].
    exists [EvApi (GetMeasurements startdate_ts enddate_ts 1 offset)].
    split; [reflexivity|]. split; [repeat constructor|].
    apply (Hlast []). reflexivity. }
  destruct (Fetcher.offset result) as [o|].
  2:{ unfold bind, log, ret in Hrun. injection Hrun as <- <-. split; [exact Hg1|].
      exists [EvApi (GetMeasurements startdate_ts enddate_ts 1 offset);
              EvWarning pagination_warning].
      split; [cbn [trace]; rewrite <- app_assoc; reflexivity|].
      split; [repeat constructor|].
      apply (Hlast [EvWarning pagination_warning]). reflexivity. }
  destruct (decide (o ∈ seen)).
  { unfold bind, log, ret in Hrun. injection Hrun as <- <-. split; [exact Hg1|].
    exists [EvApi (GetMeasurements startdate_ts enddate_ts 1 offset);
            EvWarning pagination_warning].
    split; [cbn [trace]; rewrite <- app_assoc; reflexivity|].
    split; [repeat constructor|].
    apply (Hlast [EvWarning pagination_warning]). reflexivity. }
  destruct (IH _ _ _ _ _ _ Hrun) as (Hg2 & new & Ht & Hq & Hin2).
  split; [exact (staged_grows_trans _ _ _ Hg1 Hg2)|].
  exists (EvApi (GetMeasurements startdate_ts enddate_ts 1 offset) :: new).
  split; [rewrite Ht; cbn [trace]; rewrite <- app_assoc; reflexivity|].
  split; [constructor; [exact I|exact Hq]|].
  apply (Hfirst st' new Hg2).
  intros j a b c o' r g m Hj Hr. apply (Hin2 j a b c o' r g m Hj).
  cbn [trace]. rewrite api_calls_app, length_app. simpl.
  rewrite <- Hr. f_equal. lia.
Qed.

End Staging.





(* ===================================================================== *)
(** * api_client.py: the effort, the errors and the queries of a call *)
(* ===================================================================== *)

Section ApiClientMore.
Import ApiClient ApiMethods.

Context {Body : Type} (empty_body : Body) (server : Server Body).
Context (access_token method endpoint : string) (params data : option Params).

Lemma send_world (req : Request) (w : World) :
  snd (send server req w) = emit (EvRequest req) w.
Proof. unfold send. destruct (server (requests_made w) req); reflexivity. Qed.

Lemma requests_made_app (w1 w2 : World) :
  requests_made (w1 ++ w2)%list = (requests_made w1 + requests_made w2)%nat.
Proof.
  induction w1 as [|[r|s] w1 IH]; simpl; [reflexivity| |]; rewrite IH; reflexivity.
Qed.

Lemma sleeps_app (w1 w2 : World) : sleeps (w1 ++ w2)%list = (sleeps w1 ++ sleeps w2)%list.
Proof.
  induction w1 as [|[r|s] w1 IH]; simpl; [reflexivity| |]; rewrite IH; reflexivity.
Qed.

Lemma total_sleep_app (w1 w2 : World) :
  total_sleep (w1 ++ w2)%list = total_sleep w1 + total_sleep w2.
Proof.
  unfold total_sleep. rewrite sleeps_app.
  induction (sleeps w1) as [|x l IH]; simpl; [reflexivity|]. rewrite IH. lia.
Qed.

Lemma requests_made_backoff (req : Request) (k : nat) :
  forall rc, requests_made (backoff req rc k) = S k.
Proof. induction k as [|k IH]; intros rc; simpl; [reflexivity|]. rewrite IH. reflexivity. Qed.

(** Every run of [_make_request] for a GET or POST has the shape of a
    backoff: the request, and at most [3 - retry_count] times a sleep and
    the request again. *)
Lemma make_request_fuel_shape (req : Request) (fuel : nat) :
  build_request access_token method endpoint params data = inr req ->
  forall (retry_count : Z) (w : World),
    (Z.to_nat (3 - retry_count) < fuel)%nat ->
    exists k, (k <= Z.to_nat (3 - retry_count))%nat /\
      snd (make_request_fuel empty_body fuel server access_token method endpoint
             params data retry_count w) = (w ++ backoff req retry_count k)%list.
Proof.
  intros Hb. induction fuel as [|fuel IH]; intros retry_count w Hfuel; [lia|].
  cbn [make_request_fuel]. rewrite Hb.
  pose proof (send_world req w) as Hw.
  destruct (send server req w) as [[e|result] w']; simpl in Hw; subst w'.
  { exists 0%nat. split; [lia|reflexivity]. }
  destruct (get_default (status result) (-1) =? 0).
  { exists 0%nat. split; [lia|reflexivity]. }
  destruct ((get_default (status result) (-1) =? 401) ||
            (get_default (status result) (-1) =? 328) ||
            (get_default (status result) (-1) =? 2554)).
  { exists 0%nat. split; [lia|reflexivity]. }
  destruct (get_default (status result) (-1) =? 601).
  2:{ exists 0%nat. split; [lia|reflexivity]. }
  destruct (Z.ltb_spec retry_count 3) as [Hlt|Hge].
  2:{ exists 0%nat. split; [lia|reflexivity]. }
  destruct (IH (retry_count + 1)
              (emit (EvSleep (Z.min (60 * 2 ^ retry_count) 300))
                 (emit (EvRequest req) w))) as (k & Hk & Hsnd); [lia|].
  exists (S k). split; [lia|].
  rewrite Hsnd. unfold emit. rewrite <- !app_assoc. reflexivity.
Qed.

Lemma total_sleep_backoff (req : Request) (k : nat) :
  (k <= 3)%nat -> total_sleep (backoff req 0 k) <= 420.
Proof.
  intros Hk.
  destruct k as [|[|[|[|k]]]]; [vm_compute; discriminate ..|lia].
Qed.


Lemma send_answers (req : Request) (w : World) (result : Envelope Body) :
  answers_with (server (requests_made w) req) result ->
  send server req w = (inr result, emit (EvRequest req) w).
Proof.
  intros (response & Hs & Hr & Hj). unfold send. rewrite Hs, Hr, Hj. reflexivity.
Qed.

Lemma make_request_fuel_recovers (req : Request) (result : Envelope Body) (k : nat) :
  build_request access_token method endpoint params data = inr req ->
  status result = Some 0 ->
  forall (fuel : nat) (retry_count : Z) (w : World),
    retry_count + Z.of_nat k <= 3 ->
    (k < fuel)%nat ->
    (forall i, (i < k)%nat ->
       envelope_status_is (server (requests_made w + i)%nat req) 601) ->
    answers_with (server (requests_made w + k)%nat req) result ->
    make_request_fuel empty_body fuel server access_token method endpoint
      params data retry_count w =
    (Ret (get_default (body result) empty_body),
     (w ++ backoff req retry_count k)%list).
Proof.
  intros Hb Hst. induction k as [|k IH]; intros fuel retry_count w Hrc Hfuel H601 Hok.
  - destruct fuel as [|fuel]; [lia|].
    rewrite Nat.add_0_r in Hok.
    cbn [make_request_fuel]. rewrite Hb, (send_answers req w result Hok), Hst.
    reflexivity.
  - destruct fuel as [|fuel]; [lia|].
    assert (H0 : envelope_status_is (server (requests_made w) req) 601).
    { specialize (H601 0%nat). rewrite Nat.add_0_r in H601. apply H601. lia. }
    rewrite (make_request_fuel_601 empty_body server access_token method
               endpoint params data fuel retry_count w req Hb H0).
    destruct (Z.ltb_spec retry_count 3) as [_|Hge]; [|lia].
    rewrite (IH fuel (retry_count + 1)); try lia.
    + unfold emit. rewrite <- !app_assoc. reflexivity.
    + intros i Hi. unfold emit. rewrite !requests_made_app. simpl.
      replace (requests_made w + 1 + 0 + i)%nat with (requests_made w + S i)%nat by lia.
      apply H601. lia.
    + unfold emit. rewrite !requests_made_app. simpl.
      replace (requests_made w + 1 + 0 + k)%nat with (requests_made w + S k)%nat by lia.
      exact Hok.
Qed.

Lemma wrap_request_exception_not_request (e : Exn) :
  is_RequestException (wrap_request_exception e) = false.
Proof. unfold wrap_request_exception. destruct (is_RequestException e) eqn:E; [reflexivity|exact E]. Qed.

Lemma build_request_error (e : Exn) :
  build_request access_token method endpoint params data = inl e ->
  e = ValueError ("Unsupported HTTP method: " ++ method).
Proof.
  unfold build_request.
  destruct (String.eqb (upper method) "GET"); [discriminate|].
  destruct (String.eqb (upper method) "POST"); [discriminate|].
  intros [= <-]. reflexivity.
Qed.

Lemma send_error (req : Request) (w : World) (e : Exn) (w' : World) :
  send server req w = (inl e, w') ->
  is_RequestException e = true \/ e = AttributeError "get".
Proof.
  unfold send. destruct (server (requests_made w) req) as [|response].
  - intros [= <- _]. left. reflexivity.
  - unfold raise_for_status.
    destruct ((400 <=? status_code response) && (status_code response <? 600)); simpl.
    + intros [= <- _]. left. reflexivity.
    + destruct (json response); intros [= <- _]; [left|right]; reflexivity.
Qed.

(** What [_make_request] can raise. *)
Lemma make_request_fuel_raises (fuel : nat) :
  forall (retry_count : Z) (w : World) (e : Exn) (w' : World),
    make_request_fuel empty_body fuel server access_token method endpoint
      params data retry_count w = (Raise e, w') ->
    is_WithingsAPIError e = true \/
    e = ValueError ("Unsupported HTTP method: " ++ method) \/
    e = AttributeError "get".
Proof.
  induction fuel as [|fuel IH]; intros retry_count w e w'; [discriminate|].
  cbn [make_request_fuel].
  destruct (build_request access_token method endpoint params data) as [e0|req] eqn:Hb.
  { intros [= <- _]. apply build_request_error in Hb. subst e0.
    right. left. reflexivity. }
  destruct (send server req w) as [[e0|result] w1] eqn:Hs.
  { intros [= <- _]. destruct (send_error req w e0 w1 Hs) as [H| ->].
    - unfold wrap_request_exception. rewrite H. left. reflexivity.
    - right. right. reflexivity. }
  destruct (get_default (status result) (-1) =? 0); [discriminate|].
  destruct ((get_default (status result) (-1) =? 401) ||
            (get_default (status result) (-1) =? 328) ||
            (get_default (status result) (-1) =? 2554)).
  { intros [= <- _]. left. reflexivity. }
  destruct (get_default (status result) (-1) =? 601).
  2:{ intros [= <- _]. left. reflexivity. }
  destruct (retry_count <? 3).
  2:{ intros [= <- _]. left. reflexivity. }
  apply IH.
Qed.

End ApiClientMore.

(** X1. Whatever the vendor answers, one call of [_make_request] for a GET
    or POST returns or raises after at most three retries: its trace is the
    request, followed by [k <= 3] times a sleep and the same request again;
    so it issues at most four requests and sleeps at most 420 seconds. *)
Theorem X1_make_request_effort_is_bounded {Body : Type} (empty_body : Body)
    (server : ApiClient.Server Body) (access_token method endpoint : string)
    (params data : option ApiClient.Params) (req : ApiClient.Request)
    (w : ApiClient.World) :
  ApiClient.build_request access_token method endpoint params data = inr req ->
  let run :=
    ApiClient._make_request empty_body server access_token method endpoint
      params data 0 w in
  fst run <> Diverge /\
  exists k, (k <= 3)%nat /\
    snd run = (w ++ ApiMethods.backoff req 0 k)%list /\
    ApiClient.requests_made (snd run) = (ApiClient.requests_made w + S k)%nat /\
    ApiMethods.total_sleep (snd run) <= ApiMethods.total_sleep w + 420.
Proof.
  intros Hb run. split.
  { apply make_request_returns. }
  destruct (make_request_fuel_shape empty_body server access_token method
              endpoint params data req (S (Z.to_nat (3 - 0))) Hb 0 w)
    as (k & Hk & Hsnd); [lia|].
  change (Z.to_nat (3 - 0)) with 3%nat in Hk.
  exists k. split; [exact Hk|].
  unfold run, ApiClient._make_request. rewrite Hsnd.
  split; [reflexivity|]. split.
  - rewrite requests_made_app, requests_made_backoff. reflexivity.
  - rewrite total_sleep_app.
    pose proof (total_sleep_backoff req k Hk). lia.
Qed.

Lemma X1_make_request_effort_is_bounded_witness :
  let run :=
    ApiClient._make_request tt (Scenarios.server_status 601) "access" "GET"
      "/measure" (Some Scenarios.getmeas_params) None 0 [] in
  fst run <> Diverge /\
  exists k, (k <= 3)%nat /\
    snd run = ([] ++ ApiMethods.backoff Scenarios.getmeas_request 0 k)%list /\
    ApiClient.requests_made (snd run) = (ApiClient.requests_made [] + S k)%nat /\
    ApiMethods.total_sleep (snd run) <= ApiMethods.total_sleep [] + 420.
Proof.
  exact (X1_make_request_effort_is_bounded tt (Scenarios.server_status 601)
           "access" "GET" "/measure" (Some Scenarios.getmeas_params) None
           Scenarios.getmeas_request [] eq_refl).
Defined.

(** X2. [_make_request] never lets an exception of [requests] out: all it
    raises is a [WithingsAPIError] (or a subclass), the [ValueError] of an
    unsupported method, or the [AttributeError] of a JSON answer that is
    not an object. When the HTTP exchange itself fails (no answer, an HTTP
    error status, or a body that is not JSON) it raises
    [WithingsAPIError(-1, "HTTP request failed: ...")] after that single
    request, without sleeping or retrying. *)
Theorem X2_transport_failures_become_api_errors {Body : Type} (empty_body : Body)
    (server : ApiClient.Server Body) (access_token method endpoint : string)
    (params data : option ApiClient.Params) (retry_count : Z)
    (w : ApiClient.World) :
  let run :=
    ApiClient._make_request empty_body server access_token method endpoint
      params data retry_count w in
  (forall e w', run = (Raise e, w') ->
     is_RequestException e = false /\
     (is_WithingsAPIError e = true \/
      e = ValueError ("Unsupported HTTP method: " ++ method) \/
      e = AttributeError "get")) /\
  (forall req,
     ApiClient.build_request access_token method endpoint params data = inr req ->
     ApiMethods.http_failure (server (ApiClient.requests_made w) req) ->
     exists text,
       run = (Raise (WithingsAPIError (-1) ("HTTP request failed: " ++ text)),
              (w ++ [ApiClient.EvRequest req])%list)).
Proof.
  intros run. split.
  - intros e w' Hrun.
    pose proof (make_request_fuel_raises empty_body server access_token method
                  endpoint params data _ retry_count w e w' Hrun) as H.
    split; [|exact H].
    destruct H as [H|[->| ->]]; [|reflexivity|reflexivity].
    destruct e; try discriminate; reflexivity.
  - intros req Hb Hfail. unfold run, ApiClient._make_request.
    cbn [ApiClient.make_request_fuel]. rewrite Hb. unfold ApiClient.send.
    destruct (server (ApiClient.requests_made w) req) as [|response].
    + eexists. reflexivity.
    + unfold raise_for_status. simpl in Hfail.
      destruct Hfail as [Hcode|[text Hjson]].
      * replace ((400 <=? status_code response) && (status_code response <? 600))
          with true.
        { eexists. reflexivity. }
        symmetry. apply andb_true_iff. split; [apply Z.leb_le|apply Z.ltb_lt]; lia.
      * destruct ((400 <=? status_code response) && (status_code response <? 600)).
        { eexists. reflexivity. }
        simpl. rewrite Hjson. eexists. reflexivity.
Qed.

Lemma X2_transport_failures_become_api_errors_witness :
  exists text,
    ApiClient._make_request tt Scenarios.server_bad_gateway "access" "GET"
      "/measure" (Some Scenarios.getmeas_params) None 0 []
    = (Raise (WithingsAPIError (-1) ("HTTP request failed: " ++ text)),
       [ApiClient.EvRequest Scenarios.getmeas_request]) /\
    is_RequestException (WithingsAPIError (-1) ("HTTP request failed: " ++ text))
    = false.
Proof.
  assert (Hfail : ApiMethods.http_failure
                    (Scenarios.server_bad_gateway (ApiClient.requests_made [])
                       Scenarios.getmeas_request)).
  { left. simpl. lia. }
  destruct (proj2 (X2_transport_failures_become_api_errors tt
                     Scenarios.server_bad_gateway "access" "GET" "/measure"
                     (Some Scenarios.getmeas_params) None 0 [])
              Scenarios.getmeas_request eq_refl Hfail)
    as [text H].
  exists text. split; [exact H|].
  exact (proj1 (proj1 (X2_transport_failures_become_api_errors tt
                         Scenarios.server_bad_gateway "access" "GET" "/measure"
                         (Some Scenarios.getmeas_params) None 0 []) _ _ H)).
Defined.

(** X3. A rate limit that clears is invisible to the caller: when the
    first [k <= 3] attempts are answered with envelope status 601 and the
    next one with status 0, [_make_request] returns the [body] of that
    answer (the empty dictionary when the envelope has no [body]) after
    [k] sleeps of [60 * 2^i] seconds and [k + 1] identical requests. *)
Theorem X3_make_request_recovers_after_rate_limit {Body : Type} (empty_body : Body)
    (server : ApiClient.Server Body) (access_token method endpoint : string)
    (params data : option ApiClient.Params) (req : ApiClient.Request)
    (w : ApiClient.World) (k : nat) (result : ApiClient.Envelope Body) :
  ApiClient.build_request access_token method endpoint params data = inr req ->
  (k <= 3)%nat ->
  (forall i, (i < k)%nat ->
     ApiClient.envelope_status_is
       (server (ApiClient.requests_made w + i)%nat req) 601) ->
  ApiMethods.answers_with (server (ApiClient.requests_made w + k)%nat req) result ->
  ApiClient.status result = Some 0 ->
  ApiClient._make_request empty_body server access_token method endpoint
    params data 0 w =
  (Ret (get_default (ApiClient.body result) empty_body),
   (w ++ ApiMethods.backoff req 0 k)%list) /\
  ApiClient.sleeps (ApiMethods.backoff req 0 k)
    = map (fun i => 60 * 2 ^ Z.of_nat i) (seq 0 k).
Proof.
  intros Hb Hk H601 Hok Hst. split.
  - unfold ApiClient._make_request.
    apply (make_request_fuel_recovers empty_body server access_token method
             endpoint params data req result k Hb Hst); try assumption.
    + lia.
    + change (Z.to_nat (3 - 0)) with 3%nat. lia.
  - destruct k as [|[|[|[|k]]]]; [reflexivity ..|lia].
Qed.

Lemma X3_make_request_recovers_after_rate_limit_witness :
  ApiClient._make_request tt Scenarios.server_busy_twice "access" "GET" "/measure"
    (Some Scenarios.getmeas_params) None 0 []
  = (Ret tt,
     [ApiClient.EvRequest Scenarios.getmeas_request; ApiClient.EvSleep 60;
      ApiClient.EvRequest Scenarios.getmeas_request; ApiClient.EvSleep 120;
      ApiClient.EvRequest Scenarios.getmeas_request]).
Proof.
  refine (proj1 (X3_make_request_recovers_after_rate_limit tt Scenarios.server_busy_twice
                   "access" "GET" "/measure" (Some Scenarios.getmeas_params) None
                   Scenarios.getmeas_request [] 2
                   (ApiClient.mkEnvelope (Some 0) None) eq_refl _ _ _ eq_refl)).
  - lia.
  - intros i Hi.
    destruct i as [|[|i]]; [| |lia]; eexists; eexists; repeat split.
  - eexists. repeat split.
Defined.

(** X4. The HTTP method is matched without regard to case, and anything
    but GET and POST is refused before any network traffic: the call raises
    [ValueError("Unsupported HTTP method: ...")] and leaves no request and
    no sleep in the trace. *)
Theorem X4_unsupported_method_is_refused_before_any_request {Body : Type}
    (empty_body : Body) (server : ApiClient.Server Body)
    (access_token method endpoint : string)
    (params data : option ApiClient.Params) (retry_count : Z)
    (w : ApiClient.World) :
  (upper method <> "GET" -> upper method <> "POST" ->
   ApiClient._make_request empty_body server access_token method endpoint
     params data retry_count w =
   (Raise (ValueError ("Unsupported HTTP method: " ++ method)), w)) /\
  (upper method = "GET" \/ upper method = "POST" ->
   ApiClient._make_request empty_body server access_token method endpoint
     params data retry_count w =
   ApiClient._make_request empty_body server access_token (upper method) endpoint
     params data retry_count w).
Proof.
  split.
  - intros Hg Hp. unfold ApiClient._make_request.
    cbn [ApiClient.make_request_fuel]. unfold ApiClient.build_request.
    destruct (String.eqb_spec (upper method) "GET") as [E|_]; [contradiction|].
    destruct (String.eqb_spec (upper method) "POST") as [E|_]; [contradiction|].
    reflexivity.
  - intros Hm. unfold ApiClient._make_request.
    generalize (S (Z.to_nat (3 - retry_count))). intros fuel.
    revert retry_count w.
    assert (Hb : ApiClient.build_request access_token method endpoint params data
                 = ApiClient.build_request access_token (upper method) endpoint
                     params data).
    { unfold ApiClient.build_request. destruct Hm as [-> | ->]; reflexivity. }
    induction fuel as [|fuel IH]; intros retry_count w; [reflexivity|].
    cbn [ApiClient.make_request_fuel]. rewrite <- Hb.
    destruct (match ApiClient.build_request access_token method endpoint params data with
              | inl e => (inl e, w)
              | inr req => ApiClient.send server req w
              end) as [[e|result] w']; [reflexivity|].
    destruct (get_default (ApiClient.status result) (-1) =? 0); [reflexivity|].
    destruct ((get_default (ApiClient.status result) (-1) =? 401) ||
              (get_default (ApiClient.status result) (-1) =? 328) ||
              (get_default (ApiClient.status result) (-1) =? 2554)); [reflexivity|].
    destruct (get_default (ApiClient.status result) (-1) =? 601); [|reflexivity].
    destruct (retry_count <? 3); [|reflexivity].
    apply IH.
Qed.

Lemma X4_unsupported_method_is_refused_before_any_request_witness :
  ApiClient._make_request tt (Scenarios.server_status 0) "access" "DELETE"
    "/measure" None None 0 []
  = (Raise (ValueError "Unsupported HTTP method: DELETE"), []) /\
  ApiClient._make_request tt (Scenarios.server_status 0) "access" "get"
    "/measure" None None 0 []
  = ApiClient._make_request tt (Scenarios.server_status 0) "access" "GET"
      "/measure" None None 0 [].
Proof.
  split.
  - apply (proj1 (X4_unsupported_method_is_refused_before_any_request tt
                    (Scenarios.server_status 0) "access" "DELETE" "/measure"
                    None None 0 [])); discriminate.
  - apply (proj2 (X4_unsupported_method_is_refused_before_any_request tt
                    (Scenarios.server_status 0) "access" "get" "/measure"
                    None None 0 [])).
    left. reflexivity.
Defined.

(** X5. An envelope whose status is none of 0, 401, 328, 2554 and 601
    raises a plain [WithingsAPIError] that carries this status, after the
    single request: the message is the entry of [STATUS_MESSAGES], or
    ["Unknown error (status N)"] for a status the table does not list. An
    envelope without a [status] counts as status [-1]. *)
Theorem X5_other_envelope_status_raises_api_error {Body : Type} (empty_body : Body)
    (server : ApiClient.Server Body) (access_token method endpoint : string)
    (params data : option ApiClient.Params) (req : ApiClient.Request)
    (retry_count : Z) (w : ApiClient.World) (result : ApiClient.Envelope Body) :
  ApiClient.build_request access_token method endpoint params data = inr req ->
  ApiMethods.answers_with (server (ApiClient.requests_made w) req) result ->
  let s := get_default (ApiClient.status result) (-1) in
  s <> 0 -> s <> 401 -> s <> 328 -> s <> 2554 -> s <> 601 ->
  ApiClient._make_request empty_body server access_token method endpoint
    params data retry_count w =
  (Raise (WithingsAPIError s
            (get_default (ApiClient.STATUS_MESSAGES s)
               ("Unknown error (status " ++ str_Z s ++ ")"))),
   (w ++ [ApiClient.EvRequest req])%list) /\
  (ApiClient.status result = None ->
   s = -1 /\
   get_default (ApiClient.STATUS_MESSAGES s)
     ("Unknown error (status " ++ str_Z s ++ ")") = "Unknown error (status -1)").
Proof.
  intros Hb Hok s H0 H401 H328 H2554 H601. split.
  - unfold ApiClient._make_request. cbn [ApiClient.make_request_fuel].
    rewrite Hb, (send_answers server req w result Hok). fold s.
    destruct (Z.eqb_spec s 0); [contradiction|].
    destruct (Z.eqb_spec s 401); [contradiction|].
    destruct (Z.eqb_spec s 328); [contradiction|].
    destruct (Z.eqb_spec s 2554); [contradiction|].
    destruct (Z.eqb_spec s 601); [contradiction|].
    reflexivity.
  - intros Hnone. unfold s. rewrite Hnone. split; reflexivity.
Qed.

Lemma X5_other_envelope_status_raises_api_error_witness :
  ApiClient._make_request tt (Scenarios.server_status 2555) "access" "GET"
    "/measure" (Some Scenarios.getmeas_params) None 0 []
  = (Raise (WithingsAPIError 2555 "An unknown error occurred"),
     [ApiClient.EvRequest Scenarios.getmeas_request]).
Proof.
  refine (proj1 (X5_other_envelope_status_raises_api_error tt
                   (Scenarios.server_status 2555) "access" "GET" "/measure"
                   (Some Scenarios.getmeas_params) None Scenarios.getmeas_request
                   0 [] (ApiClient.mkEnvelope (Some 2555) (Some tt))
                   eq_refl _ _ _ _ _ _)); try (simpl; lia).
  eexists. repeat split.
Defined.

Lemma param_if_key {A : Type} (key key' : string) (v : option A)
    (truthy : A -> bool) (render : A -> string) :
  In key (map fst (ApiMethods.param_if key' v truthy render)) <->
  key = key' /\ exists a, v = Some a /\ truthy a = true.
Proof.
  unfold ApiMethods.param_if. destruct v as [a|]; [destruct (truthy a) eqn:E|]; simpl.
  - split.
    + intros [<- |[]]. split; [reflexivity|]. exists a. split; [reflexivity|exact E].
    + intros [-> _]. left. reflexivity.
  - split; [intros []|]. intros [_ (a' & [= <-] & H)]. congruence.
  - split; [intros []|]. intros [_ (a' & H & _)]. discriminate.
Qed.

(** X6. [get_measurements] sends (and on a rate limit re-sends) one GET
    request to [/measure] whose query always has [action] and [category],
    and no key twice. An [offset] is transmitted whenever it is not [None],
    also when it is [0]; [startdate], [enddate], [meastype] and
    [lastupdate] are tested for truthiness, so each of them is left out of
    the query when it is the integer [0] (a [datetime] is always sent). *)
Theorem X6_get_measurements_query {Body : Type} (empty_body : Body)
    (server : ApiClient.Server Body) (access_token : string) (utc_offset : Z)
    (startdate enddate : option ApiMethods.TimeArg) (meastype : option Z)
    (category : Z) (lastupdate offset : option Z) (w : ApiClient.World) :
  let query :=
    ApiMethods.getmeas_params utc_offset startdate enddate meastype category
      lastupdate offset in
  let req :=
    ApiClient.mkRequest "GET" "https://wbsapi.withings.net/measure"
      (Some query) None ("Bearer " ++ access_token) in
  let sent key := In key (map fst query) in
  (exists k, (k <= 3)%nat /\
     snd (ApiMethods.get_measurements empty_body server access_token utc_offset
            startdate enddate meastype category lastupdate offset w)
     = (w ++ ApiMethods.backoff req 0 k)%list) /\
  NoDup (map fst query) /\
  In ("action", "getmeas") query /\ In ("category", str_Z category) query /\
  (sent "offset" <-> offset <> None) /\
  (forall o, offset = Some o -> In ("offset", str_Z o) query) /\
  (sent "startdate" <->
   exists a, startdate = Some a /\ a <> ApiMethods.TimeInt 0) /\
  (sent "enddate" <->
   exists a, enddate = Some a /\ a <> ApiMethods.TimeInt 0) /\
  (sent "meastype" <-> exists n, meastype = Some n /\ n <> 0) /\
  (sent "lastupdate" <-> exists n, lastupdate = Some n /\ n <> 0).
Proof.
  intros query req sent.
  assert (Htime : forall a, ApiMethods.truthy_time a = true <-> a <> ApiMethods.TimeInt 0).
  { intros [dt|ts]; simpl; [split; [discriminate|reflexivity]|].
    unfold negb. destruct (Z.eqb_spec ts 0) as [->|Hne]; split; congruence. }
  assert (Hnz : forall n, ApiMethods.nonzero n = true <-> n <> 0).
  { intros n. unfold ApiMethods.nonzero, negb.
    destruct (Z.eqb_spec n 0); split; congruence. }
  assert (Hsent : forall key,
            sent key <->
            key = "action" \/ key = "category" \/
            (key = "startdate" /\ exists a, startdate = Some a /\ ApiMethods.truthy_time a = true) \/
            (key = "enddate" /\ exists a, enddate = Some a /\ ApiMethods.truthy_time a = true) \/
            (key = "meastype" /\ exists a, meastype = Some a /\ ApiMethods.nonzero a = true) \/
            (key = "lastupdate" /\ exists a, lastupdate = Some a /\ ApiMethods.nonzero a = true) \/
            (key = "offset" /\ exists a, offset = Some a /\ true = true)).
  { intros key. unfold sent, query, ApiMethods.getmeas_params.
    rewrite !map_app, !in_app_iff, !param_if_key. simpl.
    intuition congruence. }
  split; [|split; [|split; [|split; [|split; [|split; [|split; [|split; [|split]]]]]]]].
  - destruct (make_request_fuel_shape empty_body server access_token "GET"
                ApiClient.MEASURE_ENDPOINT (Some query) None req
                (S (Z.to_nat (3 - 0))) eq_refl 0 w) as (k & Hk & Hsnd); [lia|].
    exists k. split; [exact Hk|exact Hsnd].
  - unfold query, ApiMethods.getmeas_params, ApiMethods.param_if.
    repeat match goal with
           | |- context [match ?o with Some _ => _ | None => _ end] => destruct o
           | |- context [if ?b then _ else _] => destruct b
           end;
      simpl; repeat constructor;
      intros Hin; apply list_elem_of_In in Hin; simpl in Hin;
      intuition discriminate.
  - unfold query, ApiMethods.getmeas_params. apply in_app_iff. left. left. reflexivity.
  - unfold query, ApiMethods.getmeas_params. apply in_app_iff. left. right. left. reflexivity.
  - rewrite Hsent. split.
    + intros [H|[H|[[H _]|[[H _]|[[H _]|[[H _]|[_ (a & -> & _)]]]]]]]; discriminate.
    + destruct offset as [o|]; [|congruence]. intros _.
      do 6 right. split; [reflexivity|]. exists o. split; reflexivity.
  - intros o ->. unfold query, ApiMethods.getmeas_params.
    rewrite !in_app_iff. do 5 right. left. reflexivity.
  - rewrite Hsent. split.
    + intros [H|[H|[[_ (a & Ha & Ht)]|[[H _]|[[H _]|[[H _]|[H _]]]]]]]; try discriminate.
      exists a. split; [exact Ha|]. apply Htime. exact Ht.
    + intros (a & Ha & Hne). right. right. left. split; [reflexivity|].
      exists a. split; [exact Ha|]. apply Htime. exact Hne.
  - rewrite Hsent. split.
    + intros [H|[H|[[H _]|[[_ (a & Ha & Ht)]|[[H _]|[[H _]|[H _]]]]]]]; try discriminate.
      exists a. split; [exact Ha|]. apply Htime. exact Ht.
    + intros (a & Ha & Hne). do 3 right. left. split; [reflexivity|].
      exists a. split; [exact Ha|]. apply Htime. exact Hne.
  - rewrite Hsent. split.
    + intros [H|[H|[[H _]|[[H _]|[[_ (a & Ha & Ht)]|[[H _]|[H _]]]]]]]; try discriminate.
      exists a. split; [exact Ha|]. apply Hnz. exact Ht.
    + intros (a & Ha & Hne). do 4 right. left. split; [reflexivity|].
      exists a. split; [exact Ha|]. apply Hnz. exact Hne.
  - rewrite Hsent. split.
    + intros [H|[H|[[H _]|[[H _]|[[H _]|[[_ (a & Ha & Ht)]|[H _]]]]]]]; try discriminate.
      exists a. split; [exact Ha|]. apply Hnz. exact Ht.
    + intros (a & Ha & Hne). do 5 right. left. split; [reflexivity|].
      exists a. split; [exact Ha|]. apply Hnz. exact Hne.
Qed.

(* ===================================================================== *)
(** * oauth_client.py: the token file, failures, and the validity of a token *)
(* ===================================================================== *)

Section OAuthMore.
Import OAuth.

Lemma from_dict_to_dict (now : Q) (t : OAuthToken) : from_dict now (to_dict t) = inr t.
Proof. destruct t. reflexivity. Qed.

Lemma exchange_saved (endpoint : TokenEndpoint) (now : Q) (code : string)
    (c c' : Client) (t : OAuthToken) :
  exchange_code_for_token endpoint now code c = (inr t, c') ->
  c' = mkClient (client_id c) (client_secret c) (callback_uri c) (auto_refresh c)
         (Some t) (Some t).
Proof.
  unfold exchange_code_for_token.
  destruct (endpoint _) as [|r]; [discriminate|].
  destruct (let! body := read_token_response _ now r in from_dict now body)
    as [e|t0]; [discriminate|].
  intros [= <- <-]. reflexivity.
Qed.

Lemma refresh_saved (endpoint : TokenEndpoint) (now : Q)
    (c c' : Client) (t : OAuthToken) :
  refresh_access_token endpoint now c = (inr t, c') ->
  c' = mkClient (client_id c) (client_secret c) (callback_uri c) (auto_refresh c)
         (Some t) (Some t).
Proof.
  unfold refresh_access_token.
  destruct (token c) as [held|]; [|discriminate].
  destruct (negb (truthy_str (refresh_token held))); [discriminate|].
  destruct (endpoint _) as [|r]; [discriminate|].
  destruct (let! body := read_token_response _ now r in from_dict now body)
    as [e|t0]; [discriminate|].
  intros [= <- <-]. reflexivity.
Qed.

Lemma exchange_failed (endpoint : TokenEndpoint) (now : Q) (code : string)
    (c c' : Client) (e : Exn) :
  exchange_code_for_token endpoint now code c = (inl e, c') -> c' = c.
Proof.
  unfold exchange_code_for_token.
  destruct (endpoint _) as [|r]; [intros [= _ <-]; reflexivity|].
  destruct (let! body := read_token_response _ now r in from_dict now body)
    as [e0|t0]; [|discriminate].
  intros [= _ <-]. reflexivity.
Qed.


(** The expiry check on a refreshed token, at the clock of the refresh. *)
Lemma refresh_expiry_check (endpoint : TokenEndpoint) (now : Q)
    (c c' : Client) (t : OAuthToken) :
  refresh_access_token endpoint now c = (inr t, c') ->
  is_expired t now = (expires_in t <=? 300) /\
  exists form r result body,
    endpoint form = Responded r /\ json r = JsonDict result /\
    e_body result = Some body /\
    expires_in t = get_default (d_expires_in body) 10800.
Proof.
  intros Hr. split.
  - pose proof (refresh_issued endpoint now c c' t Hr) as He.
    unfold is_expired, is_expired_with. rewrite He.
    destruct (Z.leb_spec (py_int now + expires_in t - 300) (py_int now));
      destruct (Z.leb_spec (expires_in t) 300); try reflexivity; lia.
  - revert Hr. unfold refresh_access_token.
    destruct (token c) as [held|]; [|discriminate].
    destruct (negb (truthy_str (refresh_token held))); [discriminate|].
    destruct (endpoint _) as [|r] eqn:Hend; [discriminate|].
    destruct (read_token_response "Token refresh failed" now r) as [e|body1] eqn:Hread;
      simpl; [discriminate|].
    destruct (from_dict now body1) as [e|t0] eqn:Hfrom; [discriminate|].
    intros [= <- _].
    apply read_token_response_inr in Hread as (result & body0 & Hj & Hb & ->).
    apply from_dict_inr in Hfrom as (He & _ & _). simpl in He.
    eexists _, r, result, body0. repeat split; try eassumption.
    destruct (negb (truthy_optZ (userid t0))); simpl; exact He.
Qed.

End OAuthMore.

(** X7. A token obtained by a code exchange or a refresh is held in memory
    and written to the token file as the same value, and a later process
    that loads the file holds exactly this token again, whatever its clock
    reads: [from_dict] undoes [to_dict], and the stored absolute expiry is
    used, not recomputed. *)
Theorem X7_token_survives_restart (endpoint : OAuth.TokenEndpoint) (now later : Q)
    (code : string) (c c' : OAuth.Client) (t : OAuth.OAuthToken) :
  OAuth.exchange_code_for_token endpoint now code c = (inr t, c') \/
  OAuth.refresh_access_token endpoint now c = (inr t, c') ->
  OAuth.token c' = Some t /\
  OAuth.token_file c' = Some t /\
  OAuth.from_dict later (OAuth.to_dict t) = inr t /\
  OAuth.token (OAuth.restart later c') = Some t /\
  OAuth.token_file (OAuth.restart later c') = Some t.
Proof.
  intros H.
  assert (Hc : c' = OAuth.mkClient (OAuth.client_id c) (OAuth.client_secret c)
                      (OAuth.callback_uri c) (OAuth.auto_refresh c) (Some t) (Some t)).
  { destruct H as [H|H]; [eapply exchange_saved|eapply refresh_saved]; exact H. }
  subst c'. split; [reflexivity|]. split; [reflexivity|].
  split; [apply from_dict_to_dict|].
  unfold OAuth.restart, OAuth.init, OAuth.file_of, OAuth._load_token.
  cbn [OAuth.token_file]. rewrite from_dict_to_dict. split; reflexivity.
Qed.

Lemma X7_token_survives_restart_witness :
  exists t c',
    OAuth.refresh_access_token (Scenarios.endpoint_ok (Some 7)) (1000 # 1)
      Scenarios.client0 = (inr t, c') /\
    OAuth.token (OAuth.restart (5000000 # 1) c') = Some t /\
    OAuth.token_expiry t = 11800.
Proof.
  eexists. eexists. split; [reflexivity|]. split; [|reflexivity].
  refine (proj1 (proj2 (proj2 (proj2
            (X7_token_survives_restart (Scenarios.endpoint_ok (Some 7))
               (1000 # 1) (5000000 # 1) "" Scenarios.client0 _ _
               (or_intror eq_refl)))))).
Defined.





(** X10. What [get_valid_token] hands out: the token the client holds
    afterwards. A held token that is not expired, or any held token when
    [auto_refresh] is off, is returned as it is, with the client unchanged.
    With [auto_refresh] on, and a token endpoint whose answers carry an
    [expires_in] above the 300 second buffer (or none: the default is
    10800), the returned token is never expired at the time of the call. *)
Theorem X10_get_valid_token_is_valid (endpoint : OAuth.TokenEndpoint) (now : Q)
    (c c' : OAuth.Client) (t : OAuth.OAuthToken) :
  OAuth.get_valid_token endpoint now c = (inr t, c') ->
  OAuth.token c' = Some t /\
  (forall held, OAuth.token c = Some held ->
     OAuth.is_expired held now = false \/ OAuth.auto_refresh c = false ->
     t = held /\ c' = c) /\
  (OAuth.auto_refresh c = true ->
   (forall form r result body,
      endpoint form = Responded r -> json r = JsonDict result ->
      OAuth.e_body result = Some body ->
      300 < get_default (OAuth.d_expires_in body) 10800) ->
   OAuth.is_expired t now = false).
Proof.
  unfold OAuth.get_valid_token.
  destruct (OAuth.token c) as [held|] eqn:Hheld; [|discriminate].
  destruct (OAuth.is_expired held now) eqn:Hexp;
    destruct (OAuth.auto_refresh c) eqn:Hauto; simpl.
  - destruct (OAuth.refresh_access_token endpoint now c) as [[e0|t1] c1] eqn:Hr;
      [discriminate|].
    pose proof (refresh_saved endpoint now c c1 t1 Hr) as Hc1.
    rewrite Hc1. simpl. intros [= <- <-]. simpl.
    split; [reflexivity|]. split.
    + intros held' [= <-] [H|H]; congruence.
    + intros _ Hlong.
      destruct (refresh_expiry_check endpoint now c c1 t1 Hr)
        as (Hcheck & form & r & result & body & Hend & Hj & Hb & He).
      rewrite Hcheck, He. apply Z.leb_gt. eapply Hlong; eassumption.
  - intros [= <- <-]. split; [exact Hheld|]. split.
    + intros held' [= <-] _. split; reflexivity.
    + discriminate.
  - intros [= <- <-]. split; [exact Hheld|]. split.
    + intros held' [= <-] _. split; reflexivity.
    + intros _ _. exact Hexp.
  - intros [= <- <-]. split; [exact Hheld|]. split.
    + intros held' [= <-] _. split; reflexivity.
    + discriminate.
Qed.

Lemma X10_get_valid_token_is_valid_witness :
  exists t c',
    OAuth.get_valid_token (Scenarios.endpoint_ok (Some 7)) (1000 # 1)
      Scenarios.client0 = (inr t, c') /\
    OAuth.is_expired Scenarios.held_token (1000 # 1) = true /\
    OAuth.is_expired t (1000 # 1) = false.
Proof.
  eexists. eexists. split; [reflexivity|]. split; [reflexivity|].
  refine (proj2 (proj2 (X10_get_valid_token_is_valid (Scenarios.endpoint_ok (Some 7))
                          (1000 # 1) Scenarios.client0 _ _ eq_refl)) eq_refl _).
  intros form r result body [= <-] [= <-] [= <-]. simpl. lia.
Defined.

(* ===================================================================== *)
(** * storage.py: upserts, counts and range queries *)
(* ===================================================================== *)

Section UpsertMore.

Context {K V : Type} `{Countable K} (key : V -> K).

(** After a batch, the row under a key is the last record of the batch
    with this key, or the row that was there. *)
Lemma upsert_all_lookup (l : list V) :
  forall (m : gmap K V) (k : K),
    foldl (insert_or_replace key) m l !! k
    = match last_with key k l with
      | Some x => Some x
      | None => m !! k
      end.
Proof.
  induction l as [|x l IH] using rev_ind; intros m k; [reflexivity|].
  rewrite foldl_app. cbn [foldl]. unfold last_with.
  rewrite rev_app_distr. cbn [rev app List.find].
  unfold insert_or_replace at 1.
  destruct (decide (key x = k)) as [Heq|Hne].
  - rewrite (bool_decide_eq_true_2 _ Heq). rewrite <- Heq, lookup_insert_eq. reflexivity.
  - rewrite (bool_decide_eq_false_2 _ Hne). rewrite lookup_insert_ne by exact Hne.
    apply IH.
Qed.

Lemma upsert_all_keyed (l : list V) :
  forall (m : gmap K V), keyed key m -> keyed key (foldl (insert_or_replace key) m l).
Proof.
  induction l as [|x l IH]; intros m Hm; [exact Hm|].
  simpl. apply IH. intros k y. unfold insert_or_replace.
  destruct (decide (key x = k)) as [<-|Hne].
  - rewrite lookup_insert_eq. intros [= <-]. reflexivity.
  - rewrite lookup_insert_ne by exact Hne. apply Hm.
Qed.

Lemma upsert_all_size (l : list V) :
  forall (m : gmap K V),
    (size m <= size (foldl (insert_or_replace key) m l) <= size m + length l)%nat.
Proof.
  induction l as [|x l IH]; intros m; [simpl; lia|].
  simpl. specialize (IH (insert_or_replace key m x)).
  assert (Hs : size (insert_or_replace key m x)
               = match m !! key x with Some _ => id | None => S end (size m)).
  { unfold insert_or_replace. apply map_size_insert. }
  rewrite Hs in IH. destruct (m !! key x); simpl in IH; lia.
Qed.

Lemma last_with_In (k : K) (l : list V) (x : V) :
  last_with key k l = Some x -> In x l /\ key x = k.
Proof.
  unfold last_with. intros Hf. apply find_some in Hf as [Hin Hk].
  split; [apply in_rev; exact Hin|].
  apply bool_decide_eq_true_1 in Hk. exact Hk.
Qed.

Lemma last_with_None (k : K) (l : list V) :
  last_with key k l = None <-> forall x, In x l -> key x <> k.
Proof.
  unfold last_with. split.
  - intros Hf x Hin Hk.
    pose proof (find_none _ _ Hf x (proj1 (in_rev l x) Hin)) as Hb.
    simpl in Hb. rewrite (bool_decide_eq_true_2 _ Hk) in Hb. discriminate.
  - intros Hall. destruct (List.find _ (rev l)) as [x|] eqn:Hf; [|reflexivity].
    apply find_some in Hf as [Hin Hk]. apply bool_decide_eq_true_1 in Hk.
    exfalso. apply (Hall x); [apply in_rev; exact Hin|exact Hk].
Qed.

Section Select.

Context (column : V -> Z) (keep : V -> bool).

Lemma select_ordered_In (table : gmap K V) (x : V) :
  In x (select_ordered column keep table) <->
  keep x = true /\ exists k, table !! k = Some x.
Proof.
  unfold select_ordered. rewrite <- list_elem_of_In.
  rewrite merge_sort_Permutation. rewrite list_elem_of_In.
  rewrite filter_In, in_map_iff. split.
  - intros [((k & y) & Hy & Hin) Hkeep]. simpl in Hy. subst y.
    split; [exact Hkeep|]. exists k.
    apply elem_of_map_to_list. apply list_elem_of_In. exact Hin.
  - intros [Hkeep (k & Hk)]. split; [|exact Hkeep].
    exists (k, x). split; [reflexivity|].
    apply list_elem_of_In. apply elem_of_map_to_list. exact Hk.
Qed.

Lemma select_ordered_Sorted (table : gmap K V) :
  Sorted (fun a b => column a <= column b) (select_ordered column keep table).
Proof.
  unfold select_ordered.
  assert (Htotal : Total (fun a b : V => column a <= column b)).
  { intros a b. lia. }
  apply (Sorted_merge_sort (fun a b => column a <= column b)).
Qed.

Lemma keyed_rows_NoDup (table : gmap K V) :
  keyed key table -> NoDup (map snd (map_to_list table)).
Proof.
  intros Hk. apply (NoDup_fmap_1 key).
  replace (key <$> map snd (map_to_list table)) with (map fst (map_to_list table)).
  { apply NoDup_fst_map_to_list. }
  change (map fst (map_to_list table) = map key (map snd (map_to_list table))).
  rewrite map_map. apply map_ext_in. intros [k x] Hin. simpl. symmetry.
  apply Hk. apply elem_of_map_to_list. apply list_elem_of_In. exact Hin.
Qed.

Lemma select_ordered_NoDup (table : gmap K V) :
  keyed key table -> NoDup (select_ordered column keep table).
Proof.
  intros Hk. unfold select_ordered. rewrite merge_sort_Permutation.
  apply NoDup_ListNoDup. apply List.NoDup_filter. apply NoDup_ListNoDup.
  apply keyed_rows_NoDup. exact Hk.
Qed.

Lemma select_ordered_all_length (table : gmap K V) :
  (forall x, keep x = true) ->
  length (select_ordered column keep table) = size table.
Proof.
  intros Hall. unfold select_ordered. rewrite merge_sort_Permutation.
  replace (List.filter keep (map snd (map_to_list table)))
    with (map snd (map_to_list table)).
  - rewrite length_map. apply length_map_to_list.
  - induction (map snd (map_to_list table)) as [|y l IH]; [reflexivity|].
    simpl. rewrite Hall. f_equal. exact IH.
Qed.

End Select.
End UpsertMore.

Section UpsertFresh.
Context {K V : Type} `{Countable K} (key : V -> K).


End UpsertFresh.



Lemma within_spec (start_date end_date : option Z) (v : Z) :
  within start_date end_date v = true <->
  (forall s, start_date = Some s -> s <= v) /\
  (forall e, end_date = Some e -> v <= e).
Proof.
  unfold within. rewrite andb_true_iff.
  destruct start_date as [s|], end_date as [e|]; rewrite ?Z.leb_le; split.
  all: try (intros [H1 H2]; split; [intros ? [= <-]|intros ? [= <-]]; assumption).
  all: try (intros [H1 H2]; split; try reflexivity;
            try (apply H1; reflexivity); try (apply H2; reflexivity)).
  all: try (intros [H1 H2]; split; intros ? ?; try discriminate; congruence).
Qed.

Lemma Sorted_lt_of_le_NoDup {A : Type} (f : A -> Z) (l : list A) :
  Sorted (fun a b => f a <= f b) l -> NoDup (map f l) ->
  StronglySorted (fun a b => f a < f b) l.
Proof.
  intros Hs Hnd.
  assert (Htrans : Transitive (fun a b : A => f a <= f b)).
  { intros a b c. lia. }
  apply Sorted_StronglySorted in Hs; [|exact Htrans].
  induction Hs as [|x l Hs IH Hall]; [constructor|].
  simpl in Hnd. apply NoDup_cons in Hnd as [Hx Hnd].
  constructor; [apply IH; exact Hnd|].
  rewrite List.Forall_forall in *. intros y Hy.
  specialize (Hall y Hy). simpl in Hall.
  destruct (Z.eq_dec (f x) (f y)) as [Heq|Hne]; [|lia].
  exfalso. apply Hx. rewrite Heq. apply list_elem_of_In. apply in_map. exact Hy.
Qed.

Lemma NoDup_map_filter {A B : Type} (f : A -> B) (p : A -> bool) (l : list A) :
  NoDup (map f l) -> NoDup (map f (List.filter p l)).
Proof.
  induction l as [|x l IH]; intros Hnd; [exact Hnd|].
  simpl in Hnd. apply NoDup_cons in Hnd as [Hx Hnd].
  simpl. destruct (p x); [|apply IH; exact Hnd].
  simpl. apply NoDup_cons. split; [|apply IH; exact Hnd].
  intros Hin. apply Hx. apply list_elem_of_In in Hin. apply list_elem_of_In.
  apply in_map_iff in Hin as (y & Hy & Hin). apply in_map_iff.
  exists y. split; [exact Hy|]. apply filter_In in Hin. tauto.
Qed.

Section SelectKeyed.
Context {V : Type} (key : V -> Z) (keep : V -> bool).

(** A query over a table whose UNIQUE key is the column it is ordered by. *)
Lemma select_ordered_keyed (table : gmap Z V) :
  keyed key table ->
  (forall x, In x (select_ordered key keep table) <->
             table !! key x = Some x /\ keep x = true) /\
  StronglySorted (fun a b => key a < key b) (select_ordered key keep table).
Proof.
  intros Hk. split.
  - intros x. rewrite (select_ordered_In key keep). split.
    + intros [Hkeep (k & Hx)]. split; [|exact Hkeep].
      rewrite (Hk k x Hx). exact Hx.
    + intros [Hx Hkeep]. split; [exact Hkeep|]. eauto.
  - apply Sorted_lt_of_le_NoDup; [apply select_ordered_Sorted|].
    assert (Hp : map key (select_ordered key keep table)
                 ≡ₚ map key (List.filter keep (map snd (map_to_list table)))).
    { unfold select_ordered. apply Permutation_map. apply merge_sort_Permutation. }
    rewrite Hp. apply NoDup_map_filter.
    replace (map key (map snd (map_to_list table)))
      with (map fst (map_to_list table)).
    { apply NoDup_fst_map_to_list. }
    rewrite map_map. apply map_ext_in. intros [k x] Hin. simpl. symmetry.
    apply Hk. apply elem_of_map_to_list. apply list_elem_of_In. exact Hin.
Qed.
End SelectKeyed.

Lemma well_keyed_empty : well_keyed empty_db.
Proof.
  repeat split; intros k x H; simpl in H; rewrite lookup_empty in H; discriminate.
Qed.

Lemma well_keyed_store_measurements (l : list Measurement) (d : DB) :
  well_keyed d -> well_keyed (store_measurements l d).
Proof.
  intros (H1 & H2 & H3 & H4). repeat split; try assumption.
  apply (upsert_all_keyed measurement_key). exact H1.
Qed.

Lemma well_keyed_store_activity_summary (l : list ActivityDay) (d : DB) :
  well_keyed d -> well_keyed (store_activity_summary l d).
Proof.
  intros (H1 & H2 & H3 & H4). repeat split; try assumption.
  apply (upsert_all_keyed act_date). exact H2.
Qed.

Lemma well_keyed_store_sleep_summary (l : list SleepSession) (d : DB) :
  well_keyed d -> well_keyed (store_sleep_summary l d).
Proof.
  intros (H1 & H2 & H3 & H4). repeat split; try assumption.
  apply (upsert_all_keyed start_time). exact H3.
Qed.

Lemma well_keyed_store_heart_rate (l : list HeartRateSample) (d : DB) :
  well_keyed d -> well_keyed (store_heart_rate l d).
Proof.
  intros (H1 & H2 & H3 & H4). repeat split; try assumption.
  apply (upsert_all_keyed hr_timestamp). exact H4.
Qed.

Lemma well_keyed_update_sync_state (now : datetime) (data_type : string)
    (ts : option datetime) (status : string) (d : DB) :
  well_keyed d -> well_keyed (update_sync_state now data_type ts status d).
Proof. intros H. exact H. Qed.

(** X13. The range queries over measurements, sleep sessions and heart
    rates, on a database whose rows sit under their UNIQUE keys: a row is
    returned exactly when it is stored and its timestamp lies between the
    bounds that were given, both inclusive; no row is returned twice; the
    rows come in ascending order of the timestamp (strictly ascending for
    sleep sessions and heart rates, whose timestamp is the key); and
    without bounds the number of rows is the count [get_statistics]
    reports. *)
Theorem X13_time_range_queries (d : DB) (start_date end_date : option datetime) :
  well_keyed d ->
  let bounded ts :=
    (forall s, start_date = Some s -> s <= ts) /\
    (forall e, end_date = Some e -> ts <= e) in
  (forall m, In m (get_all_measurements start_date end_date d) <->
             measurements d !! measurement_key m = Some m /\
             bounded (ms_timestamp m)) /\
  Sorted (fun a b => ms_timestamp a <= ms_timestamp b)
    (get_all_measurements start_date end_date d) /\
  NoDup (get_all_measurements start_date end_date d) /\
  (forall x, In x (get_all_sleep start_date end_date d) <->
             sleep_summary d !! start_time x = Some x /\ bounded (start_time x)) /\
  StronglySorted (fun a b => start_time a < start_time b)
    (get_all_sleep start_date end_date d) /\
  (forall x, In x (get_all_heart_rate start_date end_date d) <->
             heart_rate_tbl d !! hr_timestamp x = Some x /\
             bounded (hr_timestamp x)) /\
  StronglySorted (fun a b => hr_timestamp a < hr_timestamp b)
    (get_all_heart_rate start_date end_date d) /\
  length (get_all_measurements None None d) = n_measurements (get_statistics d) /\
  length (get_all_sleep None None d) = n_sleep_summary (get_statistics d) /\
  length (get_all_heart_rate None None d) = n_heart_rate (get_statistics d).
Proof.
  intros (Hm & Ha & Hs & Hh) bounded.
  pose proof (select_ordered_keyed start_time
                (fun x => within start_date end_date (start_time x))
                (sleep_summary d) Hs) as [Hs1 Hs2].
  pose proof (select_ordered_keyed hr_timestamp
                (fun x => within start_date end_date (hr_timestamp x))
                (heart_rate_tbl d) Hh) as [Hh1 Hh2].
  split; [|split; [|split; [|split; [|split; [|split; [|split; [|split; [|split]]]]]]]].
  - intros m. unfold get_all_measurements. rewrite select_ordered_In.
    rewrite within_spec. split.
    + intros [Hb (k & Hk)]. split; [|exact Hb]. rewrite (Hm k m Hk). exact Hk.
    + intros [Hk Hb]. split; [exact Hb|]. eauto.
  - apply select_ordered_Sorted.
  - apply (select_ordered_NoDup measurement_key). exact Hm.
  - intros x. unfold get_all_sleep. rewrite Hs1, within_spec. reflexivity.
  - exact Hs2.
  - intros x. unfold get_all_heart_rate. rewrite Hh1, within_spec. reflexivity.
  - exact Hh2.
  - apply select_ordered_all_length. reflexivity.
  - apply select_ordered_all_length. reflexivity.
  - apply select_ordered_all_length. reflexivity.
Qed.

(** X14. [get_all_activity] cuts both bounds to their calendar day before
    comparing: a stored day is returned exactly when it lies between the
    day of the start bound and the day of the end bound, both inclusive,
    so the day of the end bound is returned whatever the bound's time of
    day. The days come in strictly ascending order, and without bounds
    their number is the count [get_statistics] reports. *)
Theorem X14_activity_query_compares_days (d : DB)
    (start_date end_date : option (datetime + date)) :
  well_keyed d ->
  (forall a, In a (get_all_activity start_date end_date d) <->
             activity_summary d !! act_date a = Some a /\
             (forall b, start_date = Some b -> day_of b <= act_date a) /\
             (forall b, end_date = Some b -> act_date a <= day_of b)) /\
  StronglySorted (fun a b => act_date a < act_date b)
    (get_all_activity start_date end_date d) /\
  (forall dt a, end_date = Some (inl dt) -> start_date = None ->
     activity_summary d !! date_of dt = Some a ->
     In a (get_all_activity start_date end_date d)) /\
  length (get_all_activity None None d) = n_activity_summary (get_statistics d).
Proof.
  intros (Hm & Ha & Hs & Hh).
  pose proof (select_ordered_keyed act_date
                (fun a => within (option_map day_of start_date)
                            (option_map day_of end_date) (act_date a))
                (activity_summary d) Ha) as [H1 H2].
  assert (Hin : forall a, In a (get_all_activity start_date end_date d) <->
             activity_summary d !! act_date a = Some a /\
             (forall b, start_date = Some b -> day_of b <= act_date a) /\
             (forall b, end_date = Some b -> act_date a <= day_of b)).
  { intros a. unfold get_all_activity. rewrite H1, within_spec.
    destruct start_date as [s|], end_date as [e|]; simpl; split;
      intros [Hk [Hlo Hhi]]; (split; [exact Hk|]); split; intros b Hb;
      try discriminate; injection Hb as <-;
      first [apply Hlo; reflexivity | apply Hhi; reflexivity]. }
  split; [exact Hin|]. split; [exact H2|]. split.
  - intros dt a -> -> Hk. apply Hin.
    rewrite (Ha _ _ Hk). split; [exact Hk|]. split; [discriminate|].
    intros b [= <-]. simpl. lia.
  - apply select_ordered_all_length. reflexivity.
Qed.

(** X15. The sync cursors are independent rows: [update_sync_state]
    replaces the row of its data type by one that carries the given
    timestamp and status and the current time as [last_sync] and
    [updated_at]; [get_sync_state] reads it back; the rows of the other
    data types and the four data tables are not touched; and a data type
    that was never updated has no row. *)
Theorem X15_sync_cursors_are_independent (now : datetime) (data_type other : string)
    (ts : option datetime) (status : string) (d : DB) :
  let d' := update_sync_state now data_type ts status d in
  get_sync_state data_type d' = Some (mkSyncRow now ts status now) /\
  (other <> data_type -> get_sync_state other d' = get_sync_state other d) /\
  measurements d' = measurements d /\
  activity_summary d' = activity_summary d /\
  sleep_summary d' = sleep_summary d /\
  heart_rate_tbl d' = heart_rate_tbl d /\
  get_statistics d' = get_statistics d /\
  get_sync_state other empty_db = None /\
  (forall now2 ts2 status2,
     update_sync_state now2 data_type ts2 status2 d'
     = update_sync_state now2 data_type ts2 status2 d).
Proof.
  intros d'. unfold d', get_sync_state, update_sync_state. simpl.
  split; [apply lookup_insert_eq|].
  split; [intros Hne; apply lookup_insert_ne; congruence|].
  repeat split.
  intros now2 ts2 status2. f_equal. apply insert_insert_eq.
Qed.


Lemma X13_time_range_queries_witness :
  In (Scenarios.hr_at Scenarios.new_year 60)
    (get_all_heart_rate (Some Scenarios.new_year) (Some Scenarios.new_year)
       Scenarios.db_heart_rates) /\
  ~ In (Scenarios.hr_at Scenarios.some_now 62)
      (get_all_heart_rate (Some Scenarios.new_year) (Some Scenarios.new_year)
         Scenarios.db_heart_rates).
Proof.
  assert (Hk : well_keyed Scenarios.db_heart_rates).
  { apply well_keyed_store_heart_rate. apply well_keyed_empty. }
  pose proof (proj1 (proj2 (proj2 (proj2 (proj2 (proj2
                (X13_time_range_queries Scenarios.db_heart_rates (Some Scenarios.new_year)
                   (Some Scenarios.new_year) Hk))))))) as Hin.
  split.
  - apply (proj2 (Hin (Scenarios.hr_at Scenarios.new_year 60))).
    split; [reflexivity|].
    split; intros b [= <-]; cbn [hr_timestamp Scenarios.hr_at]; lia.
  - intros H.
    destruct (proj1 (Hin (Scenarios.hr_at Scenarios.some_now 62)) H)
      as [_ [_ Hhi]].
    specialize (Hhi _ eq_refl). cbn [hr_timestamp Scenarios.hr_at] in Hhi.
    unfold Scenarios.some_now, Scenarios.new_year in Hhi. lia.
Defined.

Lemma X14_activity_query_compares_days_witness :
  In Scenarios.day_20654 (get_all_activity None (Some (inl Scenarios.noon_20654)) Scenarios.db_one_day).
Proof.
  refine (proj1 (proj2 (proj2
            (X14_activity_query_compares_days Scenarios.db_one_day None
               (Some (inl Scenarios.noon_20654)) _))) Scenarios.noon_20654 Scenarios.day_20654
            eq_refl eq_refl eq_refl).
  apply well_keyed_store_activity_summary. apply well_keyed_empty.
Defined.

Lemma X15_sync_cursors_are_independent_witness :
  get_sync_state "activity"
    (update_sync_state Scenarios.some_now "measurements" None "error"
       (db Scenarios.world_synced))
  = Some Scenarios.synced_row.
Proof.
  rewrite (proj1 (proj2 (X15_sync_cursors_are_independent Scenarios.some_now
                           "measurements" "activity" None "error"
                           (db Scenarios.world_synced)))).
  - reflexivity.
  - discriminate.
Defined.


(* ===================================================================== *)
(** * fetcher.py: what a fetch does to the database *)
(* ===================================================================== *)

Section FetcherTransitions.

Variable env : Env.

Lemma store_measurements_nil (d : DB) : store_measurements [] d = d.
Proof. destruct d. reflexivity. Qed.

Lemma store_heart_rate_nil (d : DB) : store_heart_rate [] d = d.
Proof. destruct d. reflexivity. Qed.

Lemma store_activity_summary_nil (d : DB) : store_activity_summary [] d = d.
Proof. destruct d. reflexivity. Qed.

Lemma store_sleep_summary_nil (d : DB) : store_sleep_summary [] d = d.
Proof. destruct d. reflexivity. Qed.

(** What the "store" parts do to the database. *)
Lemma persist_measurements_db (staged : Staged) (w : World) :
  exists ts,
    persist_measurements env staged w
    = (Ret tt, snd (persist_measurements env staged w)) /\
    db (snd (persist_measurements env staged w))
    = update_sync_state (now env) "measurements" ts "success"
        (store_heart_rate
           (match staged_measurements staged with
            | [] => []
            | _ :: _ => staged_heart_rates staged
            end)
           (store_measurements (staged_measurements staged) (db w))).
Proof.
  unfold persist_measurements.
  destruct (staged_measurements staged) as [|m ms] eqn:Hm.
  - exists None. split; [reflexivity|]. simpl.
    rewrite store_measurements_nil, store_heart_rate_nil. reflexivity.
  - exists (last_timestamp staged). unfold bind, storage_store_measurements.
    destruct (staged_heart_rates staged) as [|h hs] eqn:Hh.
    + split; [reflexivity|]. simpl. rewrite store_heart_rate_nil. reflexivity.
    + split; reflexivity.
Qed.

Lemma persist_activity_db (all : list ActivityDay) (w : World) :
  exists ts,
    persist_activity env all w = (Ret tt, snd (persist_activity env all w)) /\
    db (snd (persist_activity env all w))
    = update_sync_state (now env) "activity" ts "success"
        (store_activity_summary all (db w)).
Proof.
  unfold persist_activity. destruct all as [|a rest].
  - exists None. split; [reflexivity|]. simpl.
    rewrite store_activity_summary_nil. reflexivity.
  - eexists. split; reflexivity.
Qed.

Lemma persist_sleep_db (all : list SleepSession) (w : World) :
  exists ts,
    persist_sleep env all w = (Ret tt, snd (persist_sleep env all w)) /\
    db (snd (persist_sleep env all w))
    = update_sync_state (now env) "sleep" ts "success"
        (store_sleep_summary all (db w)).
Proof.
  unfold persist_sleep. destruct all as [|a rest].
  - exists None. split; [reflexivity|]. simpl.
    rewrite store_sleep_summary_nil. reflexivity.
  - eexists. split; reflexivity.
Qed.

Lemma on_fetch_error_db (data_type : string) (e : Exn) (w : World) :
  on_fetch_error env data_type e w = (Ret tt, snd (on_fetch_error env data_type e w)) /\
  db (snd (on_fetch_error env data_type e w))
  = update_sync_state (now env) data_type None "error" (db w).
Proof. split; reflexivity. Qed.

(** Without the capture nothing is staged for the heart-rate table. *)
Lemma collect_measurements_no_heart_rate (fuel : nat)
    (start_date end_date : option datetime) (w w1 : World) (staged : Staged) :
  collect_measurements fuel env start_date end_date false w = (Ret staged, w1) ->
  staged_heart_rates staged = [].
Proof.
  unfold collect_measurements, bind, storage_get_sync_state. intros Hp.
  apply (paginate_staged env false) in Hp as [[_ (l & Hl & Hnil)] _].
  simpl in Hl. rewrite Hl, Hnil; reflexivity.
Qed.

End FetcherTransitions.

Section FetcherTraces.

Variable env : Env.

Lemma paginate_collects (store_heart_rate : bool) (startdate_ts enddate_ts : option Z)
    (fuel : nat) :
  forall (offset : option Z) (seen : gset Z) (staged : Staged) (w : World),
    exists new,
      trace (snd (paginate fuel env store_heart_rate startdate_ts enddate_ts
                    offset seen staged w)) = (trace w ++ new)%list /\
      Forall (collects Measurements) new.
Proof.
  induction fuel as [|fuel IH]; intros offset seen staged w.
  { exists []. rewrite app_nil_r. split; [reflexivity|constructor]. }
  cbn [paginate]. unfold bind at 1. unfold call_get_measurements.
  destruct (get_measurements _ _ _ _ _ _) as [e|result].
  { eexists [_]. split; [reflexivity|]. repeat constructor. }
  unfold bind at 1.
  destruct (for_each _ staged (measuregrps result)) as [e|staged'].
  { eexists [_]. split; [reflexivity|]. repeat constructor. }
  cbn [lift ret]. destruct (negb (more result)).
  { eexists [_]. split; [reflexivity|]. repeat constructor. }
  destruct (Fetcher.offset result) as [o|].
  2:{ eexists [_; _]. unfold bind, log, ret. simpl. rewrite <- app_assoc.
      split; [reflexivity|]. repeat constructor. }
  destruct (decide (o ∈ seen)).
  { eexists [_; _]. unfold bind, log, ret. simpl. rewrite <- app_assoc.
    split; [reflexivity|]. repeat constructor. }
  match goal with
  | |- context [paginate fuel env ?h ?a ?b ?o' ?s' ?st' ?w'] =>
      destruct (IH o' s' st' w') as (new & Hnew & Hall)
  end.
  rewrite Hnew. simpl. eexists (_ :: new). rewrite <- app_assoc.
  split; [reflexivity|]. constructor; [reflexivity|exact Hall].
Qed.

Lemma collect_measurements_collects (fuel : nat)
    (start_date end_date : option datetime) (store_heart_rate : bool) (w : World) :
  exists new,
    trace (snd (collect_measurements fuel env start_date end_date
                  store_heart_rate w)) = (trace w ++ new)%list /\
    Forall (collects Measurements) new.
Proof.
  unfold collect_measurements, bind, storage_get_sync_state. apply paginate_collects.
Qed.

Lemma chunk_loop_collects {R : Type} (dt : DataType)
    (chunk : list R -> string -> string -> M (list R)) :
  (forall all s e w, exists new,
      trace (snd (chunk all s e w)) = (trace w ++ new)%list /\
      Forall (collects dt) new) ->
  forall (fuel : nat) (current_date end_date : datetime) (all : list R) (w : World),
    exists new,
      trace (snd (chunk_loop fuel chunk current_date end_date all w))
      = (trace w ++ new)%list /\
      Forall (collects dt) new.
Proof.
  intros Hchunk. induction fuel as [|fuel IH]; intros cur stop all w.
  { exists []. rewrite app_nil_r. split; [reflexivity|constructor]. }
  cbn [chunk_loop]. destruct (cur <? stop).
  2:{ exists []. rewrite app_nil_r. split; [reflexivity|constructor]. }
  unfold bind at 1. unfold log at 1. unfold bind at 1. unfold try_except at 1.
  match goal with
  | |- context [chunk ?a ?s ?e ?w0] =>
      destruct (Hchunk a s e w0) as (new1 & H1 & Hall1);
      destruct (chunk a s e w0) as [[x|ex|] w1]
  end; simpl in H1.
  - destruct (IH (Z.min (cur + timedelta_days MAX_DAYS_PER_REQUEST) stop) stop x w1)
      as (new2 & H2 & Hall2).
    rewrite H2, H1. eexists (_ :: new1 ++ new2)%list.
    split; [rewrite <- !app_assoc; reflexivity|].
    constructor; [exact I|]. apply Forall_app. split; assumption.
  - destruct (is_WithingsAPIError ex).
    + unfold bind at 1. unfold log at 1. cbn [ret].
      match goal with
      | |- context [chunk_loop fuel chunk ?c ?s ?a ?w2] =>
          destruct (IH c s a w2) as (new2 & H2 & Hall2)
      end.
      rewrite H2. simpl. rewrite H1.
      eexists (_ :: new1 ++ _ :: new2)%list.
      split; [rewrite <- !app_assoc; reflexivity|].
      constructor; [exact I|]. apply Forall_app. split; [assumption|].
      constructor; [exact I|assumption].
    + unfold raise. simpl. rewrite H1. eexists (_ :: new1).
      split; [rewrite <- !app_assoc; reflexivity|].
      constructor; [exact I|assumption].
  - simpl. rewrite H1. eexists (_ :: new1).
    split; [rewrite <- !app_assoc; reflexivity|].
    constructor; [exact I|assumption].
Qed.

Lemma activity_chunk_collects (all : list ActivityDay) (s e : string) (w : World) :
  exists new,
    trace (snd (activity_chunk env all s e w)) = (trace w ++ new)%list /\
    Forall (collects Activity) new.
Proof.
  unfold activity_chunk, bind, call_get_activity.
  destruct (get_activity _ _ _ _).
  - eexists [_]. split; [reflexivity|]. repeat constructor.
  - destruct (parse_all _ _ _); eexists [_]; (split; [reflexivity|]);
      repeat constructor.
Qed.

Lemma sleep_chunk_collects (all : list SleepSession) (s e : string) (w : World) :
  exists new,
    trace (snd (sleep_chunk env all s e w)) = (trace w ++ new)%list /\
    Forall (collects Sleep) new.
Proof.
  unfold sleep_chunk, bind, call_get_sleep_summary.
  destruct (get_sleep_summary _ _ _ _ _).
  - eexists [_]. split; [reflexivity|]. repeat constructor.
  - destruct (parse_all _ _ _); eexists [_]; (split; [reflexivity|]);
      repeat constructor.
Qed.

Lemma collect_activity_collects (start_date end_date : option datetime) (w : World) :
  exists new,
    trace (snd (collect_activity env start_date end_date w)) = (trace w ++ new)%list /\
    Forall (collects Activity) new.
Proof.
  unfold collect_activity, bind, storage_get_sync_state.
  destruct (chunk_range _ _ _ _) as [s e].
  apply (chunk_loop_collects Activity (activity_chunk env) activity_chunk_collects).
Qed.

Lemma collect_sleep_collects (start_date end_date : option datetime) (w : World) :
  exists new,
    trace (snd (collect_sleep env start_date end_date w)) = (trace w ++ new)%list /\
    Forall (collects Sleep) new.
Proof.
  unfold collect_sleep, bind, storage_get_sync_state.
  destruct (chunk_range _ _ _ _) as [s e].
  apply (chunk_loop_collects Sleep (sleep_chunk env) sleep_chunk_collects).
Qed.

End FetcherTraces.

Section Grows.

Lemma keeps_refl {K V : Type} `{Countable K} (t : gmap K V) : keeps t t.
Proof. split; [auto|lia]. Qed.

Lemma keeps_trans {K V : Type} `{Countable K} (t1 t2 t3 : gmap K V) :
  keeps t1 t2 -> keeps t2 t3 -> keeps t1 t3.
Proof. intros [H1 S1] [H2 S2]. split; [auto|lia]. Qed.

Lemma keeps_upsert_all {K V : Type} `{Countable K} (key : V -> K) (l : list V)
    (t : gmap K V) :
  keeps t (foldl (insert_or_replace key) t l).
Proof.
  split.
  - intros k Hk. rewrite (upsert_all_lookup key).
    destruct (last_with key k l); [eauto|exact Hk].
  - apply (upsert_all_size key).
Qed.

Lemma keeps_insert {K V : Type} `{Countable K} (k : K) (x : V) (t : gmap K V) :
  keeps t (<[k := x]> t).
Proof.
  split.
  - intros k' Hk'. destruct (decide (k = k')) as [<-|Hne].
    + rewrite lookup_insert_eq. eauto.
    + rewrite lookup_insert_ne by exact Hne. exact Hk'.
  - rewrite map_size_insert. destruct (t !! k); simpl; lia.
Qed.

Lemma grows_refl (d : DB) : grows d d.
Proof.
  unfold grows.
  split; [apply keeps_refl|]. split; [apply keeps_refl|].
  split; [apply keeps_refl|]. split; [apply keeps_refl|].
  split; [apply keeps_refl|]. intros Hk. exact Hk.
Qed.

Lemma grows_trans (d1 d2 d3 : DB) : grows d1 d2 -> grows d2 d3 -> grows d1 d3.
Proof.
  intros (A1 & A2 & A3 & A4 & A5 & A6) (B1 & B2 & B3 & B4 & B5 & B6).
  unfold grows.
  split; [eapply keeps_trans; eassumption|].
  split; [eapply keeps_trans; eassumption|].
  split; [eapply keeps_trans; eassumption|].
  split; [eapply keeps_trans; eassumption|].
  split; [eapply keeps_trans; eassumption|].
  intros Hk. apply B6. apply A6. exact Hk.
Qed.

Lemma grows_store_measurements (l : list Measurement) (d : DB) :
  grows d (store_measurements l d).
Proof.
  unfold grows. simpl.
  split; [apply (keeps_upsert_all measurement_key)|].
  split; [apply keeps_refl|]. split; [apply keeps_refl|].
  split; [apply keeps_refl|]. split; [apply keeps_refl|].
  apply well_keyed_store_measurements.
Qed.

Lemma grows_store_heart_rate (l : list HeartRateSample) (d : DB) :
  grows d (store_heart_rate l d).
Proof.
  unfold grows. simpl.
  split; [apply keeps_refl|]. split; [apply keeps_refl|].
  split; [apply keeps_refl|].
  split; [apply (keeps_upsert_all hr_timestamp)|]. split; [apply keeps_refl|].
  apply well_keyed_store_heart_rate.
Qed.

Lemma grows_store_activity_summary (l : list ActivityDay) (d : DB) :
  grows d (store_activity_summary l d).
Proof.
  unfold grows. simpl.
  split; [apply keeps_refl|].
  split; [apply (keeps_upsert_all act_date)|].
  split; [apply keeps_refl|]. split; [apply keeps_refl|].
  split; [apply keeps_refl|].
  apply well_keyed_store_activity_summary.
Qed.

Lemma grows_store_sleep_summary (l : list SleepSession) (d : DB) :
  grows d (store_sleep_summary l d).
Proof.
  unfold grows. simpl.
  split; [apply keeps_refl|]. split; [apply keeps_refl|].
  split; [apply (keeps_upsert_all start_time)|].
  split; [apply keeps_refl|]. split; [apply keeps_refl|].
  apply well_keyed_store_sleep_summary.
Qed.

Lemma grows_update_sync_state (now : datetime) (data_type : string)
    (ts : option datetime) (status : string) (d : DB) :
  grows d (update_sync_state now data_type ts status d).
Proof.
  unfold grows. simpl.
  split; [apply keeps_refl|]. split; [apply keeps_refl|].
  split; [apply keeps_refl|]. split; [apply keeps_refl|].
  split; [apply keeps_insert|]. intros Hk. exact Hk.
Qed.

End Grows.

Section FetchShape.

Variable env : Env.

Lemma fetch_of_unfold (dt : DataType) (fuel : nat)
    (start_date end_date : option datetime) (store_heart_rate : bool) :
  fetch_of dt fuel env start_date end_date store_heart_rate
  = try_except (fetch_body_of dt fuel env start_date end_date store_heart_rate)
      (on_fetch_error env (data_type_name dt)).
Proof. destruct dt; reflexivity. Qed.

(** The shape of a "collect, then store" block. *)
Lemma collect_persist_shape {A : Type} (dt : DataType) (collect : M A)
    (persist : A -> M unit) (stored : A -> DB -> DB) (w : World) :
  (forall w0, db (snd (collect w0)) = db w0) ->
  (forall w0, exists new,
      trace (snd (collect w0)) = (trace w0 ++ new)%list /\ Forall (collects dt) new) ->
  (forall x w0, exists ts,
      persist x w0 = (Ret tt, snd (persist x w0)) /\
      db (snd (persist x w0))
      = update_sync_state (now env) (data_type_name dt) ts "success" (stored x (db w0))) ->
  (forall x w0, exists new,
      trace (snd (persist x w0)) = (trace w0 ++ new)%list /\ api_calls new = []) ->
  exists new1, Forall (collects dt) new1 /\
    match bind collect persist w with
    | (Ret _, w1) =>
        exists new2 ts x,
          trace w1 = (trace w ++ new1 ++ new2)%list /\ api_calls new2 = [] /\
          db w1 = update_sync_state (now env) (data_type_name dt) ts "success"
                    (stored x (db w)) /\
          fst (collect w) = Ret x
    | (_, w1) => trace w1 = (trace w ++ new1)%list /\ db w1 = db w
    end.
Proof.
  intros Hdb Htrace Hpdb Hptrace. unfold bind.
  specialize (Hdb w). destruct (Htrace w) as (new1 & Ht & Hall).
  exists new1. split; [exact Hall|].
  destruct (collect w) as [[x|e|] w0]; simpl in Hdb, Ht.
  - destruct (Hpdb x w0) as (ts & Hrun & Hd).
    destruct (Hptrace x w0) as (new2 & Ht2 & Hc2).
    rewrite Hrun. exists new2, ts, x.
    rewrite Ht2, Ht, Hd, Hdb, <- app_assoc. repeat split; assumption.
  - split; assumption.
  - split; assumption.
Qed.

Lemma fetch_body_shape (dt : DataType) (fuel : nat)
    (start_date end_date : option datetime) (store_heart_rate : bool) (w : World) :
  exists new1, Forall (collects dt) new1 /\
    match fetch_body_of dt fuel env start_date end_date store_heart_rate w with
    | (Ret _, w1) =>
        exists new2 ts d1,
          trace w1 = (trace w ++ new1 ++ new2)%list /\ api_calls new2 = [] /\
          db w1 = update_sync_state (now env) (data_type_name dt) ts "success" d1 /\
          stored_batches dt store_heart_rate (db w) d1
    | (_, w1) => trace w1 = (trace w ++ new1)%list /\ db w1 = db w
    end.
Proof.
  destruct dt; simpl fetch_body_of.
  - destruct (collect_persist_shape Measurements
                (collect_measurements fuel env start_date end_date store_heart_rate)
                (persist_measurements env)
                (fun st d =>
                   Storage.store_heart_rate
                     (match staged_measurements st with
                      | [] => []
                      | _ :: _ => staged_heart_rates st
                      end)
                     (store_measurements (staged_measurements st) d)) w)
      as (new1 & Hall & Hshape).
    + intros w0. apply collect_measurements_db.
    + intros w0. apply collect_measurements_collects.
    + intros x w0. apply persist_measurements_db.
    + intros x w0. destruct (persist_measurements_trace env x w0) as (new & H1 & H2).
      eauto.
    + exists new1. split; [exact Hall|].
      unfold fetch_measurements_body.
      destruct (bind _ _ w) as [[[]|e|] w1]; [|exact Hshape|exact Hshape].
      destruct Hshape as (new2 & ts & x & Ht & Hc & Hd & Hx).
      exists new2, ts. eexists. repeat split; try eassumption.
      simpl. eexists. eexists. split; [|reflexivity].
      intros ->.
      assert (Hnone : staged_heart_rates x = []).
      { destruct (collect_measurements fuel env start_date end_date false w)
          as [o w0] eqn:Hcol. simpl in Hx. subst o.
        eapply collect_measurements_no_heart_rate. exact Hcol. }
      rewrite Hnone. destruct (staged_measurements x); reflexivity.
  - destruct (collect_persist_shape Activity
                (collect_activity env start_date end_date) (persist_activity env)
                store_activity_summary w) as (new1 & Hall & Hshape).
    + intros w0. apply collect_activity_db.
    + intros w0. apply collect_activity_collects.
    + intros x w0. apply persist_activity_db.
    + intros x w0. destruct (persist_activity_trace env x w0) as (new & H1 & H2 & _).
      eauto.
    + exists new1. split; [exact Hall|].
      unfold fetch_activity_body.
      destruct (bind _ _ w) as [[[]|e|] w1]; [|exact Hshape|exact Hshape].
      destruct Hshape as (new2 & ts & x & Ht & Hc & Hd & Hx).
      exists new2, ts. eexists. repeat split; try eassumption.
      simpl. eexists. reflexivity.
  - destruct (collect_persist_shape Sleep
                (collect_sleep env start_date end_date) (persist_sleep env)
                store_sleep_summary w) as (new1 & Hall & Hshape).
    + intros w0. apply collect_sleep_db.
    + intros w0. apply collect_sleep_collects.
    + intros x w0. apply persist_sleep_db.
    + intros x w0. destruct (persist_sleep_trace env x w0) as (new & H1 & H2 & _).
      eauto.
    + exists new1. split; [exact Hall|].
      unfold fetch_sleep_body.
      destruct (bind _ _ w) as [[[]|e|] w1]; [|exact Hshape|exact Hshape].
      destruct Hshape as (new2 & ts & x & Ht & Hc & Hd & Hx).
      exists new2, ts. eexists. repeat split; try eassumption.
      simpl. eexists. reflexivity.
Qed.

End FetchShape.

Section FetchEffects.

Variable env : Env.

Lemma fetch_of_effect (dt : DataType) (fuel : nat)
    (start_date end_date : option datetime) (store_heart_rate : bool) (w : World) :
  let run := fetch_of dt fuel env start_date end_date store_heart_rate w in
  exists new1 new2,
    trace (snd run) = (trace w ++ new1 ++ new2)%list /\
    Forall (collects dt) new1 /\ api_calls new2 = [] /\
    fetch_step env dt store_heart_rate (db w) (db (snd run)).
Proof.
  intros run. subst run. rewrite fetch_of_unfold. unfold try_except.
  destruct (fetch_body_shape env dt fuel start_date end_date store_heart_rate w)
    as (new1 & Hall & Hshape).
  destruct (fetch_body_of dt fuel env start_date end_date store_heart_rate w)
    as [[[]|e|] w1].
  - destruct Hshape as (new2 & ts & d1 & Ht & Hc & Hd & Hs).
    exists new1, new2. split; [exact Ht|]. split; [exact Hall|].
    split; [exact Hc|].
    right. exists ts, "success", d1. split; assumption.
  - destruct Hshape as [Ht Hd].
    exists new1,
      [EvError ("Error fetching " ++ data_type_name dt);
       EvUpdateSyncState (data_type_name dt) None "error"].
    split; [simpl; rewrite Ht, <- !app_assoc; reflexivity|].
    split; [exact Hall|]. split; [reflexivity|].
    right. exists None, "error", (db w). simpl. rewrite Hd. split; [reflexivity|].
    destruct dt; simpl.
    + exists [], []. split; [reflexivity|].
      rewrite store_measurements_nil, store_heart_rate_nil. reflexivity.
    + exists []. rewrite store_activity_summary_nil. reflexivity.
    + exists []. rewrite store_sleep_summary_nil. reflexivity.
  - destruct Hshape as [Ht Hd].
    exists new1, []. simpl. rewrite Ht, Hd, app_nil_r.
    split; [reflexivity|]. split; [exact Hall|]. split; [reflexivity|].
    left. reflexivity.
Qed.

Lemma data_type_name_inj (dt dt' : DataType) :
  data_type_name dt = data_type_name dt' -> dt = dt'.
Proof. destruct dt, dt'; simpl; intros H; try reflexivity; discriminate. Qed.

Lemma fetch_step_grows (dt : DataType) (shr : bool) (d d' : DB) :
  fetch_step env dt shr d d' -> grows d d'.
Proof.
  intros [->|(ts & st & d1 & -> & Hs)]; [apply grows_refl|].
  eapply grows_trans; [|apply grows_update_sync_state].
  destruct dt; simpl in Hs.
  - destruct Hs as (ms & hrs & _ & ->).
    eapply grows_trans; [apply grows_store_measurements|apply grows_store_heart_rate].
  - destruct Hs as (days & ->). apply grows_store_activity_summary.
  - destruct Hs as (nights & ->). apply grows_store_sleep_summary.
Qed.

Lemma fetch_step_frame (dt dt' : DataType) (shr : bool) (d d' : DB) :
  fetch_step env dt shr d d' -> dt' <> dt ->
  same_table dt' d d' /\
  get_sync_state (data_type_name dt') d' = get_sync_state (data_type_name dt') d.
Proof.
  intros [->|(ts & st & d1 & -> & Hs)] Hne.
  { split; [destruct dt'; reflexivity|reflexivity]. }
  assert (Hcur : get_sync_state (data_type_name dt')
                   (update_sync_state (now env) (data_type_name dt) ts st d1)
                 = get_sync_state (data_type_name dt') d1).
  { unfold get_sync_state, update_sync_state. simpl. apply lookup_insert_ne.
    intros Heq. apply Hne. symmetry. apply data_type_name_inj. exact Heq. }
  rewrite Hcur. clear Hcur.
  destruct dt; simpl in Hs.
  - destruct Hs as (ms & hrs & _ & ->).
    destruct dt'; [contradiction| |]; split; reflexivity.
  - destruct Hs as (days & ->).
    destruct dt'; [|contradiction|]; split; reflexivity.
  - destruct Hs as (nights & ->).
    destruct dt'; [| |contradiction]; split; reflexivity.
Qed.

Lemma fetch_step_heart_rate (dt : DataType) (shr : bool) (d d' : DB) :
  fetch_step env dt shr d d' -> dt <> Measurements \/ shr = false ->
  heart_rate_tbl d' = heart_rate_tbl d.
Proof.
  intros [->|(ts & st & d1 & -> & Hs)] Hcase; [reflexivity|].
  destruct dt; simpl in Hs.
  - destruct Hs as (ms & hrs & Hnone & ->).
    destruct Hcase as [Hc|Hc]; [contradiction|]. rewrite (Hnone Hc). reflexivity.
  - destruct Hs as (days & ->). reflexivity.
  - destruct Hs as (nights & ->). reflexivity.
Qed.

(** A fetch that only runs when its data type is enabled. *)
Lemma optional_fetch_effect (dt : DataType) (is_enabled : bool) (fuel : nat)
    (start_date end_date : option datetime) (store_heart_rate : bool) (w : World) :
  let run :=
    (if is_enabled
     then fetch_of dt fuel env start_date end_date store_heart_rate
     else ret tt) w in
  exists new,
    trace (snd run) = (trace w ++ new)%list /\
    Forall (fun c => call_type c = dt) (api_calls new) /\
    (is_enabled = false -> new = [] /\ db (snd run) = db w) /\
    fetch_step env dt store_heart_rate (db w) (db (snd run)).
Proof.
  intros run. subst run. destruct is_enabled.
  - destruct (fetch_of_effect dt fuel start_date end_date store_heart_rate w)
      as (new1 & new2 & Ht & Hall & Hc & Hstep).
    exists (new1 ++ new2)%list. split; [exact Ht|].
    split; [|split; [discriminate|exact Hstep]].
    rewrite api_calls_app, Hc, app_nil_r.
    clear Ht. induction Hall as [|ev l Hev Hl IH]; [constructor|].
    destruct ev; simpl; try exact IH. constructor; [exact Hev|exact IH].
  - exists []. simpl. rewrite app_nil_r. split; [reflexivity|].
    split; [exact (List.Forall_nil _)|]. split; [intros _; split; reflexivity|].
    left. reflexivity.
Qed.

Lemma fetch_all_data_effect (fuel : nat) (start_date end_date : option datetime)
    (data_types : option (gmap string bool)) (w : World) :
  let types := effective_data_types data_types in
  let shr := enabled types "heart_rate" true in
  let w' := snd (fetch_all_data fuel env start_date end_date data_types w) in
  exists nm na ns d1 d2,
    trace w' = (trace w ++ nm ++ na ++ ns)%list /\
    Forall (fun c => call_type c = Measurements) (api_calls nm) /\
    Forall (fun c => call_type c = Activity) (api_calls na) /\
    Forall (fun c => call_type c = Sleep) (api_calls ns) /\
    (enabled types "measurements" false = false -> nm = [] /\ d1 = db w) /\
    (enabled types "activity" false = false -> na = [] /\ d2 = d1) /\
    (enabled types "sleep" false = false -> ns = [] /\ db w' = d2) /\
    fetch_step env Measurements shr (db w) d1 /\
    fetch_step env Activity shr d1 d2 /\
    fetch_step env Sleep shr d2 (db w').
Proof.
  intros types shr w'. subst w'.
  destruct (fetch_all_data fuel env start_date end_date data_types w)
    as [out w'] eqn:Hrun. cbn [snd].
  unfold fetch_all_data in Hrun. fold types in Hrun. fold shr in Hrun.
  set (stop := effective_end_date env end_date) in Hrun.
  destruct (optional_fetch_effect Measurements (enabled types "measurements" false)
              fuel start_date stop shr w) as (nm & Htm & Hcm & Hdm & Hsm).
  cbn [fetch_of] in *.
  unfold bind at 1 in Hrun.
  revert Htm Hdm Hsm Hrun.
  destruct ((if enabled types "measurements" false
             then fetch_measurements fuel env start_date stop shr
             else ret tt) w) as [[[]|e|] w1]; cbn [fst snd]; intros Htm Hdm Hsm Hrun.
  2,3: (injection Hrun as _ <-;
        exists nm, [], [], (db w1), (db w1); rewrite !app_nil_r;
        split; [exact Htm|]; split; [exact Hcm|];
        split; [exact (List.Forall_nil _)|]; split; [exact (List.Forall_nil _)|];
        split; [exact Hdm|];
        split; [intros _; split; reflexivity|];
        split; [intros _; split; reflexivity|];
        split; [exact Hsm|]; split; left; reflexivity).
  destruct (optional_fetch_effect Activity (enabled types "activity" false)
              fuel start_date stop shr w1) as (na & Hta & Hca & Hda & Hsa).
  cbn [fetch_of] in *.
  unfold bind at 1 in Hrun.
  revert Hta Hda Hsa Hrun.
  destruct ((if enabled types "activity" false
             then fetch_activity env start_date stop
             else ret tt) w1) as [[[]|e|] w2]; cbn [fst snd]; intros Hta Hda Hsa Hrun.
  2,3: (injection Hrun as _ <-;
        exists nm, na, [], (db w1), (db w2); rewrite !app_nil_r;
        split; [rewrite Hta, Htm, <- app_assoc; reflexivity|];
        split; [exact Hcm|]; split; [exact Hca|];
        split; [exact (List.Forall_nil _)|];
        split; [exact Hdm|];
        split; [exact Hda|];
        split; [intros _; split; reflexivity|];
        split; [exact Hsm|]; split; [exact Hsa|]; left; reflexivity).
  destruct (optional_fetch_effect Sleep (enabled types "sleep" false)
              fuel start_date stop shr w2) as (ns & Hts & Hcs & Hds & Hss).
  cbn [fetch_of] in *. rewrite Hrun in Hts, Hds, Hss. cbn [snd] in Hts, Hds, Hss.
  exists nm, na, ns, (db w1), (db w2).
  split; [rewrite Hts, Hta, Htm, <- !app_assoc; reflexivity|].
  split; [exact Hcm|]. split; [exact Hca|]. split; [exact Hcs|].
  split; [exact Hdm|]. split; [exact Hda|]. split; [exact Hds|].
  split; [exact Hsm|]. split; [exact Hsa|]. exact Hss.
Qed.

End FetchEffects.




(** X17. [fetch_all_data] keeps to the selection it is given. Its API calls
    come in three runs: those of the measurements, then those of the
    activity, then those of the sleep, and the run of a data type that is
    not enabled is empty. The table and the cursor of a data type that is
    not enabled are not touched, and the heart-rate table is not touched
    when the measurements or the heart-rate capture are off. An empty
    dictionary selects what [None] selects: every data type. *)
Theorem X17_fetch_all_data_keeps_to_the_selection (fuel : nat) (env : Env)
    (start_date end_date : option datetime)
    (data_types : option (gmap string bool)) (w : World) :
  let types := effective_data_types data_types in
  let w' := snd (fetch_all_data fuel env start_date end_date data_types w) in
  (exists cm ca cs,
     api_calls (new_events w w') = (cm ++ ca ++ cs)%list /\
     Forall (fun c => call_type c = Measurements) cm /\
     Forall (fun c => call_type c = Activity) ca /\
     Forall (fun c => call_type c = Sleep) cs /\
     (enabled types "measurements" false = false -> cm = []) /\
     (enabled types "activity" false = false -> ca = []) /\
     (enabled types "sleep" false = false -> cs = [])) /\
  (forall dt, enabled types (data_type_name dt) false = false ->
     same_table dt (db w) (db w') /\
     get_sync_state (data_type_name dt) (db w')
     = get_sync_state (data_type_name dt) (db w)) /\
  (enabled types "measurements" false = false \/
   enabled types "heart_rate" true = false ->
   heart_rate_tbl (db w') = heart_rate_tbl (db w)) /\
  (data_types = None \/ data_types = Some ∅ -> types = all_data_types).
Proof.
  intros types w'.
  destruct (fetch_all_data_effect env fuel start_date end_date data_types w)
    as (nm & na & ns & d1 & d2 & Ht & Hcm & Hca & Hcs & Hm & Ha & Hs
        & Sm & Sa & Ss).
  fold types in Hm, Ha, Hs, Sm, Sa, Ss. fold w' in Ht, Hs, Ss.
  split; [|split; [|split]].
  - exists (api_calls nm), (api_calls na), (api_calls ns).
    rewrite (new_events_app w w' _ Ht), !api_calls_app.
    split; [reflexivity|]. split; [exact Hcm|]. split; [exact Hca|].
    split; [exact Hcs|].
    split; [intros H; destruct (Hm H) as [-> _]; reflexivity|].
    split; [intros H; destruct (Ha H) as [-> _]; reflexivity|].
    intros H; destruct (Hs H) as [-> _]; reflexivity.
  - intros dt Hoff. destruct dt; simpl in Hoff.
    + destruct (Hm Hoff) as [_ ->].
      destruct (fetch_step_frame env Activity Measurements _ _ _ Sa) as [T1 C1];
        [discriminate|].
      destruct (fetch_step_frame env Sleep Measurements _ _ _ Ss) as [T2 C2];
        [discriminate|].
      simpl in *. split; congruence.
    + destruct (Ha Hoff) as [_ ->].
      destruct (fetch_step_frame env Measurements Activity _ _ _ Sm) as [T1 C1];
        [discriminate|].
      destruct (fetch_step_frame env Sleep Activity _ _ _ Ss) as [T2 C2];
        [discriminate|].
      simpl in *. split; congruence.
    + destruct (Hs Hoff) as [_ Hd]. rewrite Hd.
      destruct (fetch_step_frame env Measurements Sleep _ _ _ Sm) as [T1 C1];
        [discriminate|].
      destruct (fetch_step_frame env Activity Sleep _ _ _ Sa) as [T2 C2];
        [discriminate|].
      simpl in *. split; congruence.
  - intros Hoff.
    rewrite (fetch_step_heart_rate env Sleep _ _ _ Ss) by (left; discriminate).
    rewrite (fetch_step_heart_rate env Activity _ _ _ Sa) by (left; discriminate).
    destruct Hoff as [Hoff|Hoff].
    + destruct (Hm Hoff) as [_ ->]. reflexivity.
    + apply (fetch_step_heart_rate env Measurements _ _ _ Sm). right. exact Hoff.
  - intros [->| ->]; reflexivity.
Qed.

(** X18. A sync never deletes: after [fetch_all_data], whatever the vendor
    answered, every key that had a row in one of the four data tables or a
    cursor still has one, so no count of [get_statistics] has gone down;
    and when every row sat under its UNIQUE key before, every row does so
    afterwards. *)
Theorem X18_sync_never_deletes (fuel : nat) (env : Env)
    (start_date end_date : option datetime)
    (data_types : option (gmap string bool)) (w : World) :
  let d := db w in
  let d' := db (snd (fetch_all_data fuel env start_date end_date data_types w)) in
  (forall k, is_Some (measurements d !! k) -> is_Some (measurements d' !! k)) /\
  (forall k, is_Some (activity_summary d !! k) -> is_Some (activity_summary d' !! k)) /\
  (forall k, is_Some (sleep_summary d !! k) -> is_Some (sleep_summary d' !! k)) /\
  (forall k, is_Some (heart_rate_tbl d !! k) -> is_Some (heart_rate_tbl d' !! k)) /\
  (forall data_type, is_Some (get_sync_state data_type d) ->
                     is_Some (get_sync_state data_type d')) /\
  (n_measurements (get_statistics d) <= n_measurements (get_statistics d'))%nat /\
  (n_activity_summary (get_statistics d)
   <= n_activity_summary (get_statistics d'))%nat /\
  (n_sleep_summary (get_statistics d) <= n_sleep_summary (get_statistics d'))%nat /\
  (n_heart_rate (get_statistics d) <= n_heart_rate (get_statistics d'))%nat /\
  (well_keyed d -> well_keyed d').
Proof.
  intros d d'.
  destruct (fetch_all_data_effect env fuel start_date end_date data_types w)
    as (nm & na & ns & d1 & d2 & _ & _ & _ & _ & _ & _ & _ & Sm & Sa & Ss).
  assert (Hg : grows d d').
  { eapply grows_trans; [eapply fetch_step_grows; exact Sm|].
    eapply grows_trans; [eapply fetch_step_grows; exact Sa|].
    eapply fetch_step_grows. exact Ss. }
  destruct Hg as ([K1 S1] & [K2 S2] & [K3 S3] & [K4 S4] & [K5 S5] & Hk).
  split; [exact K1|]. split; [exact K2|]. split; [exact K3|]. split; [exact K4|].
  split; [exact K5|]. split; [exact S1|]. split; [exact S2|]. split; [exact S3|].
  split; [exact S4|exact Hk].
Qed.
Lemma X17_fetch_all_data_keeps_to_the_selection_witness :
  let w' := snd (fetch_all_data 10 Scenarios.env_two_pages None None
                   (Some Scenarios.only_activity) Scenarios.world_synced) in
  measurements (db w') = ∅ /\
  get_sync_state "measurements" (db w') = Some Scenarios.synced_row /\
  heart_rate_tbl (db w') = ∅.
Proof.
  intros w'.
  pose proof (X17_fetch_all_data_keeps_to_the_selection 10 Scenarios.env_two_pages
                None None (Some Scenarios.only_activity) Scenarios.world_synced)
    as (_ & Hoff & Hhr & _).
  destruct (Hoff Measurements eq_refl) as [Ht Hc].
  split; [exact Ht|]. split; [exact Hc|].
  apply Hhr. left. reflexivity.
Defined.

Lemma X18_sync_never_deletes_witness :
  is_Some (get_sync_state "sleep"
             (db (snd (fetch_all_data 10 Scenarios.env_auth_failure None None None
                         Scenarios.world_synced)))).
Proof.
  refine (proj1 (proj2 (proj2 (proj2 (proj2
            (X18_sync_never_deletes 10 Scenarios.env_auth_failure None None None
               Scenarios.world_synced))))) "sleep" _).
  eexists. reflexivity.
Defined.

(** * fetcher.py: names and units of measurements, sleep sessions *)

Lemma str_Z_inj (a b : Z) : str_Z a = str_Z b -> a = b.
Proof.
  unfold str_Z. intros H.
  assert (Hn : forall n, Z.to_int n <> Decimal.Pos Decimal.Nil /\
                         Z.to_int n <> Decimal.Neg Decimal.Nil).
  { intros [|p|p]; simpl; split; try discriminate;
      intros [= Hp]; exact (Unsigned.to_uint_nonnil p Hp). }
  apply DecimalZ.to_int_inj.
  assert (Hs : Some (Z.to_int a) = Some (Z.to_int b)).
  { rewrite <- (NilZero.isi (Z.to_int a)) by apply Hn.
    rewrite <- (NilZero.isi (Z.to_int b)) by apply Hn.
    rewrite H. reflexivity. }
  injection Hs as Hs. exact Hs.
Qed.

Lemma lookup_table_Some (table : list (Z * string)) (k : Z) (v : string) :
  lookup_table table k = Some v -> In (k, v) table.
Proof.
  induction table as [|[k' v'] table IH]; simpl; [discriminate|].
  destruct (Z.eqb_spec k' k) as [->|Hne].
  - intros [= ->]. left. reflexivity.
  - intros H. right. apply IH. exact H.
Qed.

Lemma known_name_is_not_unknown (k n : Z) (v : string) :
  In (k, v) measure_map -> v <> "unknown_" ++ str_Z n.
Proof.
  intros Hin Heq. simpl in Hin.
  repeat (destruct Hin as [[= <- <-]|Hin]; [discriminate Heq|]).
  destruct Hin.
Qed.

Lemma known_names_differ (k1 k2 : Z) (v : string) :
  In (k1, v) measure_map -> In (k2, v) measure_map -> k1 = k2.
Proof.
  intros H1 H2. simpl in H1.
  repeat (destruct H1 as [H1'|H1];
          [injection H1' as <- <-; simpl in H2;
           repeat (destruct H2 as [H2'|H2];
                   [first [discriminate H2' | injection H2' as <-; reflexivity]|]);
           destruct H2|]).
  destruct H1.
Qed.


(** X22. The name [_get_measure_type_name] gives a type code identifies
    the code: two different codes never share a name, also not an unlisted
    code, whose name is ["unknown_<code>"]. As the name is part of the
    UNIQUE key of [measurements], two measures of different types taken at
    the same time never replace each other. The two tables list the same
    codes: a code has the unit ["unknown"] exactly when its name is
    ["unknown_<code>"]. *)
Theorem X22_measure_type_names_identify_the_type (env : Env) (g : MeasureGroup)
    (d a b va ua vb ub : Z) :
  (_get_measure_type_name a = _get_measure_type_name b -> a = b) /\
  (a <> b ->
   measurement_key (measurement_record env g d a va ua)
   <> measurement_key (measurement_record env g d b vb ub)) /\
  (_get_measure_unit a = "unknown" <->
   _get_measure_type_name a = "unknown_" ++ str_Z a) /\
  (lookup_table measure_map a = None <-> lookup_table unit_map a = None).
Proof.
  assert (Hinj : forall x y,
            _get_measure_type_name x = _get_measure_type_name y -> x = y).
  { intros x y. unfold _get_measure_type_name.
    destruct (lookup_table measure_map x) as [nx|] eqn:Hx;
      destruct (lookup_table measure_map y) as [ny|] eqn:Hy; simpl.
    - intros ->. apply lookup_table_Some in Hx, Hy.
      eapply known_names_differ; eassumption.
    - intros H. apply lookup_table_Some in Hx.
      exfalso. exact (known_name_is_not_unknown _ _ _ Hx H).
    - intros H. apply lookup_table_Some in Hy.
      exfalso. symmetry in H. exact (known_name_is_not_unknown _ _ _ Hy H).
    - intros [= H]. apply str_Z_inj. exact H. }
  assert (Hdom : lookup_table measure_map a = None <-> lookup_table unit_map a = None).
  { cbn [lookup_table measure_map unit_map].
    repeat match goal with
           | |- context [?k =? a] =>
               destruct (k =? a); [split; intros H; discriminate H|]
           end.
    split; reflexivity. }
  split; [apply Hinj|]. split; [|split; [|exact Hdom]].
  - intros Hne [= H]. apply Hne. apply Hinj. exact H.
  - unfold _get_measure_unit, _get_measure_type_name.
    destruct (lookup_table measure_map a) as [n|] eqn:Hn;
      destruct (lookup_table unit_map a) as [u|] eqn:Hu; simpl.
    + split.
      * intros ->. revert Hu. cbn [lookup_table unit_map].
        repeat match goal with
               | |- context [?k =? a] =>
                   destruct (k =? a); [intros H; discriminate H|]
               end.
        intros H; discriminate H.
      * intros H. apply lookup_table_Some in Hn.
        exfalso. exact (known_name_is_not_unknown _ _ _ Hn H).
    + destruct Hdom as [_ Hd]. discriminate (Hd eq_refl).
    + destruct Hdom as [Hd _]. discriminate (Hd eq_refl).
    + split; reflexivity.
Qed.

Lemma X22_measure_type_names_identify_the_type_witness :
  measurement_key
    (measurement_record Scenarios.env_two_pages Scenarios.morning_group
       1767225600 1 70000 (-3))
  <> measurement_key
       (measurement_record Scenarios.env_two_pages Scenarios.morning_group
          1767225600 11 60000 (-3)).
Proof.
  apply (proj1 (proj2 (X22_measure_type_names_identify_the_type
                         Scenarios.env_two_pages Scenarios.morning_group
                         1767225600 1 11 70000 (-3) 60000 (-3)))).
  discriminate.
Defined.



Section Latest.






End Latest.

Section CursorInvariant.

Variable env : Env.
Variable store_heart_rate : bool.





End CursorInvariant.

(** * fetcher.py: the cursor of a completed fetch *)



(** * fetcher.py: the page requests of a measurement fetch *)

Section PageChain.

Variable env : Env.
Variable store_heart_rate : bool.
Variables startdate_ts enddate_ts : option Z.

Lemma paginate_chain (fuel : nat) :
  forall (offset : option Z) (seen : gset Z) (st : Staged) (w : World),
    exists new os,
      trace (snd (paginate fuel env store_heart_rate startdate_ts enddate_ts
                    offset seen st w)) = (trace w ++ new)%list /\
      api_calls new = map (GetMeasurements startdate_ts enddate_ts 1) os /\
      page_chain env startdate_ts enddate_ts (length (api_calls (trace w)))
        offset seen os.
Proof.
  induction fuel as [|fuel IH]; intros offset seen st w.
  { exists [], []. rewrite app_nil_r. repeat split. }
  cbn [paginate]. unfold bind at 1. unfold call_get_measurements.
  destruct (get_measurements (api env) _ startdate_ts enddate_ts 1 offset)
    as [e|result] eqn:Hget.
  { exists [EvApi (GetMeasurements startdate_ts enddate_ts 1 offset)], [offset].
    repeat split. }
  unfold bind at 1.
  destruct (for_each _ st (measuregrps result)) as [e|st1].
  { exists [EvApi (GetMeasurements startdate_ts enddate_ts 1 offset)], [offset].
    repeat split. }
  cbn [lift ret]. destruct (negb (more result)) eqn:Hmore.
  { exists [EvApi (GetMeasurements startdate_ts enddate_ts 1 offset)], [offset].
    repeat split. }
  destruct (Fetcher.offset result) as [o|] eqn:Hoff.
  2:{ exists [EvApi (GetMeasurements startdate_ts enddate_ts 1 offset);
              EvWarning pagination_warning], [offset].
      unfold bind, log, ret. simpl. rewrite <- app_assoc. repeat split. }
  destruct (decide (o ∈ seen)) as [Hin|Hnotin].
  { exists [EvApi (GetMeasurements startdate_ts enddate_ts 1 offset);
            EvWarning pagination_warning], [offset].
    unfold bind, log, ret. simpl. rewrite <- app_assoc. repeat split. }
  match goal with
  | |- context [paginate fuel env ?h ?a ?b ?o' ?s' ?st' ?w'] =>
      destruct (IH o' s' st' w') as (new & os & Hnew & Hcalls & Hchain)
  end.
  exists (EvApi (GetMeasurements startdate_ts enddate_ts 1 offset) :: new),
         (offset :: os).
  split; [rewrite Hnew; simpl; rewrite <- app_assoc; reflexivity|].
  split; [simpl; rewrite Hcalls; reflexivity|].
  simpl. split; [reflexivity|].
  destruct os as [|o1 os]; [exact I|].
  exists result, o. split; [exact Hget|].
  split; [destruct (more result); [reflexivity|discriminate]|].
  split; [exact Hoff|]. split; [exact Hnotin|].
  simpl in Hchain. rewrite api_calls_app, length_app in Hchain. simpl in Hchain.
  rewrite Nat.add_1_r in Hchain. exact Hchain.
Qed.

(** The offsets of a session after the first are integers outside
    [seen_offsets], and no two of them are the same. *)
Lemma page_chain_fresh (os : list (option Z)) :
  forall n offset seen,
    page_chain env startdate_ts enddate_ts n offset seen os ->
    Forall (fun o => exists z, o = Some z /\ z ∉ seen) (tail os) /\
    NoDup (tail os).
Proof.
  induction os as [|o rest IH]; intros n offset seen Hc.
  { split; constructor. }
  simpl in Hc. destruct Hc as [-> Hrest]. simpl.
  destruct rest as [|o1 rest]; [split; constructor|].
  destruct Hrest as (r & z & _ & _ & _ & Hz & Hc).
  destruct (IH _ _ _ Hc) as [Hall Hnd].
  assert (Ho1 : o1 = Some z). { simpl in Hc. tauto. }
  subst o1. split.
  - constructor; [eauto|].
    simpl in Hall. eapply Forall_impl; [exact Hall|].
    intros o (z' & -> & Hz'). exists z'. split; [reflexivity|].
    intros H. apply Hz'. apply elem_of_union. right. exact H.
  - apply NoDup_cons. split; [|exact Hnd].
    simpl in Hall. intros Hin. rewrite Forall_forall in Hall.
    destruct (Hall _ Hin) as (z' & [= <-] & Hz').
    apply Hz'. apply elem_of_union. left. apply elem_of_singleton. reflexivity.
Qed.

End PageChain.

(** X20. The page requests of one measurement fetch. All of them ask for
    category 1 and for the same window: up to the end date, and from the
    start date that was given or else from the [last_data_timestamp] of
    the cursor (no lower bound when there is neither). The first request
    carries no offset; a further request is only made after a page that
    announced more data, and it carries the offset that page returned; no
    offset is requested twice. *)
Theorem X20_page_requests_follow_the_announced_offsets (fuel : nat) (env : Env)
    (start_date end_date : option datetime) (store_heart_rate : bool) (w : World) :
  let startdate :=
    option_map (timestamp_int (utc_offset env))
      (resume_from start_date (get_sync_state "measurements" (db w))) in
  let enddate := option_map (timestamp_int (utc_offset env)) end_date in
  let calls :=
    api_calls
      (new_events w
         (snd (fetch_measurements fuel env start_date end_date store_heart_rate w))) in
  exists os,
    calls = map (GetMeasurements startdate enddate 1) os /\
    page_chain env startdate enddate (length (api_calls (trace w))) None ∅ os /\
    (forall o, head os = Some o -> o = None) /\
    Forall (fun o => o <> None) (tail os) /\
    NoDup os /\
    (forall s, start_date = Some s ->
       startdate = Some (timestamp_int (utc_offset env) s)) /\
    (forall row, start_date = None ->
       get_sync_state "measurements" (db w) = Some row ->
       startdate
       = option_map (timestamp_int (utc_offset env)) (last_data_timestamp row)) /\
    (start_date = None -> get_sync_state "measurements" (db w) = None ->
     startdate = None).
Proof.
  intros startdate enddate calls.
  destruct (paginate_chain env store_heart_rate startdate enddate fuel None ∅
              nothing_staged w) as (new & os & Hnew & Hcalls & Hchain).
  exists os.
  assert (Hc : calls = map (GetMeasurements startdate enddate 1) os).
  { unfold calls, fetch_measurements, try_except, fetch_measurements_body.
    unfold bind at 1. unfold collect_measurements.
    unfold bind at 1. unfold storage_get_sync_state at 1. cbn [fst snd].
    fold startdate. fold enddate.
    destruct (paginate fuel env store_heart_rate startdate enddate None ∅
                nothing_staged w) as [[st|e|] w0]; simpl in Hnew.
    - destruct (persist_measurements_trace env st w0) as (new2 & Ht2 & Hc2).
      destruct (persist_measurements_db env st w0) as (ts & Hrun & _).
      rewrite Hrun. cbn [snd].
      rewrite (new_events_app w _ (new ++ new2)%list).
      + rewrite api_calls_app, Hc2, app_nil_r. exact Hcalls.
      + rewrite Ht2, Hnew, <- app_assoc. reflexivity.
    - destruct (on_fetch_error_trace env "measurements" e w0) as (new2 & Ht2 & Hc2).
      rewrite (new_events_app w _ (new ++ new2)%list).
      + rewrite api_calls_app, Hc2, app_nil_r. exact Hcalls.
      + rewrite Ht2, Hnew, <- app_assoc. reflexivity.
    - cbn [snd]. rewrite (new_events_app w _ new Hnew). exact Hcalls. }
  destruct (page_chain_fresh env startdate enddate os _ _ _ Hchain) as [Hall Hnd].
  split; [exact Hc|]. split; [exact Hchain|].
  split; [|split; [|split; [|split; [|split]]]].
  - destruct os as [|o os]; [discriminate|]. simpl in Hchain.
    intros o' [= <-]. tauto.
  - eapply Forall_impl; [exact Hall|]. intros o (z & -> & _). discriminate.
  - destruct os as [|o os]; [constructor|]. simpl in *.
    apply NoDup_cons. split; [|exact Hnd].
    destruct Hchain as [-> _]. intros Hin. rewrite Forall_forall in Hall.
    destruct (Hall _ Hin) as (z & Hz & _). discriminate.
  - intros s ->. reflexivity.
  - intros row -> Hrow. unfold startdate. rewrite Hrow. reflexivity.
  - intros -> Hrow. unfold startdate. rewrite Hrow. reflexivity.
Qed.

Lemma X20_page_requests_follow_the_announced_offsets_witness :
  api_calls (trace (Scenarios.world_two_pages true))
  = [GetMeasurements (Some 1767225600) (Some 1767400000) 1 None;
     GetMeasurements (Some 1767225600) (Some 1767400000) 1 (Some 123)] /\
  option_map (timestamp_int 0) (Some Scenarios.new_year) = Some 1767225600.
Proof.
  split; [reflexivity|].
  destruct (X20_page_requests_follow_the_announced_offsets 10
              Scenarios.env_two_pages (Some Scenarios.new_year)
              (Some Scenarios.some_now) true Scenarios.fresh_world)
    as (os & _ & _ & _ & _ & _ & Hstart & _).
  exact (Hstart Scenarios.new_year eq_refl).
Defined.

(** * fetcher.py: the chunks of an activity or sleep fetch *)

Section ChunkCover.



Lemma chunk_bounds_empty (fuel : nat) (current_date end_date : datetime) :
  end_date <= current_date -> chunk_bounds fuel current_date end_date = [].
Proof.
  intros Hle. destruct fuel as [|fuel]; [reflexivity|]. cbn [chunk_bounds].
  destruct (Z.ltb_spec current_date end_date); [lia|reflexivity].
Qed.




End ChunkCover.



(* ===================================================================== *)
(** * config.py: reading and writing dotted keys *)
(* ===================================================================== *)

Section ConfigFacts.
Import Config.

Lemma split_dot_nonempty (key : string) : split_dot key <> [].
Proof.
  destruct key as [|c rest]; simpl; [discriminate|].
  destruct (Ascii.eqb c "."); [discriminate|].
  destruct (split_dot rest); discriminate.
Qed.

Lemma split_dot_join (key : string) :
  String.concat "." (split_dot key) = key /\
  Forall (fun piece => dotless piece = true) (split_dot key).
Proof.
  induction key as [|c rest [IHj IHd]]; simpl.
  - split; [reflexivity|]. repeat constructor.
  - destruct (Ascii.eqb_spec c ".") as [->|Hc].
    + split.
      * pose proof (split_dot_nonempty rest) as Hne.
        cbn [String.concat]. destruct (split_dot rest) as [|x xs] eqn:Hs;
          [contradiction|]. rewrite IHj. reflexivity.
      * constructor; [reflexivity|exact IHd].
    + pose proof (split_dot_nonempty rest) as Hne.
      destruct (split_dot rest) as [|x xs] eqn:Hs; [contradiction|].
      split.
      * rewrite <- IHj. cbn [String.concat]. destruct xs; reflexivity.
      * inversion IHd as [|? ? Hx Hxs]; subst. constructor; [|exact Hxs].
        simpl. rewrite Hx. destruct (Ascii.eqb_spec c "."); [contradiction|].
        reflexivity.
Qed.

(** [get] is the value at the path, with [None] read as missing. *)
Lemma get_walk_at_path (keys : list string) (default : Value) :
  forall value,
    value <> VNone ->
    get_walk keys value default
    = match at_path keys value with
      | None | Some VNone => default
      | Some v => v
      end.
Proof.
  induction keys as [|k keys IH]; intros value Hv; simpl.
  - destruct value; try reflexivity. contradiction.
  - destruct value as [| | | | | |d]; try reflexivity.
    destruct (d !! k) as [c|] eqn:Hk; [|reflexivity].
    destruct c as [| | | | | |d']; try (apply IH; discriminate).
    destruct keys; reflexivity.
Qed.

Lemma at_path_app (p q : list string) :
  forall v, at_path (p ++ q) v
            = match at_path p v with
              | Some c => at_path q c
              | None => None
              end.
Proof.
  induction p as [|k p IH]; intros v; simpl; [reflexivity|].
  destruct v as [| | | | | |d]; try reflexivity.
  destruct (d !! k); [apply IH|reflexivity].
Qed.

(** What [set] leaves at its own path. *)
Lemma set_walk_at_path (keys : list string) (last : string) (value : Value) :
  forall data data',
    set_walk keys last value data = inr data' ->
    at_path (keys ++ [last]) data' = Some value.
Proof.
  induction keys as [|k keys IH]; intros data data' Hset; simpl in *.
  - destruct data as [| | | | | |d]; try discriminate. injection Hset as <-.
    rewrite lookup_insert_eq. reflexivity.
  - destruct data as [| | | | | |d]; try discriminate.
    destruct (set_walk keys last value
                match d !! k with Some c => c | None => VDict ∅ end)
      as [e|child'] eqn:Hchild; [discriminate|].
    simpl in Hset. injection Hset as <-.
    rewrite lookup_insert_eq. exact (IH _ _ Hchild).
Qed.

(** The result of [set] is a dictionary, and so was the tree. *)
Lemma set_walk_dict (keys : list string) (last : string) (value data data' : Value) :
  set_walk keys last value data = inr data' ->
  is_dict data = true /\ is_dict data' = true.
Proof.
  destruct keys as [|k keys]; simpl; destruct data as [| | | | | |d];
    try discriminate.
  - intros [= <-]. split; reflexivity.
  - destruct (set_walk keys last value _); [discriminate|].
    intros [= <-]. split; reflexivity.
Qed.

(** [set] leaves every path alone that does not begin with its own path
    and is not a beginning of it. *)
Lemma set_walk_frame (keys : list string) (last : string) (value : Value) :
  forall data data' other,
    set_walk keys last value data = inr data' ->
    ~ path_prefix (keys ++ [last]) other ->
    ~ path_prefix other (keys ++ [last]) ->
    at_path other data' = at_path other data.
Proof.
  induction keys as [|k keys IH]; intros data data' other Hset Hn1 Hn2.
  - simpl in Hset. destruct data as [| | | | | |d]; try discriminate.
    injection Hset as <-.
    destruct other as [|o other]; [exfalso; apply Hn2; eexists; reflexivity|].
    simpl. destruct (decide (o = last)) as [->|Hne].
    + exfalso. apply Hn1. exists other. reflexivity.
    + rewrite lookup_insert_ne by congruence. reflexivity.
  - simpl in Hset. destruct data as [| | | | | |d]; try discriminate.
    destruct (set_walk keys last value
                match d !! k with Some c => c | None => VDict ∅ end)
      as [e|child'] eqn:Hchild; [discriminate|].
    simpl in Hset. injection Hset as <-.
    destruct other as [|o other]; [exfalso; apply Hn2; eexists; reflexivity|].
    simpl. destruct (decide (o = k)) as [->|Hne].
    + rewrite lookup_insert_eq.
      assert (Hn1' : ~ path_prefix (keys ++ [last]) other).
      { intros [r Hr]. apply Hn1. exists r. simpl. rewrite Hr. reflexivity. }
      assert (Hn2' : ~ path_prefix other (keys ++ [last])).
      { intros [r Hr]. apply Hn2. exists r. simpl. rewrite Hr. reflexivity. }
      rewrite (IH _ _ other Hchild Hn1' Hn2').
      destruct (d !! k) as [c|]; [reflexivity|].
      destruct other as [|o' other'];
        [exfalso; apply Hn2'; eexists; reflexivity|].
      simpl. rewrite lookup_empty. reflexivity.
    + rewrite lookup_insert_ne by congruence. reflexivity.
Qed.

(** When [set] raises: its path runs into a value that is not a
    dictionary before the path ends. *)
Lemma set_walk_raises (keys : list string) (last : string) (value : Value) :
  forall data,
    (exists e, set_walk keys last value data = inl e) <->
    (exists p r v, keys = (p ++ r)%list /\ at_path p data = Some v /\
                   is_dict v = false).
Proof.
  induction keys as [|k keys IH]; intros data; simpl.
  - destruct data as [| | | | | |d]; split.
    all: try (intros _; exists [], []; eexists; repeat split; reflexivity).
    all: try (intros _; eexists; reflexivity).
    + intros [e He]. simpl in He. discriminate He.
    + intros (p & r & v & Hk & Hp & Hd).
      destruct p; [|discriminate]. simpl in Hp. injection Hp as <-.
      discriminate.
  - destruct data as [| | | | | |d]; split.
    all: try (intros _; exists [], (k :: keys); eexists; repeat split; reflexivity).
    all: try (intros _; eexists; reflexivity).
    + intros [e He].
      destruct (set_walk keys last value
                  match d !! k with Some c => c | None => VDict ∅ end)
        as [e'|child'] eqn:Hchild; [|discriminate].
      destruct (proj1 (IH _) (ex_intro _ e' Hchild)) as (p & r & v & Hk & Hp & Hd).
      destruct (d !! k) as [c|] eqn:Hdk.
      * exists (k :: p), r, v. simpl. rewrite Hdk, Hk. repeat split; assumption.
      * exfalso. destruct p as [|x p]; simpl in Hp.
        -- injection Hp as <-. discriminate.
        -- rewrite lookup_empty in Hp. discriminate.
    + intros (p & r & v & Hk & Hp & Hd).
      destruct p as [|x p].
      * simpl in Hp. injection Hp as <-. discriminate.
      * simpl in Hk. injection Hk as <- ->. simpl in Hp.
        destruct (d !! k) as [c|] eqn:Hdk; [|discriminate].
        destruct (proj2 (IH c) (ex_intro _ p (ex_intro _ r (ex_intro _ v
                    (conj eq_refl (conj Hp Hd)))))) as [e He].
        rewrite He. eexists. reflexivity.
Qed.

Lemma set_walk_raises_TypeError (keys : list string) (last : string)
    (value : Value) :
  forall data e,
    set_walk keys last value data = inl e ->
    is_TypeError e = true.
Proof.
  induction keys as [|k keys IH]; intros data e; simpl.
  - destruct data; intros [= <-] || intros [=]; reflexivity.
  - destruct data as [| | | |s|l|d]; try (intros [= <-]; reflexivity).
    + intros [= <-]. simpl. destruct (contains k s); reflexivity.
    + intros [= <-]. simpl. destruct (is_member k l); reflexivity.
    + destruct (set_walk keys last value _) as [e'|child'] eqn:Hchild;
        [|discriminate].
      intros [= <-]. exact (IH _ _ Hchild).
Qed.

Lemma split_dot_snoc (key : string) :
  split_dot key
  = (removelast (split_dot key) ++ [List.last (split_dot key) EmptyString])%list.
Proof. apply app_removelast_last, split_dot_nonempty. Qed.

Lemma get_at_path (key : string) (default config_data : Value) :
  get key default config_data
  = match at_path (split_dot key) config_data with
    | None | Some VNone => default
    | Some v => v
    end.
Proof.
  unfold get. pose proof (split_dot_nonempty key) as Hne.
  destruct (split_dot key) as [|k keys]; [contradiction|].
  destruct config_data as [| | | | | |d]; try reflexivity.
  apply get_walk_at_path. discriminate.
Qed.

End ConfigFacts.


(** X24. A value written with [Config.set] is what [Config.get] returns
    for the same key afterwards, unless the value is [None], which [get]
    does not tell apart from a missing key: then it returns the default.
    In general [get] returns the value the dotted path leads to through
    dictionaries, and the default when the path leads nowhere or to
    [None]. The pieces of a key are the strings between its dots, so two
    different keys never name the same path. *)
Theorem X24_config_set_then_get (key : string)
    (value default config_data config' : Config.Value) :
  Config.set key value config_data = inr config' ->
  (Config.get key default config'
   = match value with
     | Config.VNone => default
     | _ => value
     end) /\
  Config.at_path (Config.split_dot key) config' = Some value /\
  (forall other d c,
     Config.get other d c
     = match Config.at_path (Config.split_dot other) c with
       | None | Some Config.VNone => d
       | Some v => v
       end) /\
  (forall other,
     String.concat "." (Config.split_dot other) = other /\
     Config.split_dot other <> [] /\
     Forall (fun piece => Config.dotless piece = true) (Config.split_dot other)) /\
  (forall other, Config.split_dot other = Config.split_dot key -> other = key).
Proof.
  intros Hset. unfold Config.set in Hset.
  pose proof (set_walk_at_path _ _ _ _ _ Hset) as Hat.
  rewrite <- split_dot_snoc in Hat.
  split; [|split; [exact Hat|split; [|split]]].
  - rewrite get_at_path, Hat. destruct value; reflexivity.
  - intros other d c. apply get_at_path.
  - intros other. destruct (split_dot_join other) as [Hj Hd].
    split; [exact Hj|]. split; [apply split_dot_nonempty|exact Hd].
  - intros other Heq.
    rewrite <- (proj1 (split_dot_join other)), Heq.
    exact (proj1 (split_dot_join key)).
Qed.

Lemma X24_config_set_then_get_witness :
  Config.get "sync.data_types.sleep" (Config.VBool true)
    Scenarios.config_sleep_off = Config.VBool false /\
  Config.get "sync.interval" Config.VNone Scenarios.config_sleep_off
  = Config.VInt 3600.
Proof.
  split; [|vm_compute; reflexivity].
  exact (proj1 (X24_config_set_then_get "sync.data_types.sleep"
                  (Config.VBool false) (Config.VBool true)
                  Scenarios.small_config Scenarios.config_sleep_off
                  ltac:(vm_compute; reflexivity))).
Defined.

(** X25. [Config.set] either raises a [TypeError] or returns. It raises
    exactly when the path before the last piece of the key runs into a
    value that is there and is not a dictionary (a scalar, a list, or
    [None]). Otherwise it creates the missing dictionaries on the way, and
    [get] returns what it returned before for every key whose path neither
    begins with the path that was set nor is a beginning of it. *)
Theorem X25_config_set_touches_only_its_path (key : string)
    (value config_data : Config.Value) :
  let blocked :=
    exists p r v,
      removelast (Config.split_dot key) = (p ++ r)%list /\
      Config.at_path p config_data = Some v /\ Config.is_dict v = false in
  match Config.set key value config_data with
  | inl e => Config.is_TypeError e = true /\ blocked
  | inr config' =>
      ~ blocked /\
      Config.is_dict config_data = true /\ Config.is_dict config' = true /\
      forall other default,
        ~ Config.path_prefix (Config.split_dot key) (Config.split_dot other) ->
        ~ Config.path_prefix (Config.split_dot other) (Config.split_dot key) ->
        Config.get other default config' = Config.get other default config_data
  end.
Proof.
  intros blocked. unfold Config.set.
  pose proof (set_walk_raises (removelast (Config.split_dot key))
                (List.last (Config.split_dot key) EmptyString) value config_data)
    as Hraise.
  destruct (Config.set_walk (removelast (Config.split_dot key))
              (List.last (Config.split_dot key) EmptyString) value config_data)
    as [e|config'] eqn:Hset.
  - split; [exact (set_walk_raises_TypeError _ _ _ _ _ Hset)|].
    apply Hraise. exists e. reflexivity.
  - split; [|split; [|split]].
    + intros Hb. apply Hraise in Hb. destruct Hb as [e He]. discriminate He.
    + exact (proj1 (set_walk_dict _ _ _ _ _ Hset)).
    + exact (proj2 (set_walk_dict _ _ _ _ _ Hset)).
    + intros other default Hn1 Hn2. rewrite !get_at_path.
      rewrite (split_dot_snoc key) in Hn1, Hn2.
      rewrite (set_walk_frame _ _ _ _ _ _ Hset Hn1 Hn2). reflexivity.
Qed.

(* ===================================================================== *)
(** * auth.py: when the user is asked, and which code is exchanged *)
(* ===================================================================== *)

Section AuthFacts.
Import OAuth Auth.




Lemma authorize_shape (endpoint : TokenEndpoint) (now : Q) (fresh fresh' : string)
    (callback : Callback) (m : Manager) :
  exists result c',
    authorize endpoint now fresh fresh' callback m
    = (result, mkManager c' (code_after callback m),
       [OpenBrowser (get_authorization_url (Some fresh) fresh' (oauth_client m))]) /\
    match result with
    | inr t =>
        truthy_code (code_after callback m) = true /\
        c' = mkClient (client_id (oauth_client m)) (client_secret (oauth_client m))
               (callback_uri (oauth_client m)) (auto_refresh (oauth_client m))
               (Some t) (Some t) /\
        exists code,
          code_after callback m = Some code /\
          exchange_code_for_token endpoint now code (oauth_client m) = (inr t, c')
    | inl (PlainException msg) =>
        truthy_code (code_after callback m) = false /\
        msg = "Failed to receive authorization code" /\ c' = oauth_client m
    | inl (Raised e) =>
        truthy_code (code_after callback m) = true /\ c' = oauth_client m /\
        exists code,
          code_after callback m = Some code /\
          exchange_code_for_token endpoint now code (oauth_client m) = (inl e, c')
    end.
Proof.
  unfold authorize.
  assert (Hcode : match callback with
                  | GetRequest query => fst (do_GET query (auth_code m))
                  | OtherRequest => auth_code m
                  end = code_after callback m).
  { destruct callback as [query|]; [|reflexivity]. unfold do_GET. simpl.
    destruct (query !! "code") as [[code rest]|]; reflexivity. }
  rewrite Hcode. destruct (code_after callback m) as [code|] eqn:Hafter.
  - simpl. destruct (truthy_str code) eqn:Htruthy.
    + destruct (exchange_code_for_token endpoint now code (oauth_client m))
        as [[e|t] c'] eqn:Hex.
      * exists (inl (Raised e)), c'. split; [reflexivity|].
        pose proof (exchange_failed _ _ _ _ _ _ Hex) as ->.
        split; [reflexivity|]. split; [reflexivity|].
        exists code. split; [reflexivity|exact Hex].
      * exists (inr t), c'. split; [reflexivity|].
        split; [reflexivity|].
        split; [exact (exchange_saved _ _ _ _ _ _ Hex)|].
        exists code. split; [reflexivity|exact Hex].
    + eexists (inl (PlainException _)), _. split; [reflexivity|].
      split; [reflexivity|]. split; reflexivity.
  - eexists (inl (PlainException _)), _. split; [reflexivity|].
    split; [reflexivity|]. split; reflexivity.
Qed.

End AuthFacts.



(** X27. Which code [authorize] exchanges, in a run in which the local
    server serves its one request. The browser is opened once, on the
    authorization URL of the client with the five parameters
    [response_type], [client_id], [redirect_uri], [scope] and [state]. The
    code that is exchanged is the first [code] of the callback's query;
    nothing else of the query is looked at, the [state] included. A
    callback without a code makes [authorize] raise
    [Exception("Failed to receive authorization code")] without a token
    request only in a process whose handler has not received a code
    before: the class attribute keeps the code of an earlier callback, and
    that code is then exchanged again. *)
Theorem X27_authorize_exchanges_the_last_received_code
    (endpoint : OAuth.TokenEndpoint) (now : Q) (fresh fresh' : string)
    (callback : Auth.Callback) (m : Auth.Manager) :
  let run := Auth.authorize endpoint now fresh fresh' callback m in
  let url := Auth.get_authorization_url (Some fresh) fresh' (Auth.oauth_client m) in
  snd run = [Auth.OpenBrowser url] /\
  map fst (Auth.url_params url)
  = ["response_type"; "client_id"; "redirect_uri"; "scope"; "state"] /\
  (fresh <> EmptyString -> In ("state", fresh) (Auth.url_params url)) /\
  In ("scope", "user.info,user.metrics,user.activity,user.sleepevents")
    (Auth.url_params url) /\
  Auth.auth_code (snd (fst run)) = Auth.code_after callback m /\
  (forall code,
     Auth.code_after callback m = Some code -> code <> EmptyString ->
     fst (fst run)
     = match fst (OAuth.exchange_code_for_token endpoint now code
                    (Auth.oauth_client m)) with
       | inl e => inl (Auth.Raised e)
       | inr t => inr t
       end /\
     Auth.oauth_client (snd (fst run))
     = snd (OAuth.exchange_code_for_token endpoint now code (Auth.oauth_client m))) /\
  (Auth.code_after callback m = None \/
   Auth.code_after callback m = Some EmptyString ->
   fst (fst run)
   = inl (Auth.PlainException "Failed to receive authorization code") /\
   Auth.oauth_client (snd (fst run)) = Auth.oauth_client m) /\
  (forall query code rest,
     callback = Auth.GetRequest query -> query !! "code" = Some (code, rest) ->
     Auth.code_after callback m = Some code) /\
  (forall query,
     callback = Auth.GetRequest query -> query !! "code" = None ->
     Auth.code_after callback m = Auth.auth_code m) /\
  (forall query query',
     callback = Auth.GetRequest query -> query' !! "code" = query !! "code" ->
     Auth.authorize endpoint now fresh fresh' (Auth.GetRequest query') m = run).
Proof.
  intros run url.
  destruct (authorize_shape endpoint now fresh fresh' callback m)
    as (res & c' & Heq & Hres).
  fold run in Heq. fold url in Heq.
  split; [rewrite Heq; reflexivity|].
  split; [reflexivity|].
  split.
  { intros Hne. unfold url, Auth.get_authorization_url.
    destruct fresh as [|a s]; [contradiction|]. simpl. tauto. }
  split; [simpl; tauto|].
  split; [rewrite Heq; reflexivity|].
  split.
  { intros code Hcode Hne. rewrite Heq. cbn [fst snd Auth.oauth_client].
    destruct res as [[msg|e]|t].
    - destruct Hres as (Hfalse & _). rewrite Hcode in Hfalse. simpl in Hfalse.
      destruct code; [contradiction|discriminate Hfalse].
    - destruct Hres as (_ & _ & code' & Hcode' & Hex).
      rewrite Hcode in Hcode'. injection Hcode' as <-.
      rewrite Hex. split; reflexivity.
    - destruct Hres as (_ & _ & code' & Hcode' & Hex).
      rewrite Hcode in Hcode'. injection Hcode' as <-.
      rewrite Hex. split; reflexivity. }
  split.
  { intros Hnone. rewrite Heq. cbn [fst snd Auth.oauth_client].
    destruct res as [[msg|e]|t].
    - destruct Hres as (_ & -> & ->). split; reflexivity.
    - destruct Hres as (Htrue & _).
      destruct Hnone as [Hn|Hn]; rewrite Hn in Htrue; discriminate Htrue.
    - destruct Hres as (Htrue & _).
      destruct Hnone as [Hn|Hn]; rewrite Hn in Htrue; discriminate Htrue. }
  split; [intros query code rest -> Hq; simpl; rewrite Hq; reflexivity|].
  split; [intros query -> Hq; simpl; rewrite Hq; reflexivity|].
  intros query query' -> Hq. unfold run, Auth.authorize, Auth.do_GET.
  rewrite Hq. reflexivity.
Qed.

(** X28. [clear_credentials] drops the token and removes the token file:
    the manager is not authorized afterwards, neither is one started
    later, and the next [get_credentials] goes to the browser. It does not
    reset the code the callback handler holds, and [is_authorized] only
    says that a token is held: it is also true of a token that expired
    long ago. *)
Theorem X28_clear_credentials_forgets_the_token (m : Auth.Manager)
    (endpoint : OAuth.TokenEndpoint) (now now' : Q) (fresh fresh' : string)
    (callback : Auth.Callback) :
  let cleared := Auth.clear_credentials m in
  Auth.is_authorized cleared = false /\
  OAuth.token_file (Auth.oauth_client cleared) = None /\
  Auth.is_authorized (Auth.restart now cleared) = false /\
  Auth.auth_code cleared = Auth.auth_code m /\
  Auth.get_credentials false endpoint now now' fresh fresh' callback cleared
  = Auth.authorize endpoint now' fresh fresh' callback cleared /\
  (forall t, OAuth.token (Auth.oauth_client m) = Some t ->
     Auth.is_authorized m = true) /\
  (forall t, OAuth.token_file (Auth.oauth_client m) = Some t ->
     Auth.is_authorized (Auth.restart now m) = true /\
     OAuth.token (Auth.oauth_client (Auth.restart now m)) = Some t).
Proof.
  intros cleared.
  split; [reflexivity|]. split; [reflexivity|]. split; [reflexivity|].
  split; [reflexivity|]. split; [reflexivity|]. split.
  - intros t Ht. unfold Auth.is_authorized. rewrite Ht. reflexivity.
  - intros t Ht. unfold Auth.is_authorized, Auth.restart, OAuth.restart, OAuth.init.
    cbn [Auth.oauth_client]. rewrite Ht. cbn [OAuth.file_of OAuth._load_token].
    rewrite from_dict_to_dict. split; reflexivity.
Qed.

(* ===================================================================== *)
(** * export.py: the groups of the measurement export *)
(* ===================================================================== *)

Section ExportGroups.
Import Exporter.

Lemma append_to_entries (k : string) (x : MeasurementEntry) (g : Grouped)
    (k' : string) :
  entries_of k' (append_to k x g)
  = if String.eqb k k'
    then Some (match entries_of k g with
               | Some l => (l ++ [x])%list
               | None => [x]
               end)
    else entries_of k' g.
Proof.
  unfold entries_of. induction g as [|[k0 l0] rest IH]; simpl.
  - destruct (String.eqb k k'); reflexivity.
  - destruct (String.eqb k0 k) eqn:E0; simpl.
    + apply String.eqb_eq in E0 as ->.
      destruct (String.eqb k k'); reflexivity.
    + destruct (String.eqb k k') eqn:E.
      * apply String.eqb_eq in E as <-. rewrite E0. exact IH.
      * destruct (String.eqb k0 k'); [reflexivity|exact IH].
Qed.

Lemma append_to_keys (k : string) (x : MeasurementEntry) (g : Grouped) :
  (forall k', In k' (map fst (append_to k x g)) <-> k' = k \/ In k' (map fst g)) /\
  (NoDup (map fst g) -> NoDup (map fst (append_to k x g))).
Proof.
  induction g as [|[k0 l0] rest [IHin IHnd]]; simpl.
  - split; [intros k'; intuition congruence|].
    intros _. apply NoDup_singleton.
  - destruct (String.eqb_spec k0 k) as [->|Hne]; simpl.
    + split; [intros k'; intuition congruence|]. intros Hnd. exact Hnd.
    + split.
      * intros k'. rewrite IHin. intuition congruence.
      * intros Hnd. apply NoDup_cons in Hnd as [Hk0 Hnd]. apply NoDup_cons.
        split; [|apply IHnd; exact Hnd].
        intros Hin. apply list_elem_of_In, IHin in Hin as [Heq|Hin];
          [congruence|]. apply Hk0, list_elem_of_In. exact Hin.
Qed.

Lemma append_to_total (k : string) (x : MeasurementEntry) (g : Grouped) :
  length (concat (map snd (append_to k x g)))
  = S (length (concat (map snd g))).
Proof.
  induction g as [|[k0 l0] rest IH]; simpl; [reflexivity|].
  destruct (String.eqb k0 k); simpl.
  - rewrite !length_app. simpl. lia.
  - rewrite !length_app, IH. lia.
Qed.

Lemma entries_of_keys (k : string) (g : Grouped) :
  In k (map fst g) <-> exists l, entries_of k g = Some l.
Proof.
  unfold entries_of. induction g as [|[k0 l0] rest IH]; simpl.
  - split; [contradiction|intros [l Hl]; discriminate Hl].
  - destruct (String.eqb_spec k0 k) as [->|Hne]; simpl.
    + split; [intros _; eexists; reflexivity|intros _; left; reflexivity].
    + rewrite <- IH. intuition congruence.
Qed.

Lemma entries_of_In (k : string) (l : list MeasurementEntry) (g : Grouped) :
  NoDup (map fst g) -> In (k, l) g -> entries_of k g = Some l.
Proof.
  unfold entries_of. induction g as [|[k0 l0] rest IH]; simpl; [contradiction|].
  intros Hnd [Heq|Hin].
  - injection Heq as -> ->. rewrite String.eqb_refl. reflexivity.
  - apply NoDup_cons in Hnd as [Hk0 Hnd].
    destruct (String.eqb_spec k0 k) as [->|Hne]; [|exact (IH Hnd Hin)].
    exfalso. apply Hk0, list_elem_of_In. apply in_map_iff.
    exists (k, l). split; [reflexivity|exact Hin].
Qed.

(** The loop of [_export_measurements]: each group receives the entries of
    its type, in the order of the list. *)
Lemma group_fold (ms : list Measurement) :
  forall g : Grouped,
    let g' := foldl (fun grouped m =>
                       append_to (ms_measure_type m) (measurement_entry m) grouped)
                g ms in
    (NoDup (map fst g) -> NoDup (map fst g')) /\
    (forall k, entries_of k g'
               = extended (entries_of k g)
                   (map measurement_entry (List.filter (of_type k) ms))) /\
    length (concat (map snd g'))
    = (length ms + length (concat (map snd g)))%nat.
Proof.
  induction ms as [|m ms IH]; intros g; simpl.
  - split; [tauto|]. split; [|reflexivity].
    intros k. destruct (entries_of k g) as [l|]; simpl; [|reflexivity].
    rewrite app_nil_r. reflexivity.
  - destruct (IH (append_to (ms_measure_type m) (measurement_entry m) g))
      as (IHnd & IHe & IHl).
    split; [|split].
    + intros Hnd. apply IHnd. apply append_to_keys. exact Hnd.
    + intros k. rewrite IHe, append_to_entries. unfold of_type at 2.
      destruct (String.eqb_spec (ms_measure_type m) k) as [->|Hne].
      * destruct (entries_of k g) as [l|]; simpl.
        -- rewrite <- app_assoc. reflexivity.
        -- reflexivity.
      * reflexivity.
    + rewrite IHl, append_to_total. lia.
Qed.

Lemma insert_sorted_head (x : MeasurementEntry) (l : list MeasurementEntry) :
  HdRel (fun a b => me_timestamp a <= me_timestamp b) x l ->
  insert_sorted x l = x :: l.
Proof.
  intros Hhd. destruct l as [|y l]; [reflexivity|]. simpl.
  inversion Hhd as [|? ? Hle]; subst.
  destruct (Z.leb_spec (me_timestamp x) (me_timestamp y)); [reflexivity|lia].
Qed.

(** Sorting a list that is in order leaves it as it is. *)
Lemma sort_by_timestamp_sorted (l : list MeasurementEntry) :
  Sorted (fun a b => me_timestamp a <= me_timestamp b) l ->
  sort_by_timestamp l = l.
Proof.
  induction 1 as [|x l Hs IH Hhd]; [reflexivity|].
  unfold sort_by_timestamp in *. simpl. rewrite IH.
  apply insert_sorted_head. exact Hhd.
Qed.

Lemma StronglySorted_map_filter {A B : Type} (R : A -> A -> Prop)
    (S' : B -> B -> Prop) (f : A -> B) (p : A -> bool) (l : list A) :
  (forall a b, R a b -> S' (f a) (f b)) ->
  StronglySorted R l -> StronglySorted S' (map f (List.filter p l)).
Proof.
  intros Hf. induction 1 as [|x l Hs IH Hall]; [constructor|].
  simpl. destruct (p x); [|exact IH]. simpl. constructor; [exact IH|].
  rewrite List.Forall_forall in *. intros y Hy.
  apply in_map_iff in Hy as (a & <- & Ha). apply filter_In in Ha as [Ha _].
  apply Hf, Hall, Ha.
Qed.

Lemma group_sorted (rows : list Measurement) (k : string) :
  Sorted (fun a b => ms_timestamp a <= ms_timestamp b) rows ->
  Sorted (fun a b => me_timestamp a <= me_timestamp b)
    (map measurement_entry (List.filter (of_type k) rows)).
Proof.
  intros Hs. apply StronglySorted_Sorted.
  apply (StronglySorted_map_filter
           (fun a b => ms_timestamp a <= ms_timestamp b)).
  - intros a b Hab. exact Hab.
  - apply Sorted_StronglySorted; [|exact Hs]. intros a b c. lia.
Qed.

(** The groups of a list that is in order of time. *)
Lemma export_groups (rows : list Measurement) :
  Sorted (fun a b => ms_timestamp a <= ms_timestamp b) rows ->
  let grouped := map (fun item => (fst item, sort_by_timestamp (snd item)))
                   (group_by_type rows) in
  grouped = group_by_type rows /\
  NoDup (map fst grouped) /\
  (forall k, entries_of k grouped
             = extended None (map measurement_entry (List.filter (of_type k) rows))) /\
  length (concat (map snd grouped)) = length rows.
Proof.
  intros Hs grouped.
  destruct (group_fold rows []) as (Hnd & He & Hl). simpl in Hnd, He, Hl.
  fold (group_by_type rows) in Hnd, He, Hl.
  assert (Hid : grouped = group_by_type rows).
  { unfold grouped. rewrite <- (map_id (group_by_type rows)) at 2.
    apply map_ext_in. intros [k l] Hin. simpl. f_equal.
    apply sort_by_timestamp_sorted.
    pose proof (entries_of_In k l _ (Hnd (NoDup_nil_2)) Hin) as Hk.
    rewrite He in Hk.
    destruct (map measurement_entry (List.filter (of_type k) rows))
      as [|e es] eqn:Hg; [discriminate Hk|].
    simpl in Hk. injection Hk as <-. rewrite <- Hg.
    apply group_sorted. exact Hs. }
  rewrite Hid. split; [reflexivity|]. split; [apply Hnd, NoDup_nil_2|].
  split; [exact He|]. rewrite Hl. simpl. lia.
Qed.

End ExportGroups.

Section ExportFacts.
Import Exporter.

Lemma entries_of_Some_In (k : string) (l : list MeasurementEntry) (g : Grouped) :
  entries_of k g = Some l -> In (k, l) g.
Proof.
  unfold entries_of.
  destruct (List.find (fun item => String.eqb (fst item) k) g) as [[k0 l0]|] eqn:Hf;
    [|discriminate].
  simpl. intros [= <-]. apply find_some in Hf as [Hin Hk]. simpl in Hk.
  apply String.eqb_eq in Hk as <-. exact Hin.
Qed.

Lemma extended_None (more : list MeasurementEntry) (l : list MeasurementEntry) :
  extended None more = Some l <-> more = l /\ l <> [].
Proof.
  destruct more as [|e es]; simpl.
  - split; [discriminate|]. intros [<- Hne]. contradiction.
  - split; [intros [= <-]; split; [reflexivity|discriminate]|].
    intros [<- _]. reflexivity.
Qed.

Lemma filter_of_type_In (k : string) (rows : list Measurement) (m : Measurement) :
  In m (List.filter (of_type k) rows) <-> In m rows /\ ms_measure_type m = k.
Proof.
  rewrite filter_In. unfold of_type.
  destruct (String.eqb_spec (ms_measure_type m) k); intuition congruence.
Qed.

(** Within one type, the rows of a well-keyed table have distinct
    timestamps. *)
Lemma group_timestamps_NoDup (d : DB) (start_date end_date : option datetime)
    (k : string) :
  keyed measurement_key (measurements d) ->
  NoDup (map ms_timestamp
           (List.filter (of_type k) (get_all_measurements start_date end_date d))).
Proof.
  intros Hk.
  pose proof (select_ordered_NoDup measurement_key ms_timestamp
                (fun m => within start_date end_date (ms_timestamp m))
                (measurements d) Hk) as Hnd.
  fold (get_all_measurements start_date end_date d) in Hnd.
  apply (NoDup_fmap_2_strong ms_timestamp).
  - intros x y Hx Hy Heq.
    apply list_elem_of_In, filter_of_type_In in Hx as [Hx Hxk].
    apply list_elem_of_In, filter_of_type_In in Hy as [Hy Hyk].
    apply (select_ordered_In ms_timestamp) in Hx as [_ (kx & Hkx)].
    apply (select_ordered_In ms_timestamp) in Hy as [_ (ky & Hky)].
    pose proof (Hk _ _ Hkx) as Hx'. pose proof (Hk _ _ Hky) as Hy'.
    assert (kx = ky) as ->.
    { rewrite <- Hx', <- Hy'. unfold measurement_key. congruence. }
    congruence.
  - apply NoDup_ListNoDup. apply List.NoDup_filter. apply NoDup_ListNoDup.
    exact Hnd.
Qed.

End ExportFacts.

(** X29. The JSON export of the measurements puts every stored measurement
    of the date range into the group of its type, once, and nothing else:
    there is a group exactly for the types that occur, no group is empty,
    the entries of a group are the measurements of that type in ascending
    order of time (strictly ascending when the rows sit under their UNIQUE
    keys), and the groups together have as many entries as the query
    returned rows. Without a measurement in the range the dictionary is
    empty and the CSV export writes no header; otherwise the CSV export has
    one row per measurement, as many as the JSON export has entries. *)
Theorem X29_measurement_export_groups_by_type (d : DB)
    (start_date end_date : option datetime) :
  let rows := get_all_measurements start_date end_date d in
  let grouped := Exporter._export_measurements start_date end_date d in
  NoDup (map fst grouped) /\
  (forall k, In k (map fst grouped) <->
             exists m, In m rows /\ ms_measure_type m = k) /\
  (forall k l, In (k, l) grouped ->
     l <> [] /\
     l = map Exporter.measurement_entry (List.filter (Exporter.of_type k) rows) /\
     Sorted (fun a b => Exporter.me_timestamp a <= Exporter.me_timestamp b) l) /\
  (well_keyed d ->
   forall k l, In (k, l) grouped ->
     StronglySorted
       (fun a b => Exporter.me_timestamp a < Exporter.me_timestamp b) l) /\
  (forall m, In m rows ->
     exists l, In (ms_measure_type m, l) grouped /\
               In (Exporter.measurement_entry m) l) /\
  length (concat (map snd grouped)) = length rows /\
  (grouped = [] <-> rows = []) /\
  match Exporter.export_measurements_csv start_date end_date d with
  | None => rows = [] /\ grouped = []
  | Some (header, csv_rows) =>
      rows <> [] /\
      header = ["timestamp"; "measure_type"; "value"; "unit"; "device_id"] /\
      csv_rows = map Exporter.measurement_csv_row rows /\
      length csv_rows = length (concat (map snd grouped))
  end.
Proof.
  intros rows grouped.
  assert (Hsorted : Sorted (fun a b => ms_timestamp a <= ms_timestamp b) rows)
    by apply select_ordered_Sorted.
  destruct (export_groups rows Hsorted) as (Hid & Hnd & He & Hl).
  change (map (fun item => (fst item, Exporter.sort_by_timestamp (snd item)))
            (Exporter.group_by_type rows)) with grouped in Hid, Hnd, He, Hl.
  assert (Hgroup : forall k l, In (k, l) grouped ->
             l <> [] /\
             l = map Exporter.measurement_entry
                   (List.filter (Exporter.of_type k) rows)).
  { intros k l Hin. pose proof (entries_of_In k l grouped Hnd Hin) as Hk.
    rewrite He in Hk. apply extended_None in Hk as [Hk Hne].
    split; [exact Hne|]. symmetry. exact Hk. }
  assert (Hempty : grouped = [] <-> rows = []).
  { split.
    - intros Hg. rewrite Hg in Hl. simpl in Hl.
      destruct rows; [reflexivity|discriminate Hl].
    - intros Hr. destruct grouped as [|[k l] rest]; [reflexivity|].
      destruct (Hgroup k l (or_introl eq_refl)) as [Hne Hk].
      rewrite Hr in Hk. simpl in Hk. contradiction. }
  split; [exact Hnd|]. split; [|split; [|split; [|split; [|split; [|split]]]]].
  - intros k. rewrite entries_of_keys. split.
    + intros [l Hk]. rewrite He in Hk. apply extended_None in Hk as [Hk Hne].
      destruct (List.filter (Exporter.of_type k) rows) as [|m ms] eqn:Hf.
      * simpl in Hk. congruence.
      * exists m. apply filter_of_type_In. rewrite Hf. left. reflexivity.
    + intros (m & Hm & Hk).
      assert (Hin : In m (List.filter (Exporter.of_type k) rows))
        by (apply filter_of_type_In; split; assumption).
      rewrite He.
      destruct (List.filter (Exporter.of_type k) rows) as [|m0 ms];
        [contradiction|]. eexists. reflexivity.
  - intros k l Hin. destruct (Hgroup k l Hin) as [Hne Hk].
    split; [exact Hne|]. split; [exact Hk|].
    rewrite Hk. apply group_sorted. exact Hsorted.
  - intros (Hkey & _) k l Hin. destruct (Hgroup k l Hin) as [_ Hk].
    apply Sorted_lt_of_le_NoDup.
    + rewrite Hk. apply group_sorted. exact Hsorted.
    + rewrite Hk, map_map. simpl.
      apply (group_timestamps_NoDup d start_date end_date k Hkey).
  - intros m Hm.
    assert (Hin : In m (List.filter (Exporter.of_type (ms_measure_type m)) rows))
      by (apply filter_of_type_In; split; [exact Hm|reflexivity]).
    pose proof (He (ms_measure_type m)) as Hk.
    destruct (List.filter (Exporter.of_type (ms_measure_type m)) rows)
      as [|m0 ms] eqn:Hf; [contradiction|].
    simpl in Hk. apply entries_of_Some_In in Hk.
    eexists. split; [exact Hk|].
    change (In (Exporter.measurement_entry m)
              (map Exporter.measurement_entry (m0 :: ms))).
    apply in_map. exact Hin.
  - exact Hl.
  - exact Hempty.
  - unfold Exporter.export_measurements_csv. fold rows.
    destruct rows as [|m ms] eqn:Hrows.
    + split; [reflexivity|]. apply Hempty. reflexivity.
    + split; [discriminate|]. split; [reflexivity|]. split; [reflexivity|].
      rewrite length_map. symmetry. exact Hl.
Qed.

(* ===================================================================== *)
(** * export.py: the sections and the statistics of the JSON export *)
(* ===================================================================== *)

Section ExportSections.
Import Exporter.

Lemma divide_times (a : Q) (n : nat) :
  (0 < n)%nat -> (divide a n * inject_Z (Z.of_nat n) == a)%Q.
Proof.
  intros Hn. unfold divide. field.
  intros H0. unfold Qeq in H0. simpl in H0. lia.
Qed.

Lemma select_ordered_nil {K V : Type} `{Countable K} (column : V -> Z)
    (keep : V -> bool) (table : gmap K V) :
  select_ordered column keep table = [] <->
  forall k x, table !! k = Some x -> keep x = false.
Proof.
  split.
  - intros Hnil k x Hk. destruct (keep x) eqn:Hkeep; [|reflexivity].
    assert (Hin : In x (select_ordered column keep table))
      by (apply select_ordered_In; split; [exact Hkeep|eauto]).
    rewrite Hnil in Hin. contradiction.
  - intros Hnone.
    destruct (select_ordered column keep table) as [|x l] eqn:Hs; [reflexivity|].
    assert (Hin : In x (select_ordered column keep table))
      by (rewrite Hs; left; reflexivity).
    apply select_ordered_In in Hin as [Hkeep (k & Hk)].
    rewrite (Hnone k x Hk) in Hkeep. discriminate Hkeep.
Qed.

Lemma map_eq_nil_iff {A B : Type} (f : A -> B) (l : list A) :
  map f l = [] <-> l = [].
Proof. destruct l; simpl; split; congruence. Qed.

Lemma existsb_false_iff {A : Type} (p : A -> bool) (l : list A) :
  existsb p l = false <-> forall x, In x l -> p x = false.
Proof.
  induction l as [|y l IH]; simpl.
  - split; [intros _ x []|reflexivity].
  - rewrite orb_false_iff, IH. split.
    + intros [Hy Hl] x [<-|Hx]; [exact Hy|apply Hl, Hx].
    + intros Hall. split; [apply Hall; left; reflexivity|].
      intros x Hx. apply Hall. right. exact Hx.
Qed.

Lemma export_measurements_nil (d : DB) (start_date end_date : option datetime) :
  _export_measurements start_date end_date d = [] <->
  get_all_measurements start_date end_date d = [].
Proof.
  unfold _export_measurements.
  destruct (export_groups (get_all_measurements start_date end_date d)
              (select_ordered_Sorted _ _ _)) as (_ & _ & _ & Hl).
  split.
  - intros Hg. rewrite Hg in Hl. simpl in Hl.
    destruct (get_all_measurements start_date end_date d);
      [reflexivity|discriminate Hl].
  - intros ->. reflexivity.
Qed.

End ExportSections.

(** X30. What [export_to_json] writes. The sections [activity], [sleep]
    and [heart_rate] are always there, also for an empty database; the
    section [measurements] is left out exactly when no stored measurement
    lies in the date range, and [export_metadata] exactly when
    [include_metadata] is off. The [database_stats] of the metadata count
    the whole database, whatever the date range. The statistics of a
    section are the empty dictionary exactly when the section has no
    records; otherwise its count is the number of records the range query
    returned. [avg_quality] is [None] exactly when no session has a
    quality other than [None] and [0], and else the mean over the sessions
    that have one (in exact arithmetic). *)
Theorem X30_export_sections_and_statistics (now : datetime)
    (start_date end_date : option datetime) (include_metadata : bool) (d : DB) :
  let data := Exporter.export_to_json now start_date end_date include_metadata d in
  let a := Exporter._export_activity start_date end_date d in
  let s := Exporter._export_sleep start_date end_date d in
  let h := Exporter._export_heart_rate start_date end_date d in
  Exporter.x_activity data = Some a /\
  Exporter.x_sleep data = Some s /\
  Exporter.x_heart_rate data = Some h /\
  (Exporter.x_measurements data = None <->
   forall k m, measurements d !! k = Some m ->
               within start_date end_date (ms_timestamp m) = false) /\
  (forall g, Exporter.x_measurements data = Some g ->
     g = Exporter._export_measurements start_date end_date d) /\
  (Exporter.export_metadata data = None <-> include_metadata = false) /\
  (forall md, Exporter.export_metadata data = Some md ->
     Exporter.database_stats md = get_statistics d /\
     Exporter.date_range md = (start_date, end_date) /\
     Exporter.export_time md = now) /\
  (length (Exporter.daily_summary a)
   = length (get_all_activity (option_map inl start_date)
               (option_map inl end_date) d) /\
   (Exporter.activity_statistics a = None <-> Exporter.daily_summary a = []) /\
   forall st, Exporter.activity_statistics a = Some st ->
     Exporter.total_days st = length (Exporter.daily_summary a) /\
     (0 < Exporter.total_days st)%nat /\
     (Exporter.avg_steps st * inject_Z (Z.of_nat (Exporter.total_days st))
      == inject_Z (Exporter.sumZ
                     (map (fun e => Exporter.or0Z (Exporter.de_steps e))
                        (Exporter.daily_summary a))))%Q) /\
  (length (Exporter.sessions s) = length (get_all_sleep start_date end_date d) /\
   (Exporter.sleep_statistics s = None <-> Exporter.sessions s = []) /\
   forall st, Exporter.sleep_statistics s = Some st ->
     Exporter.total_sessions st = length (Exporter.sessions s) /\
     (0 < Exporter.total_sessions st)%nat /\
     Exporter.total_sleep_time st
     = Exporter.sumZ (map Exporter.se_duration (Exporter.sessions s)) /\
     (Exporter.avg_quality st = None <->
      forall e, In e (Exporter.sessions s) ->
        Exporter.se_quality e = None \/ Exporter.se_quality e = Some 0) /\
     forall q, Exporter.avg_quality st = Some q ->
       let rated := List.filter (fun e => truthy_optZ (Exporter.se_quality e))
                      (Exporter.sessions s) in
       (0 < length rated)%nat /\
       (q * inject_Z (Z.of_nat (length rated))
        == inject_Z (Exporter.sumZ
                       (map (fun e => Exporter.or0Z (Exporter.se_quality e))
                          rated)))%Q) /\
  (length (Exporter.records h) = length (get_all_heart_rate start_date end_date d) /\
   (Exporter.heart_rate_statistics h = None <-> Exporter.records h = []) /\
   forall st, Exporter.heart_rate_statistics h = Some st ->
     Exporter.total_records st = length (Exporter.records h) /\
     (0 < Exporter.total_records st)%nat) /\
  (start_date = None -> end_date = None ->
   length (Exporter.daily_summary a) = n_activity_summary (get_statistics d) /\
   length (Exporter.sessions s) = n_sleep_summary (get_statistics d) /\
   length (Exporter.records h) = n_heart_rate (get_statistics d)).
Proof.
  intros data a s h.
  split; [reflexivity|]. split; [reflexivity|]. split; [reflexivity|].
  split; [|split; [|split; [|split; [|split; [|split; [|split]]]]]].
  - unfold data, Exporter.export_to_json. cbn [Exporter.x_measurements].
    rewrite <- (select_ordered_nil ms_timestamp
                  (fun m => within start_date end_date (ms_timestamp m))).
    fold (get_all_measurements start_date end_date d).
    rewrite <- export_measurements_nil.
    destruct (Exporter._export_measurements start_date end_date d); simpl.
    + split; reflexivity.
    + split; intros Hx; discriminate Hx.
  - intros g. unfold data, Exporter.export_to_json. cbn [Exporter.x_measurements].
    destruct (Exporter.truthy_grouped _); simpl; [|intros Hx; discriminate Hx].
    intros [= <-]. reflexivity.
  - unfold data, Exporter.export_to_json. cbn [Exporter.export_metadata].
    destruct include_metadata; simpl; split; try reflexivity; intros Hx; discriminate Hx.
  - intros md. unfold data, Exporter.export_to_json.
    cbn [Exporter.export_metadata].
    destruct include_metadata; simpl; [|intros Hx; discriminate Hx].
    intros [= <-]. repeat split; reflexivity.
  - unfold a, Exporter._export_activity.
    cbn [Exporter.daily_summary Exporter.activity_statistics].
    split; [apply length_map|].
    destruct (map Exporter.daily_entry _) as [|e es]; split.
    + split; reflexivity.
    + intros st Hst. discriminate Hst.
    + split; intros Hx; discriminate Hx.
    + intros st [= <-]. cbn [Exporter.total_days Exporter.avg_steps].
      split; [reflexivity|]. split; [simpl; lia|].
      apply divide_times. simpl. lia.
  - unfold s, Exporter._export_sleep.
    cbn [Exporter.sessions Exporter.sleep_statistics].
    split; [apply length_map|].
    destruct (map Exporter.session_entry _) as [|e es]; split.
    + split; reflexivity.
    + intros st Hst. discriminate Hst.
    + split; intros Hx; discriminate Hx.
    + intros st Hst. apply (inj Some) in Hst. subst st. set (ss := e :: es).
      cbn [Exporter.total_sessions Exporter.total_sleep_time Exporter.avg_quality].
      split; [reflexivity|]. split; [simpl; lia|]. split; [reflexivity|].
      destruct (existsb (fun s0 => truthy_optZ (Exporter.se_quality s0)) ss)
        eqn:Hany; split.
      * split; [intros Hx; discriminate Hx|]. intros Hall. exfalso.
        apply existsb_exists in Hany as (x & Hx & Hq).
        destruct (Hall x Hx) as [Hn|Hn]; rewrite Hn in Hq; discriminate Hq.
      * intros q Hq. apply (inj Some) in Hq. subst q.
        set (rated := List.filter _ ss).
        assert (Hpos : (0 < length rated)%nat).
        { apply existsb_exists in Hany as (x & Hx & Hq).
          assert (Hin : In x rated) by (apply filter_In; split; assumption).
          destruct rated; [contradiction|simpl; lia]. }
        split; [exact Hpos|]. apply divide_times. exact Hpos.
      * split; [intros _|reflexivity]. intros x Hx.
        pose proof (proj1 (existsb_false_iff _ _) Hany x Hx) as Hq.
        cbv beta in Hq. revert Hq.
        destruct (Exporter.se_quality x) as [n|]; [|left; reflexivity].
        intros Hq. right. simpl in Hq. apply negb_false_iff, Z.eqb_eq in Hq. congruence.
      * intros q Hq. discriminate Hq.
  - unfold h, Exporter._export_heart_rate.
    cbn [Exporter.records Exporter.heart_rate_statistics].
    split; [apply length_map|].
    destruct (map Exporter.heart_rate_entry _) as [|e es]; split.
    + split; reflexivity.
    + intros st Hst. discriminate Hst.
    + split; intros Hx; discriminate Hx.
    + intros st [= <-]. cbn [Exporter.total_records].
      split; [reflexivity|]. simpl. lia.
  - intros -> ->. unfold a, s, h, Exporter._export_activity,
      Exporter._export_sleep, Exporter._export_heart_rate.
    cbn [Exporter.daily_summary Exporter.sessions Exporter.records].
    rewrite !length_map. unfold get_all_activity, get_all_sleep, get_all_heart_rate.
    split; [|split]; apply select_ordered_all_length; reflexivity.
Qed.
